(** * restaurant_queue: the waitlist, the table store, the seating allocator
      and the WhatsApp conversation handler of [restaurant.py]

    The development is a shallow embedding of [src/restaurant.py]:

    - Python [str] values are [string]s; the string methods the handler uses
      ([lower], [upper], [strip], [replace], [isdigit], [split], [int]) are
      written out as CPython 3.11 has them on ASCII text, that is on the
      code points below 128. On other code points Python knows more
      whitespace, digits and letters; what is proved of a text is proved of
      the texts for which [isascii] holds.
    - The SQLite file [users.db] is a record with the two tables as lists of
      rows in rowid order, and the AUTOINCREMENT counter of each of them.
      SQLite's default configuration is assumed (foreign keys are not
      enforced unless a connection asks for it, and no connection here does),
      and statements do not fail: the [except sqlite3.Error] handlers are
      not reachable in the model.
    - [CURRENT_TIMESTAMP] is a reading of a clock. SQLite gives it as a
      text of fixed width whose order is the order of the instants, so the
      readings are integers here; the [k]-th statement that reads the clock
      gets [clock k], for an arbitrary [clock].
    - [send_message] and [print] append to a trace of events; the texts are
      kept as the template and the values put into it.
    - [user_states], the module-level dict, is a [gmap] from phone numbers
      to sessions.
    - [attempt_seating_allocation] calls itself; [fuel] bounds the depth of
      calls, and a run that would go deeper has no result. *)

From Stdlib Require Import ZArith Ascii String List Sorted Permutation Lia Bool.
From stdpp Require Import base option list gmap strings.

Local Open Scope string_scope.
Local Open Scope Z_scope.

(** ** Python string methods, on ASCII text *)

(** [s.isascii()]: every character is a code point below 128. *)
Definition is_ascii (c : ascii) : bool := (nat_of_ascii c <? 128)%nat.

Fixpoint isascii (s : string) : bool :=
  match s with
  | EmptyString => true
  | String c r => is_ascii c && isascii r
  end.

(** Whitespace as [str.strip] knows it: tab to carriage return, the four
    separators 28 to 31, and the blank. *)
Definition is_space (c : ascii) : bool :=
  let n := nat_of_ascii c in
  ((9 <=? n) && (n <=? 13) || (28 <=? n) && (n <=? 32))%nat.

Definition is_digit (c : ascii) : bool :=
  let n := nat_of_ascii c in ((48 <=? n) && (n <=? 57))%nat.

Definition is_upper (c : ascii) : bool :=
  let n := nat_of_ascii c in ((65 <=? n) && (n <=? 90))%nat.

Definition is_lower (c : ascii) : bool :=
  let n := nat_of_ascii c in ((97 <=? n) && (n <=? 122))%nat.

Definition lower_char (c : ascii) : ascii :=
  if is_upper c then ascii_of_nat (nat_of_ascii c + 32) else c.

Definition upper_char (c : ascii) : ascii :=
  if is_lower c then ascii_of_nat (nat_of_ascii c - 32) else c.

Fixpoint str_map (f : ascii -> ascii) (s : string) : string :=
  match s with
  | EmptyString => EmptyString
  | String c r => String (f c) (str_map f r)
  end.

(** [s.lower()] and [s.upper()]. *)
Definition lower (s : string) : string := str_map lower_char s.
Definition upper (s : string) : string := str_map upper_char s.

(** [s.lstrip()], [s.rstrip()] and [s.strip()]. *)
Fixpoint lstrip (s : string) : string :=
  match s with
  | EmptyString => EmptyString
  | String c r => if is_space c then lstrip r else s
  end.

Fixpoint rstrip (s : string) : string :=
  match s with
  | EmptyString => EmptyString
  | String c r =>
      match rstrip r with
      | EmptyString => if is_space c then EmptyString else String c EmptyString
      | r' => String c r'
      end
  end.

Definition strip (s : string) : string := rstrip (lstrip s).

(** [s.replace(old, new)] for a non-empty [old]: occurrences are found from
    the left and do not overlap.  [skip] counts the characters of the
    occurrence just replaced that are still to be dropped. *)
Fixpoint replace_from (old new : string) (skip : nat) (s : string) : string :=
  match s with
  | EmptyString => EmptyString
  | String c r =>
      match skip with
      | S k => replace_from old new k r
      | O =>
          if String.prefix old s
          then new ++ replace_from old new (String.length old - 1) r
          else String c (replace_from old new O r)
      end
  end.

Definition replace (old new s : string) : string := replace_from old new O s.

Fixpoint all_digits (s : string) : bool :=
  match s with
  | EmptyString => true
  | String c r => is_digit c && all_digits r
  end.

(** [s.isdigit()]: at least one character, and all of them digits. *)
Definition isdigit (s : string) : bool :=
  match s with
  | EmptyString => false
  | _ => all_digits s
  end.

(** [s.split(sep)] for a one-character separator. *)
Fixpoint split (sep : ascii) (s : string) : list string :=
  match s with
  | EmptyString => [EmptyString]
  | String c r =>
      if Ascii.eqb c sep then EmptyString :: split sep r
      else match split sep r with
           | h :: t => String c h :: t
           | [] => [String c EmptyString]
           end
  end.

Definition digit_value (c : ascii) : Z := Z.of_nat (nat_of_ascii c) - 48.

(** Whitespace as [int] skips it around a literal: tab to carriage return
    and the blank, not the separators 28 to 31. *)
Definition is_literal_space (c : ascii) : bool :=
  let n := nat_of_ascii c in
  ((9 <=? n) && (n <=? 13) || (n =? 32))%nat.

Fixpoint literal_lstrip (s : string) : string :=
  match s with
  | EmptyString => EmptyString
  | String c r => if is_literal_space c then literal_lstrip r else s
  end.

Fixpoint literal_rstrip (s : string) : string :=
  match s with
  | EmptyString => EmptyString
  | String c r =>
      match literal_rstrip r with
      | EmptyString =>
          if is_literal_space c then EmptyString else String c EmptyString
      | r' => String c r'
      end
  end.

(** The number of decimal digits of a text. *)
Fixpoint count_digits (s : string) : Z :=
  match s with
  | EmptyString => 0
  | String c r => (if is_digit c then 1 else 0) + count_digits r
  end.

(** [sys.get_int_max_str_digits()], as the interpreter starts. *)
Definition int_max_str_digits : Z := 4300.

(** The digits of an integer literal: decimal digits, where single
    underscores may separate two digits. *)
Fixpoint digits_value (acc : Z) (after_digit : bool) (s : string) : option Z :=
  match s with
  | EmptyString => if after_digit then Some acc else None
  | String c r =>
      if is_digit c then digits_value (10 * acc + digit_value c) true r
      else if Ascii.eqb c "_" && after_digit then digits_value acc false r
      else None
  end.

(** An optional sign and the digits, of which there are at most
    [int_max_str_digits]. *)
Definition int_literal (s : string) : option Z :=
  if (int_max_str_digits <? count_digits s)%Z then None
  else match s with
       | String "+" r => digits_value 0 false r
       | String "-" r => Z.opp <$> digits_value 0 false r
       | r => digits_value 0 false r
       end.

(** [int(s)]: [Some n] when [s] is an integer literal in base ten, [None]
    when Python raises [ValueError]. *)
Definition int (s : string) : option Z :=
  int_literal (literal_rstrip (literal_lstrip s)).

(** ** The data model *)

(** The [status] column of [tables]: ['free'] or ['occupied']. *)
Inductive status := free | occupied.

(** A row of [users], the waitlist. *)
Record user_row := {
  u_id : Z;
  u_phone_number : string;
  u_name : string;
  u_people_count : Z;
  u_timestamp : Z
}.

(** A row of [tables]. [None] is SQL's NULL. *)
Record table_row := {
  t_id : Z;
  t_table_number : string;
  t_capacity : Z;
  t_status : status;
  t_occupied_by_user_id : option Z;
  t_occupied_timestamp : option Z;
  t_timestamp : Z
}.

(** [users.db]: both tables in rowid order, and for each the largest rowid
    it ever held (AUTOINCREMENT hands out the next one). *)
Record database := {
  users : list user_row;
  tables : list table_row;
  users_seq : Z;
  tables_seq : Z
}.

(** ["customer"] and ["waiter"]. *)
Inductive role := Customer | Waiter.

Inductive state :=
  | initial
  | awaiting_waiter_password
  | awaiting_free_table_number
  | awaiting_name_people.

(** A value of [user_states]; its ["data"] entry is always the empty dict and
    is left out. *)
Record session := { s_role : role; s_state : state }.

(** The texts handed to [send_message], one constructor per literal or
    f-string of the source, with the values the f-string interpolates. *)
Inductive message :=
  | msg_enter_password
  | msg_waiter_authenticated
  | msg_incorrect_password
  | msg_table_marked_free (table_number : string)
  | msg_could_not_find_table (table_number : string)
  | msg_enter_name_and_people
  | msg_must_be_positive
  | msg_more_than_six
  | msg_in_the_queue (name : string) (people_count : Z)
  | msg_issue_adding
  | msg_format_name_number
  | msg_say_hi_or_waiter
  | msg_only_text
  | msg_table_ready (name : string) (table_number : string).

(** The lines the program prints. *)
Inductive log_line :=
  | log_updated_user (user_id : Z) (phone name : string) (people_count : Z)
  | log_saved_new_user (user_id : Z) (phone name : string) (people_count : Z)
  | log_marked_free (table_number : string)
  | log_not_found (table_number : string)
  | log_seated (name : string) (customer_id : Z) (table_number : string) (table_id : Z)
  | log_attempting
  | log_no_further
  | log_db_initialized.

Inductive event :=
  | Sent (to : string) (text : message)
  | Printed (line : log_line).

(** Everything the handlers read and write. [ticks] counts the statements
    that have read [CURRENT_TIMESTAMP] so far. *)
Record world := {
  db : database;
  user_states : gmap string session;
  trace : list event;
  ticks : nat
}.

Definition set_db (d : database) (w : world) : world :=
  {| db := d; user_states := user_states w; trace := trace w; ticks := ticks w |}.

Definition set_session (sender : string) (s : session) (w : world) : world :=
  {| db := db w; user_states := <[sender := s]> (user_states w);
     trace := trace w; ticks := ticks w |}.

Definition emit (e : event) (w : world) : world :=
  {| db := db w; user_states := user_states w; trace := trace w ++ [e];
     ticks := ticks w |}.

Definition tick (w : world) : world :=
  {| db := db w; user_states := user_states w; trace := trace w;
     ticks := S (ticks w) |}.

(** [send_message(to, text)]: the request to the messaging API is recorded. *)
Definition send_message (to : string) (text : message) (w : world) : world :=
  emit (Sent to text) w.

Definition print (l : log_line) (w : world) : world := emit (Printed l) w.

(** A stable insertion sort: the order [ORDER BY] and [sorted] give, rows
    with equal keys staying in the order they were read. *)
Section Sort.
Context {A : Type} (le : A -> A -> bool).

Fixpoint insert_sorted (x : A) (l : list A) : list A :=
  match l with
  | [] => [x]
  | y :: r => if le x y then x :: l else y :: insert_sorted x r
  end.

Fixpoint sort_by (l : list A) : list A :=
  match l with
  | [] => []
  | x :: r => insert_sorted x (sort_by r)
  end.
End Sort.

Definition status_eqb (a b : status) : bool :=
  match a, b with
  | free, free | occupied, occupied => true
  | _, _ => false
  end.

(** A dict of the list [get_free_tables] returns. *)
Record free_table := {
  f_id : Z;
  f_table_number : string;
  f_capacity : Z
}.

(** A tuple [(wasted_seats, customer_timestamp, customer, table)]. *)
Record allocation := {
  a_wasted_seats : Z;
  a_customer_timestamp : Z;
  a_customer : user_row;
  a_table : free_table
}.

(** The database file before [init_db] has ever run. *)
Definition empty_db : database :=
  {| users := []; tables := []; users_seq := 0; tables_seq := 0 |}.

Definition initial_tables_config : list (string * Z) :=
  [("T1", 2); ("T2", 2); ("T3", 2); ("T4", 2);
   ("T5", 4); ("T6", 4); ("T7", 4); ("T8", 4);
   ("T9", 6); ("T10", 6)].

(** ** The program *)

Section Program.

(** [clock k] is what [CURRENT_TIMESTAMP] evaluates to in the [k]-th
    statement that reads it. *)
Variable clock : nat -> Z.

Definition current_timestamp (w : world) : Z := clock (ticks w).

(** [INSERT OR IGNORE INTO tables (table_number, capacity, status)
    VALUES (?, ?, 'free')]. The statement takes the next AUTOINCREMENT
    value before it meets the UNIQUE constraint: when the number is taken
    no row is written, and the value is used up all the same. *)
Definition insert_or_ignore_table (table_num : string) (capacity : Z)
    (w : world) : world :=
  let d := db w in
  if existsb (fun t => (t_table_number t =? table_num)%string) (tables d)
  then set_db {| users := users d;
                 tables := tables d;
                 users_seq := users_seq d;
                 tables_seq := tables_seq d + 1 |} w
  else
    let row := {| t_id := tables_seq d + 1;
                  t_table_number := table_num;
                  t_capacity := capacity;
                  t_status := free;
                  t_occupied_by_user_id := None;
                  t_occupied_timestamp := None;
                  t_timestamp := current_timestamp w |} in
    tick (set_db {| users := users d;
                    tables := tables d ++ [row];
                    users_seq := users_seq d;
                    tables_seq := tables_seq d + 1 |} w).

Definition init_db (w : world) : world :=
  let w := fold_left (fun w cfg => insert_or_ignore_table (fst cfg) (snd cfg) w)
                     initial_tables_config w in
  print log_db_initialized w.

Definition save_user_data_to_db (phone_number name : string)
    (people_count : Z) (w : world) : Z * world :=
  let d := db w in
  match List.find (fun u => (u_phone_number u =? phone_number)%string) (users d) with
  | Some existing_user =>
      let user_id := u_id existing_user in
      let updated u :=
        if (u_id u =? user_id)%Z
        then {| u_id := u_id u;
                u_phone_number := u_phone_number u;
                u_name := name;
                u_people_count := people_count;
                u_timestamp := current_timestamp w |}
        else u in
      let w := tick (set_db {| users := List.map updated (users d);
                               tables := tables d;
                               users_seq := users_seq d;
                               tables_seq := tables_seq d |} w) in
      (user_id, print (log_updated_user user_id phone_number name people_count) w)
  | None =>
      let user_id := users_seq d + 1 in
      let row := {| u_id := user_id;
                    u_phone_number := phone_number;
                    u_name := name;
                    u_people_count := people_count;
                    u_timestamp := current_timestamp w |} in
      let w := tick (set_db {| users := users d ++ [row];
                               tables := tables d;
                               users_seq := user_id;
                               tables_seq := tables_seq d |} w) in
      (user_id, print (log_saved_new_user user_id phone_number name people_count) w)
  end.

Definition update_table_status_to_free (table_number : string) (w : world)
    : bool * world :=
  let d := db w in
  let selected t := (t_table_number t =? table_number)%string in
  let freed t :=
    if selected t
    then {| t_id := t_id t;
            t_table_number := t_table_number t;
            t_capacity := t_capacity t;
            t_status := free;
            t_occupied_by_user_id := None;
            t_occupied_timestamp := None;
            t_timestamp := current_timestamp w |}
    else t in
  let rowcount := length (List.filter selected (tables d)) in
  let w := tick (set_db {| users := users d;
                           tables := List.map freed (tables d);
                           users_seq := users_seq d;
                           tables_seq := tables_seq d |} w) in
  if (0 <? rowcount)%nat
  then (true, print (log_marked_free table_number) w)
  else (false, print (log_not_found table_number) w).

(** [SELECT ... FROM users ORDER BY timestamp ASC]. SQLite does not say
    in which order rows of equal timestamp come; they are taken in rowid
    order, as a scan of the table followed by a stable sort gives them. *)
Definition get_waiting_customers (w : world) : list user_row :=
  sort_by (fun a b => (u_timestamp a <=? u_timestamp b)%Z) (users (db w)).

(** [SELECT id, table_number, capacity FROM tables WHERE status = 'free'
    ORDER BY capacity ASC], tables of equal capacity in rowid order. *)
Definition get_free_tables (w : world) : list free_table :=
  List.map (fun t => {| f_id := t_id t;
                        f_table_number := t_table_number t;
                        f_capacity := t_capacity t |})
    (sort_by (fun a b => (t_capacity a <=? t_capacity b)%Z)
       (List.filter (fun t => status_eqb (t_status t) free) (tables (db w)))).

Definition seat_customer (customer_id table_id : Z) (table_number : string)
    (customer_phone_number customer_name : string) (w : world) : world :=
  let d := db w in
  let seated t :=
    if (t_id t =? table_id)%Z
    then {| t_id := t_id t;
            t_table_number := t_table_number t;
            t_capacity := t_capacity t;
            t_status := occupied;
            t_occupied_by_user_id := Some customer_id;
            t_occupied_timestamp := Some (current_timestamp w);
            t_timestamp := current_timestamp w |}
    else t in
  let w := tick (set_db {| users := List.filter (fun u => negb (u_id u =? customer_id)%Z)
                                      (users d);
                           tables := List.map seated (tables d);
                           users_seq := users_seq d;
                           tables_seq := tables_seq d |} w) in
  let w := send_message customer_phone_number
             (msg_table_ready customer_name table_number) w in
  print (log_seated customer_name customer_id table_number table_id) w.

(** One turn of the loop over [free_tables] for one customer. The state is
    the pair [(best_match_for_customer, min_wasted_seats_for_customer)];
    the second component is [None] while it still is [float('inf')]. *)
Definition consider_table (customer : user_row)
    (st : option allocation * option Z) (table : free_table)
    : option allocation * option Z :=
  if (u_people_count customer <=? f_capacity table)%Z then
    let wasted_seats := f_capacity table - u_people_count customer in
    let this := {| a_wasted_seats := wasted_seats;
                   a_customer_timestamp := u_timestamp customer;
                   a_customer := customer;
                   a_table := table |} in
    match snd st with
    | None => (Some this, Some wasted_seats)
    | Some min_wasted_seats_for_customer =>
        if (wasted_seats <? min_wasted_seats_for_customer)%Z
        then (Some this, Some wasted_seats)
        else if (wasted_seats =? min_wasted_seats_for_customer)%Z
        then match fst st with
             | Some best =>
                 if (u_timestamp customer <? a_customer_timestamp best)%Z
                 then (Some this, snd st) else st
             | None => st
             end
        else st
    end
  else st.

Definition best_match_for_customer (customer : user_row)
    (free_tables : list free_table) : option allocation :=
  fst (fold_left (consider_table customer) free_tables (None, None)).

(** The loop over [waiting_customers] that fills [potential_allocations]. *)
Fixpoint potential_allocations (waiting_customers : list user_row)
    (free_tables : list free_table) : list allocation :=
  match waiting_customers with
  | [] => []
  | customer :: rest =>
      match best_match_for_customer customer free_tables with
      | Some best => best :: potential_allocations rest free_tables
      | None => potential_allocations rest free_tables
      end
  end.

(** The order of the keys [(x[0], x[1])]. *)
Definition key_le (x y : allocation) : bool :=
  (a_wasted_seats x <? a_wasted_seats y)%Z
  || ((a_wasted_seats x =? a_wasted_seats y)%Z
      && (a_customer_timestamp x <=? a_customer_timestamp y)%Z).

Definition sorted_allocations (potential : list allocation) : list allocation :=
  sort_by key_le potential.

(** The loop that executes allocations. It leaves at the first allocation
    it commits, so the two sets are as they were when it started every time
    they are read. The result says whether something was allocated. *)
Fixpoint execute_allocations (sorted : list allocation)
    (seated_customer_ids occupied_table_ids : gset Z) (w : world)
    : bool * world :=
  match sorted with
  | [] => (false, w)
  | x :: rest =>
      let customer := a_customer x in
      let table := a_table x in
      if bool_decide (u_id customer ∉ seated_customer_ids)
         && bool_decide (f_id table ∉ occupied_table_ids)
      then (true, seat_customer (u_id customer) (f_id table)
                    (f_table_number table) (u_phone_number customer)
                    (u_name customer) w)
      else execute_allocations rest seated_customer_ids occupied_table_ids w
  end.

(** One pass: everything [attempt_seating_allocation] does before it
    decides whether to call itself. *)
Definition allocation_pass (w : world) : bool * world :=
  let w := print log_attempting w in
  let waiting_customers := get_waiting_customers w in
  let free_tables := get_free_tables w in
  let sorted := sorted_allocations
                  (potential_allocations waiting_customers free_tables) in
  execute_allocations sorted ∅ ∅ w.

(** [fuel] is the depth of calls the interpreter still allows; [None] is
    the run that exhausts it. *)
Fixpoint attempt_seating_allocation (fuel : nat) (w : world) : option world :=
  match fuel with
  | O => None
  | S fuel' =>
      let '(allocated_something, w) := allocation_pass w in
      if allocated_something
      then attempt_seating_allocation fuel' w
      else Some (print log_no_further w)
  end.

(** What the handler keeps of a message of the payload. *)
Record inbound_message := {
  m_from : string;
  m_type : string;
  m_text_body : string
}.

Definition fresh_session : session :=
  {| s_role := Customer; s_state := initial |}.

Definition state_eqb (a b : state) : bool :=
  match a, b with
  | initial, initial
  | awaiting_waiter_password, awaiting_waiter_password
  | awaiting_free_table_number, awaiting_free_table_number
  | awaiting_name_people, awaiting_name_people => true
  | _, _ => false
  end.

Definition role_eqb (a b : role) : bool :=
  match a, b with
  | Customer, Customer | Waiter, Waiter => true
  | _, _ => false
  end.

(** The table number the waiter's text stands for. *)
Definition normalize_table_number (text : string) : string :=
  let table_input := strip (replace "table" "" text) in
  if isdigit table_input then ("T" ++ table_input)%string
  else upper table_input.

(** The chain of [if]/[elif] of [webhook] on the session and the text of a
    text message. *)
Definition handle_text (fuel : nat) (sender : string) (user_state : session)
    (text : string) (w : world) : option world :=
  if state_eqb (s_state user_state) initial && (text =? "waiter")%string then
    let w := send_message sender msg_enter_password w in
    Some (set_session sender
            {| s_role := Waiter; s_state := awaiting_waiter_password |} w)
  else if state_eqb (s_state user_state) awaiting_waiter_password
          && role_eqb (s_role user_state) Waiter then
    if (text =? "waiter123")%string then
      let w := send_message sender msg_waiter_authenticated w in
      Some (set_session sender
              {| s_role := s_role user_state;
                 s_state := awaiting_free_table_number |} w)
    else
      let w := send_message sender msg_incorrect_password w in
      Some (set_session sender fresh_session w)
  else if state_eqb (s_state user_state) awaiting_free_table_number
          && role_eqb (s_role user_state) Waiter then
    let table_number := normalize_table_number text in
    let '(updated, w) := update_table_status_to_free table_number w in
    let after :=
      if updated
      then attempt_seating_allocation fuel
             (send_message sender (msg_table_marked_free table_number) w)
      else Some (send_message sender
                   (msg_could_not_find_table table_number) w) in
    match after with
    | Some w => Some (set_session sender fresh_session w)
    | None => None
    end
  else if state_eqb (s_state user_state) initial && (text =? "hi")%string then
    let w := send_message sender msg_enter_name_and_people w in
    Some (set_session sender
            {| s_role := Customer; s_state := awaiting_name_people |} w)
  else if state_eqb (s_state user_state) awaiting_name_people
          && role_eqb (s_role user_state) Customer then
    match List.map strip (split "," text) with
    | [name; people_count_str] =>
        match int people_count_str with
        | Some people_count =>
            if (people_count <=? 0)%Z then
              Some (send_message sender msg_must_be_positive w)
            else if (6 <? people_count)%Z then
              Some (send_message sender msg_more_than_six w)
            else
              let '(user_id, w) :=
                save_user_data_to_db sender name people_count w in
              if negb (user_id =? 0)%Z then
                let w := send_message sender
                           (msg_in_the_queue name people_count) w in
                attempt_seating_allocation fuel
                  (set_session sender fresh_session w)
              else Some (send_message sender msg_issue_adding w)
        | None => Some (send_message sender msg_format_name_number w)
        end
    | _ => Some (send_message sender msg_format_name_number w)
    end
  else Some (send_message sender msg_say_hi_or_waiter w).

(** The body of the loops of [webhook], for one message. *)
Definition handle_message (fuel : nat) (msg : inbound_message) (w : world)
    : option world :=
  let sender := m_from msg in
  let w := match user_states w !! sender with
           | None => set_session sender fresh_session w
           | Some _ => w
           end in
  let user_state := default fresh_session (user_states w !! sender) in
  if (m_type msg =? "text")%string then
    handle_text fuel sender user_state (strip (lower (m_text_body msg))) w
  else Some (send_message sender msg_only_text w).

(** [webhook] on a payload whose changes carry the messages [msgs]. *)
Fixpoint webhook (fuel : nat) (msgs : list inbound_message) (w : world)
    : option world :=
  match msgs with
  | [] => Some w
  | msg :: rest =>
      match handle_message fuel msg w with
      | Some w => webhook fuel rest w
      | None => None
      end
  end.

End Program.

(** ** Schema constraints and reachable stores *)

(** What the schema promises of the file: [id] is a primary key handed out
    by AUTOINCREMENT from 1, [phone_number] and [table_number] are UNIQUE. *)
Record db_wf (d : database) : Prop := {
  wf_user_ids : List.NoDup (List.map u_id (users d));
  wf_phones : List.NoDup (List.map u_phone_number (users d));
  wf_table_ids : List.NoDup (List.map t_id (tables d));
  wf_table_numbers : List.NoDup (List.map t_table_number (tables d));
  wf_users_seq : Forall (fun u => 0 < u_id u <= users_seq d) (users d);
  wf_tables_seq : Forall (fun t => 0 < t_id t <= tables_seq d) (tables d);
  wf_seq_nonneg : 0 <= users_seq d /\ 0 <= tables_seq d
}.

(** A world in which nothing has happened yet. *)
Definition blank_world : world :=
  {| db := empty_db; user_states := ∅; trace := []; ticks := 0 |}.

(** Operations of the store, as the handlers invoke them. *)
Inductive store_op :=
  | op_enqueue (phone_number name : string) (people_count : Z)
  | op_release (table_number : string)
  | op_seat (customer_id table_id : Z) (table_number phone name : string).

Definition apply_op (clock : nat -> Z) (w : world) (op : store_op) : world :=
  match op with
  | op_enqueue phone name people => snd (save_user_data_to_db clock phone name people w)
  | op_release number => snd (update_table_status_to_free clock number w)
  | op_seat cid tid number phone name => seat_customer clock cid tid number phone name w
  end.

(** The store after seeding and then the operations [ops]. *)
Definition after_ops (clock : nat -> Z) (ops : list store_op) : world :=
  fold_left (apply_op clock) ops (init_db clock blank_world).

(** The invariant of the data model: an occupant is recorded exactly on the
    occupied tables. *)
Definition occupant_iff_occupied (t : table_row) : Prop :=
  is_Some (t_occupied_by_user_id t) <-> t_status t = occupied.

(** The row [update_table_status_to_free] writes over a selected row. *)
Definition freed_row (now : Z) (t : table_row) : table_row :=
  {| t_id := t_id t; t_table_number := t_table_number t;
     t_capacity := t_capacity t; t_status := free;
     t_occupied_by_user_id := None; t_occupied_timestamp := None;
     t_timestamp := now |}.

(** The row [seat_customer] writes over the table it assigns. *)
Definition seated_row (now customer_id : Z) (t : table_row) : table_row :=
  {| t_id := t_id t; t_table_number := t_table_number t;
     t_capacity := t_capacity t; t_status := occupied;
     t_occupied_by_user_id := Some customer_id;
     t_occupied_timestamp := Some now;
     t_timestamp := now |}.

(** What a table row says of who sits there. *)
Definition occupancy (t : table_row) : string * status * option Z * option Z :=
  (t_table_number t, t_status t, t_occupied_by_user_id t, t_occupied_timestamp t).

(** A table as seeding creates it. *)
Definition free_and_empty (t : table_row) : Prop :=
  t_status t = free /\ t_occupied_by_user_id t = None.

(** The tuple the inner loop builds for a customer and a table. *)
Definition candidate (c : user_row) (t : free_table) : allocation :=
  {| a_wasted_seats := f_capacity t - u_people_count c;
     a_customer_timestamp := u_timestamp c;
     a_customer := c;
     a_table := t |}.

(** What the scan of the free tables has found for [c] after the tables
    [seen]: nothing while none was large enough, else a table that wastes
    the fewest seats. *)
Definition scanned (c : user_row) (seen : list free_table)
    (st : option allocation * option Z) : Prop :=
  (st = (None, None) /\ forall t, In t seen -> f_capacity t < u_people_count c)
  \/ (exists t0, st = (Some (candidate c t0), Some (f_capacity t0 - u_people_count c))
        /\ In t0 seen /\ u_people_count c <= f_capacity t0
        /\ forall t, In t seen -> u_people_count c <= f_capacity t ->
                     f_capacity t0 <= f_capacity t).

(** The allocation a pass commits, if any: the first of the sorted pool. *)
Definition next_allocation (waiting : list user_row) (free_tables : list free_table)
    : option allocation :=
  head (sorted_allocations (potential_allocations waiting free_tables)).

(** The world after [seat_customer] has run for an allocation. *)
Definition commit (clock : nat -> Z) (x : allocation) (w : world) : world :=
  seat_customer clock (u_id (a_customer x)) (f_id (a_table x))
    (f_table_number (a_table x)) (u_phone_number (a_customer x))
    (u_name (a_customer x)) w.

(** The dict [get_free_tables] makes of a row. *)
Definition as_free_table (t : table_row) : free_table :=
  {| f_id := t_id t; f_table_number := t_table_number t;
     f_capacity := t_capacity t |}.

(** The test of the executing loop: neither the customer nor the table of
    [x] has been used in this run. *)
Definition unclaimed (seated_customer_ids occupied_table_ids : gset Z)
    (x : allocation) : bool :=
  bool_decide (u_id (a_customer x) ∉ seated_customer_ids)
  && bool_decide (f_id (a_table x) ∉ occupied_table_ids).

(** Whether a free table seats a party of [people]. *)
Definition seats (people : Z) (t : free_table) : bool :=
  people <=? f_capacity t.

(** The events a handler added to the trace. *)
Definition new_events (w w' : world) : list event :=
  drop (length (trace w)) (trace w').

(** A call of [save_user_data_to_db] prints one of two lines. *)
Definition is_enqueue (e : event) : bool :=
  match e with
  | Printed (log_saved_new_user _ _ _ _) | Printed (log_updated_user _ _ _ _) => true
  | _ => false
  end.

(** The handler answers [m] to [sender] and changes nothing else: every
    session and the database are as before. *)
Definition rejected (sender : string) (m : message) (w w' : world) : Prop :=
  trace w' = (trace w ++ [Sent sender m])%list
  /\ user_states w' = user_states w
  /\ db w' = db w.

(** The session [user_states] holds for [sender], the default one if none. *)
Definition session_of (sender : string) (w : world) : session :=
  default fresh_session (user_states w !! sender).

(** "The text splits on a comma into a name and an integer Count". *)
Definition name_and_count (text : string) : option (string * Z) :=
  match split "," text with
  | [name; count] =>
      match int (strip count) with
      | Some n => Some (strip name, n)
      | None => None
      end
  | _ => None
  end.

(** "Whitespace": what a text may be padded with, character by character. *)
Definition whitespace : list ascii :=
  [" "; "009"; "010"; "011"; "012"; "013"; "028"; "029"; "030"; "031"]%char.

Definition is_whitespace (c : ascii) : bool := existsb (Ascii.eqb c) whitespace.

(** A text of whitespace only. *)
Fixpoint padding (s : string) : bool :=
  match s with
  | EmptyString => true
  | String c r => is_whitespace c && padding r
  end.

Fixpoint last_char (c : ascii) (r : string) : ascii :=
  match r with
  | EmptyString => c
  | String d r' => last_char d r'
  end.

(** A text that neither begins nor ends with whitespace. *)
Definition trimmed (s : string) : bool :=
  match s with
  | EmptyString => true
  | String c r => negb (is_whitespace c) && negb (is_whitespace (last_char c r))
  end.

(** "Lowercased": [t] is [typed] with each capital letter A to Z replaced by
    its small letter, 32 code points further, and every other character
    kept. *)
Fixpoint lowercased (typed t : string) : bool :=
  match typed, t with
  | EmptyString, EmptyString => true
  | String c r, String d r' =>
      (if is_upper c then (nat_of_ascii d =? nat_of_ascii c + 32)%nat
       else Ascii.eqb d c)
      && lowercased r r'
  | _, _ => false
  end.

(** ** Notions for the properties of the whole program *)

(** Nobody on the waitlist fits a table that is free. *)
Definition settled (w : world) : Prop :=
  forall u t, In u (users (db w)) -> In t (get_free_tables w) ->
              f_capacity t < u_people_count u.

(** The pairs of role and state the handler assigns. *)
Definition valid_session (s : session) : Prop :=
  s = {| s_role := Customer; s_state := initial |}
  \/ s = {| s_role := Waiter; s_state := awaiting_waiter_password |}
  \/ s = {| s_role := Waiter; s_state := awaiting_free_table_number |}
  \/ s = {| s_role := Customer; s_state := awaiting_name_people |}.

(** The notification [seat_customer] sends. *)
Definition is_table_ready (e : event) : bool :=
  match e with
  | Sent _ (msg_table_ready _ _) => true
  | _ => false
  end.

(** What never changes of a table: its id, its number and its capacity. *)
Definition table_identity (t : table_row) : Z * string * Z :=
  (t_id t, t_table_number t, t_capacity t).

(** A text of decimal digits, at least one. *)
Definition digits (d : string) : Prop :=
  d <> "" /\ Forall (fun c => is_digit c = true) (list_ascii_of_string d).

(** ** Sample worlds *)

Definition sample_clock (k : nat) : Z := 1700000000 + 60 * Z.of_nat k.

(** The store right after [init_db] on a new file. *)
Definition seeded_world : world := init_db sample_clock blank_world.

(** A waiter who has given the password and is asked for a table number. *)
Definition waiter_prompted : world :=
  set_session "15550001"
    {| s_role := Waiter; s_state := awaiting_free_table_number |} seeded_world.

Definition unknown_table_message : inbound_message :=
  {| m_from := "15550001"; m_type := "text"; m_text_body := "Table 42" |}.

(** A table row as a seating or a release leaves it. *)
Definition sample_table (id : Z) (number : string) (capacity : Z)
    (occupant : option Z) : table_row :=
  {| t_id := id; t_table_number := number; t_capacity := capacity;
     t_status := match occupant with Some _ => occupied | None => free end;
     t_occupied_by_user_id := occupant;
     t_occupied_timestamp := match occupant with
                             | Some _ => Some 1700000900
                             | None => None
                             end;
     t_timestamp := 1700000900 |}.

Definition party_of_two : user_row :=
  {| u_id := 7; u_phone_number := "15550107"; u_name := "ann";
     u_people_count := 2; u_timestamp := 1700001000 |}.

Definition party_of_five : user_row :=
  {| u_id := 8; u_phone_number := "15550108"; u_name := "bob";
     u_people_count := 5; u_timestamp := 1700001060 |}.

(** Free tables of capacities 2, 2, 4 and 6, the six others occupied, and a
    party of 2 enqueued before a party of 5. *)
Definition two_parties_four_tables : world :=
  {| db := {| users := [party_of_two; party_of_five];
              tables := [sample_table 1 "T1" 2 None;
                         sample_table 2 "T2" 2 None;
                         sample_table 3 "T3" 2 (Some 1);
                         sample_table 4 "T4" 2 (Some 2);
                         sample_table 5 "T5" 4 None;
                         sample_table 6 "T6" 4 (Some 3);
                         sample_table 7 "T7" 4 (Some 4);
                         sample_table 8 "T8" 4 (Some 5);
                         sample_table 9 "T9" 6 None;
                         sample_table 10 "T10" 6 (Some 6)];
              users_seq := 8; tables_seq := 10 |};
     user_states := ∅; trace := []; ticks := 20 |}.

Definition early_pair : user_row :=
  {| u_id := 11; u_phone_number := "15550111"; u_name := "cleo";
     u_people_count := 2; u_timestamp := 1700002000 |}.

Definition late_pair : user_row :=
  {| u_id := 12; u_phone_number := "15550112"; u_name := "dan";
     u_people_count := 2; u_timestamp := 1700002060 |}.

(** Two parties of 2 and one free table, of capacity 2. *)
Definition two_pairs_one_table : world :=
  {| db := {| users := [early_pair; late_pair];
              tables := [sample_table 1 "T1" 2 (Some 1);
                         sample_table 2 "T2" 2 None;
                         sample_table 3 "T3" 2 (Some 3);
                         sample_table 4 "T4" 2 (Some 4);
                         sample_table 5 "T5" 4 (Some 5);
                         sample_table 6 "T6" 4 (Some 6);
                         sample_table 7 "T7" 4 (Some 7);
                         sample_table 8 "T8" 4 (Some 8);
                         sample_table 9 "T9" 6 (Some 9);
                         sample_table 10 "T10" 6 (Some 10)];
              users_seq := 12; tables_seq := 10 |};
     user_states := ∅; trace := []; ticks := 40 |}.

(** A customer who said hi and is asked for name and party size. *)
Definition customer_prompted : world :=
  set_session "15550107"
    {| s_role := Customer; s_state := awaiting_name_people |} seeded_world.

Definition name_and_people_message : inbound_message :=
  {| m_from := "15550107"; m_type := "text"; m_text_body := "  Ann Lee, 3 " |}.

Definition hi_message : inbound_message :=
  {| m_from := "15550107"; m_type := "text"; m_text_body := "Hi" |}.

(** The store after a customer was enqueued and seated at T5. *)
Definition seated_at_t5 : world :=
  after_ops sample_clock
    [op_enqueue "15550107" "ann" 3; op_seat 1 5 "T5" "15550107" "ann"].

(** The row of T5 in that store. *)
Definition t5_seated : table_row :=
  {| t_id := 5; t_table_number := "T5"; t_capacity := 4;
     t_status := occupied; t_occupied_by_user_id := Some 1;
     t_occupied_timestamp := Some (sample_clock 11);
     t_timestamp := sample_clock 11 |}.

(** Every table that seats three is occupied and nobody waits. *)
Definition full_house : world :=
  {| db := {| users := [];
              tables := [sample_table 1 "T1" 2 None;
                         sample_table 2 "T2" 2 None;
                         sample_table 3 "T3" 2 (Some 1);
                         sample_table 4 "T4" 2 (Some 2);
                         sample_table 5 "T5" 4 (Some 3);
                         sample_table 6 "T6" 4 (Some 4);
                         sample_table 7 "T7" 4 (Some 5);
                         sample_table 8 "T8" 4 (Some 6);
                         sample_table 9 "T9" 6 (Some 7);
                         sample_table 10 "T10" 6 (Some 8)];
              users_seq := 8; tables_seq := 10 |};
     user_states := ∅; trace := []; ticks := 30 |}.

Definition text_from (sender body : string) : inbound_message :=
  {| m_from := sender; m_type := "text"; m_text_body := body |}.

(** A customer joins the waitlist of the full house, then a waiter
    releases T5. *)
Definition evening : list inbound_message :=
  [text_from "15550109" "hi"; text_from "15550109" "Alice, 3";
   text_from "15550001" "waiter"; text_from "15550001" "waiter123";
   text_from "15550001" "T5"].

(** The greeting with a capital and blanks around it. *)
Definition padded_hi_message : inbound_message :=
  {| m_from := "15550107"; m_type := "text"; m_text_body := "  Hi " |}.

(** Two parties of 5 and a party of 2, and one free table, of capacity 2. *)
Definition early_five : user_row :=
  {| u_id := 21; u_phone_number := "15550121"; u_name := "eve";
     u_people_count := 5; u_timestamp := 1700003000 |}.

Definition late_five : user_row :=
  {| u_id := 22; u_phone_number := "15550122"; u_name := "finn";
     u_people_count := 5; u_timestamp := 1700003060 |}.

Definition small_party : user_row :=
  {| u_id := 23; u_phone_number := "15550123"; u_name := "gus";
     u_people_count := 2; u_timestamp := 1700003120 |}.

Definition two_fives_and_a_pair : world :=
  {| db := {| users := [early_five; late_five; small_party];
              tables := tables (db two_pairs_one_table);
              users_seq := 23; tables_seq := 10 |};
     user_states := ∅; trace := []; ticks := 50 |}.

(** The two pairs and the one free table, and a waiter who is asked for a
    table number and names T3, which is occupied. *)
Definition waiter_releasing : world :=
  set_session "15550001"
    {| s_role := Waiter; s_state := awaiting_free_table_number |}
    two_pairs_one_table.

Definition release_t3_message : inbound_message :=
  {| m_from := "15550001"; m_type := "text"; m_text_body := "Table 3" |}.

(** The store after a customer was enqueued and seated at T5, seeded once
    more. *)
Definition reseeded : world := init_db sample_clock seated_at_t5.

(** A message that is not a text. *)
Definition image_message : inbound_message :=
  {| m_from := "15550107"; m_type := "image"; m_text_body := "" |}.

(** A waiter who has said waiter and is asked for the password. *)
Definition waiter_at_password : world :=
  set_session "15550001"
    {| s_role := Waiter; s_state := awaiting_waiter_password |} seeded_world.

Definition password_message : inbound_message :=
  {| m_from := "15550001"; m_type := "text"; m_text_body := " Waiter123" |}.

Definition wrong_password_message : inbound_message :=
  {| m_from := "15550001"; m_type := "text"; m_text_body := "letmein" |}.


Example lower_ex : lower "  John, 5 " = "  john, 5 ". Proof. reflexivity. Qed.
Example strip_ex : strip "  john , 5  " = "john , 5". Proof. reflexivity. Qed.
Example replace_ex : replace "table" "" "table 4 table" = " 4 ". Proof. reflexivity. Qed.
Example split_ex : split "," "john, 5" = ["john"; " 5"]. Proof. reflexivity. Qed.
Example split_ex2 : split "," "" = [""]. Proof. reflexivity. Qed.
Example int_ex : int " 5" = Some 5. Proof. reflexivity. Qed.
Example int_ex2 : int "-1_0" = Some (-10). Proof. reflexivity. Qed.
Example int_ex3 : int "five" = None. Proof. reflexivity. Qed.
Example int_ex4 : int "1__0" = None. Proof. reflexivity. Qed.
Example int_ex5 : int "" = None. Proof. reflexivity. Qed.
Example int_ex6 : int (String "028" "5") = None. Proof. reflexivity. Qed.
Example int_ex7 : int (strip (String "028" "5")) = Some 5. Proof. reflexivity. Qed.

(** ** The stable sort *)

Section SortFacts.
Context {A : Type} (le : A -> A -> bool).

Lemma insert_sorted_perm x l : Permutation (insert_sorted le x l) (x :: l).
Proof.
  induction l as [|y r IH]; simpl; [reflexivity|].
  destruct (le x y); [reflexivity|].
  rewrite IH. apply perm_swap.
Qed.

Lemma sort_by_perm l : Permutation (sort_by le l) l.
Proof.
  induction l as [|x r IH]; simpl; [reflexivity|].
  rewrite insert_sorted_perm. now constructor.
Qed.

Lemma sort_by_In x l : In x (sort_by le l) <-> In x l.
Proof.
  split; apply Permutation_in; [|symmetry]; apply sort_by_perm.
Qed.

Lemma sort_by_length l : length (sort_by le l) = length l.
Proof. apply Permutation_length, sort_by_perm. Qed.

Lemma sort_by_nil l : sort_by le l = [] <-> l = [].
Proof.
  split; intros H; [|now subst].
  apply length_zero_iff_nil. rewrite <- sort_by_length, H. reflexivity.
Qed.

Hypothesis le_total : forall x y, le x y = true \/ le y x = true.
Hypothesis le_trans : forall x y z, le x y = true -> le y z = true -> le x z = true.

Lemma insert_sorted_sorted x l :
  StronglySorted (fun a b => le a b = true) l ->
  StronglySorted (fun a b => le a b = true) (insert_sorted le x l).
Proof.
  induction 1 as [|y r Hr IH Hy]; simpl.
  - repeat constructor.
  - destruct (le x y) eqn:E.
    + constructor; [now constructor|].
      constructor; [exact E|].
      eapply List.Forall_impl; [|exact Hy]. intros z Hz. now apply le_trans with y.
    + constructor; [exact IH|].
      apply (Permutation_Forall (x := x :: r)).
      * symmetry. apply insert_sorted_perm.
      * constructor; [|exact Hy].
        destruct (le_total x y) as [H|H]; [congruence|exact H].
Qed.

Lemma sort_by_sorted l : StronglySorted (fun a b => le a b = true) (sort_by le l).
Proof.
  induction l as [|x r IH]; simpl; [constructor|].
  now apply insert_sorted_sorted.
Qed.

(** The head of the sorted list is a least element of the list. *)
Lemma sort_by_head_least x r l :
  sort_by le l = x :: r -> forall y, In y l -> le x y = true.
Proof.
  intros E y Hy. apply sort_by_In in Hy. rewrite E in Hy.
  pose proof (sort_by_sorted l) as S. rewrite E in S.
  inversion S as [|? ? _ Hall]; subst.
  destruct Hy as [->|Hy].
  - destruct (le_total y y); assumption.
  - rewrite List.Forall_forall in Hall. now apply Hall.
Qed.

(** Sorting is stable, so it commutes with the selection of rows. *)
Lemma insert_sorted_filter p x l :
  StronglySorted (fun a b => le a b = true) l ->
  List.filter p (insert_sorted le x l) =
  if p x then insert_sorted le x (List.filter p l) else List.filter p l.
Proof.
  induction 1 as [|y r Hr IH Hy]; simpl.
  - now destruct (p x).
  - destruct (le x y) eqn:E; simpl.
    + destruct (p x) eqn:Px; [|reflexivity].
      destruct (p y) eqn:Py; simpl; [now rewrite E|].
      destruct (List.filter p r) as [|z r'] eqn:F; [reflexivity|].
      simpl. assert (Hz : In z r).
      { eapply (proj1 (filter_In p z r)). rewrite F. now left. }
      rewrite List.Forall_forall in Hy.
      now rewrite (le_trans x y z E (Hy z Hz)).
    + destruct (p y) eqn:Py; rewrite IH; destruct (p x); simpl;
        rewrite ?E; reflexivity.
Qed.

Lemma sort_by_filter p l :
  List.filter p (sort_by le l) = sort_by le (List.filter p l).
Proof.
  induction l as [|x r IH]; simpl; [reflexivity|].
  rewrite insert_sorted_filter by apply sort_by_sorted.
  destruct (p x); simpl; now rewrite IH.
Qed.
End SortFacts.

(** ** The table store *)

Section StoreFacts.
Variable clock : nat -> Z.

Lemma release_tables number w :
  tables (db (snd (update_table_status_to_free clock number w))) =
  List.map (fun t => if (t_table_number t =? number)%string
                     then freed_row (clock (ticks w)) t else t)
           (tables (db w)).
Proof.
  unfold update_table_status_to_free.
  destruct (0 <? _)%nat; reflexivity.
Qed.

Lemma release_users number w :
  users (db (snd (update_table_status_to_free clock number w))) = users (db w).
Proof.
  unfold update_table_status_to_free.
  destruct (0 <? _)%nat; reflexivity.
Qed.

Lemma release_result number w :
  fst (update_table_status_to_free clock number w) = true <->
  In number (List.map t_table_number (tables (db w))).
Proof.
  unfold update_table_status_to_free.
  set (sel := fun t : table_row => (t_table_number t =? number)%string).
  assert (H : (0 < length (List.filter sel (tables (db w))))%nat <->
              In number (List.map t_table_number (tables (db w)))).
  { induction (tables (db w)) as [|t r IH]; simpl; [lia|].
    unfold sel at 1. destruct (String.eqb_spec (t_table_number t) number) as [E|E];
      simpl; [split; [auto|lia]|].
    rewrite IH. split; [auto|]. intros [H|H]; [contradiction|exact H]. }
  destruct (Nat.ltb_spec 0 (length (List.filter sel (tables (db w))))) as [L|L];
    simpl; [tauto|].
  split; [discriminate|]. intros I. apply H in I. lia.
Qed.

Lemma release_absent number w :
  ~ In number (List.map t_table_number (tables (db w))) ->
  update_table_status_to_free clock number w =
  (false, print (log_not_found number) (tick w)).
Proof.
  intros N.
  pose proof (release_result number w) as R.
  pose proof (release_tables number w) as T.
  unfold update_table_status_to_free in *.
  destruct (0 <? _)%nat; simpl in *; [tauto|].
  f_equal. unfold print, emit, tick, set_db. simpl. f_equal.
  destruct w as [[us ts useq tseq] st tr tk]; simpl in *. f_equal.
  clear R T. induction ts as [|t r IH]; simpl in *; [reflexivity|].
  destruct (String.eqb_spec (t_table_number t) number) as [E|E]; [tauto|].
  f_equal. apply IH. tauto.
Qed.
End StoreFacts.

Section Release.
Variable clock : nat -> Z.

Lemma release_numbers number w :
  List.map t_table_number
    (tables (db (snd (update_table_status_to_free clock number w)))) =
  List.map t_table_number (tables (db w)).
Proof.
  rewrite release_tables, List.map_map. apply List.map_ext.
  intros t. now destruct (t_table_number t =? number)%string.
Qed.

Lemma release_frees number w t :
  In t (tables (db (snd (update_table_status_to_free clock number w)))) ->
  t_table_number t = number ->
  t_status t = free /\ t_occupied_by_user_id t = None
  /\ t_occupied_timestamp t = None.
Proof.
  rewrite release_tables, in_map_iff. intros (t0 & <- & _).
  destruct (String.eqb_spec (t_table_number t0) number); simpl; tauto.
Qed.

Lemma release_again_occupancy number w :
  let first := snd (update_table_status_to_free clock number w) in
  List.map occupancy
    (tables (db (snd (update_table_status_to_free clock number first)))) =
  List.map occupancy (tables (db first)).
Proof.
  simpl. rewrite (release_tables clock number (snd _)), List.map_map.
  apply map_ext_in. intros t Ht.
  destruct (String.eqb_spec (t_table_number t) number) as [E|E]; [|reflexivity].
  destruct (release_frees number w t Ht E) as (S & O & T).
  unfold occupancy. simpl. now rewrite S, O, T.
Qed.

(** C5. Releasing a table is idempotent. For a table number that some
    table carries, [update_table_status_to_free] returns true, and so does
    a second call right after it; after either call every table of that
    number is free with no occupant and no occupation time, the tables are
    the same in number and numbering, and the second call changes nobody's
    occupancy. For a number no table carries it returns false and leaves
    the database as it was. *)
Theorem release_table_idempotent number w :
  let first := update_table_status_to_free clock number w in
  let second := update_table_status_to_free clock number (snd first) in
  (In number (List.map t_table_number (tables (db w))) ->
     fst first = true /\ fst second = true
     /\ List.map t_table_number (tables (db (snd first))) =
        List.map t_table_number (tables (db w))
     /\ List.map t_table_number (tables (db (snd second))) =
        List.map t_table_number (tables (db w))
     /\ length (tables (db (snd first))) = length (tables (db w))
     /\ length (tables (db (snd second))) = length (tables (db w))
     /\ (forall t,
           In t (tables (db (snd first))) \/ In t (tables (db (snd second))) ->
           t_table_number t = number ->
           t_status t = free /\ t_occupied_by_user_id t = None
           /\ t_occupied_timestamp t = None)
     /\ List.map occupancy (tables (db (snd second))) =
        List.map occupancy (tables (db (snd first))))
  /\ (~ In number (List.map t_table_number (tables (db w))) ->
        fst first = false /\ db (snd first) = db w).
Proof.
  intros first second. split.
  - intros I.
    assert (N1 := release_numbers number w).
    assert (N2 := release_numbers number (snd first)).
    fold first in N1. fold second in N2. rewrite N1 in N2.
    assert (L1 := f_equal (@length _) N1).
    assert (L2 := f_equal (@length _) N2).
    rewrite !length_map in L1, L2.
    repeat split; try assumption.
    + now apply release_result.
    + apply release_result. now rewrite N1.
    + destruct H as [H|H]; eapply release_frees in H; try eassumption; tauto.
    + destruct H as [H|H]; eapply release_frees in H; try eassumption; tauto.
    + destruct H as [H|H]; eapply release_frees in H; try eassumption; tauto.
    + apply release_again_occupancy.
  - intros N. subst first. rewrite release_absent by assumption.
    split; reflexivity.
Qed.
End Release.

(** ** Occupants and occupied tables *)

Section Occupancy.
Variable clock : nat -> Z.

Lemma seat_tables cid tid number phone name w :
  tables (db (seat_customer clock cid tid number phone name w)) =
  List.map (fun t => if (t_id t =? tid)%Z
                     then seated_row (clock (ticks w)) cid t else t)
           (tables (db w)).
Proof. reflexivity. Qed.

Lemma seat_users cid tid number phone name w :
  users (db (seat_customer clock cid tid number phone name w)) =
  List.filter (fun u => negb (u_id u =? cid)%Z) (users (db w)).
Proof. reflexivity. Qed.

Lemma save_tables phone name people w :
  tables (db (snd (save_user_data_to_db clock phone name people w))) =
  tables (db w).
Proof.
  unfold save_user_data_to_db. now destruct (List.find _ _).
Qed.

Lemma insert_or_ignore_free number capacity w :
  Forall free_and_empty (tables (db w)) ->
  Forall free_and_empty (tables (db (insert_or_ignore_table clock number capacity w))).
Proof.
  intros H. unfold insert_or_ignore_table.
  destruct (existsb _ _); [exact H|]. simpl.
  apply Forall_app. split; [exact H|]. repeat constructor.
Qed.

Lemma init_db_free w :
  Forall free_and_empty (tables (db w)) ->
  Forall free_and_empty (tables (db (init_db clock w))).
Proof.
  unfold init_db. generalize initial_tables_config.
  intros cfg. revert w. induction cfg as [|c r IH]; intros w H; simpl; [exact H|].
  apply IH. now apply insert_or_ignore_free.
Qed.

Lemma free_and_empty_invariant t : free_and_empty t -> occupant_iff_occupied t.
Proof.
  intros [S O]. unfold occupant_iff_occupied. rewrite S, O. split.
  - intros [x Hx]. discriminate.
  - discriminate.
Qed.

Lemma apply_op_invariant w op :
  Forall occupant_iff_occupied (tables (db w)) ->
  Forall occupant_iff_occupied (tables (db (apply_op clock w op))).
Proof.
  intros H. destruct op as [phone name people|number|cid tid number phone name];
    cbn [apply_op].
  - now rewrite save_tables.
  - rewrite release_tables. apply Forall_map.
    eapply List.Forall_impl; [|exact H]. intros t Ht. simpl.
    destruct (t_table_number t =? number)%string; [|exact Ht].
    now apply free_and_empty_invariant.
  - rewrite seat_tables. apply Forall_map.
    eapply List.Forall_impl; [|exact H]. intros t Ht. simpl.
    destruct (t_id t =? tid)%Z; [|exact Ht].
    unfold occupant_iff_occupied. simpl. split; eauto.
Qed.

Lemma after_ops_invariant ops :
  Forall occupant_iff_occupied (tables (db (after_ops clock ops))).
Proof.
  unfold after_ops.
  assert (H : Forall occupant_iff_occupied (tables (db (init_db clock blank_world)))).
  { eapply List.Forall_impl; [apply free_and_empty_invariant|].
    apply init_db_free. constructor. }
  revert H. generalize (init_db clock blank_world).
  induction ops as [|op r IH]; intros w H; simpl; [exact H|].
  apply IH. now apply apply_op_invariant.
Qed.

(** C9. In every store reached from the seeded one by seat, release and
    enqueue operations, a table records an occupant exactly when its status
    is occupied. Seeding creates every table free and without occupant;
    [seat_customer] makes the table of the given id occupied and records
    the customer id with it; [update_table_status_to_free] makes the table
    of the given number free and clears the occupant. *)
Theorem occupant_set_iff_occupied :
  (forall ops t, In t (tables (db (after_ops clock ops))) ->
     (is_Some (t_occupied_by_user_id t) <-> t_status t = occupied))
  /\ (forall t, In t (tables (db (init_db clock blank_world))) ->
        t_status t = free /\ t_occupied_by_user_id t = None)
  /\ (forall w cid tid number phone name t,
        In t (tables (db (seat_customer clock cid tid number phone name w))) ->
        t_id t = tid ->
        t_status t = occupied /\ t_occupied_by_user_id t = Some cid)
  /\ (forall w number t,
        In t (tables (db (snd (update_table_status_to_free clock number w)))) ->
        t_table_number t = number ->
        t_status t = free /\ t_occupied_by_user_id t = None).
Proof.
  assert (F0 : Forall free_and_empty (tables (db (init_db clock blank_world))))
    by (apply init_db_free; constructor).
  rewrite List.Forall_forall in F0.
  split; [|split; [|split]].
  - intros ops t I. pose proof (after_ops_invariant ops) as F.
    rewrite List.Forall_forall in F. exact (F t I).
  - intros t I. exact (F0 t I).
  - intros w cid tid number phone name t I E.
    rewrite seat_tables, in_map_iff in I. destruct I as (t0 & <- & _).
    destruct (Z.eqb_spec (t_id t0) tid); [split; reflexivity|contradiction].
  - intros w number t I E.
    destruct (release_frees clock number w t I E) as (S & O & _). now split.
Qed.
End Occupancy.

(** ** The waitlist: one entry per phone number *)

Section Waitlist.
Variable clock : nat -> Z.

Lemma filter_map_same {A} (p : A -> bool) (f : A -> A) l :
  (forall x, p (f x) = p x) ->
  List.filter p (List.map f l) = List.map f (List.filter p l).
Proof.
  intros H. induction l as [|x r IH]; simpl; [reflexivity|].
  rewrite H, IH. now destruct (p x).
Qed.

Lemma filter_phone_none phone (l : list user_row) :
  ~ In phone (List.map u_phone_number l) ->
  List.filter (fun u => (u_phone_number u =? phone)%string) l = [].
Proof.
  induction l as [|u r IH]; simpl; [reflexivity|]. intros N.
  destruct (String.eqb_spec (u_phone_number u) phone); [tauto|].
  apply IH. tauto.
Qed.

Lemma filter_phone_unique phone e (l : list user_row) :
  List.NoDup (List.map u_phone_number l) -> In e l -> u_phone_number e = phone ->
  List.filter (fun u => (u_phone_number u =? phone)%string) l = [e].
Proof.
  induction l as [|u r IH]; simpl; [tauto|].
  intros N I E. apply NoDup_cons_iff in N. destruct N as [N1 N2].
  destruct (String.eqb_spec (u_phone_number u) phone) as [P|P].
  - destruct I as [->|I].
    + f_equal. apply filter_phone_none. congruence.
    + exfalso. apply N1. rewrite P, <- E. now apply in_map.
  - destruct I as [->|I]; [contradiction|]. now apply IH.
Qed.

Lemma find_phone_none phone (l : list user_row) :
  List.find (fun u => (u_phone_number u =? phone)%string) l = None ->
  ~ In phone (List.map u_phone_number l).
Proof.
  intros F I. apply in_map_iff in I. destruct I as (u & E & I).
  apply (find_none _ _ F) in I. simpl in I.
  rewrite E, String.eqb_refl in I. discriminate.
Qed.

Lemma find_phone_some phone e (l : list user_row) :
  List.find (fun u => (u_phone_number u =? phone)%string) l = Some e ->
  In e l /\ u_phone_number e = phone.
Proof.
  intros F. apply find_some in F. destruct F as [I E]. split; [exact I|].
  now apply String.eqb_eq.
Qed.

(** The row an enqueue leaves for [phone]. *)
Lemma save_entry phone name people w :
  List.NoDup (List.map u_phone_number (users (db w))) ->
  let r := save_user_data_to_db clock phone name people w in
  List.filter (fun u => (u_phone_number u =? phone)%string) (users (db (snd r))) =
  [ {| u_id := fst r; u_phone_number := phone; u_name := name;
       u_people_count := people; u_timestamp := clock (ticks w) |} ].
Proof.
  intros N. unfold save_user_data_to_db.
  destruct (List.find _ _) as [e|] eqn:F; simpl.
  - apply find_phone_some in F. destruct F as [I E].
    rewrite filter_map_same
      by (intros u; now destruct (u_id u =? u_id e)%Z).
    rewrite (filter_phone_unique phone e) by assumption.
    simpl. rewrite Z.eqb_refl, E. reflexivity.
  - apply find_phone_none in F. rewrite List.filter_app. simpl.
    rewrite String.eqb_refl, filter_phone_none by assumption. reflexivity.
Qed.

Lemma save_ticks phone name people w :
  ticks (snd (save_user_data_to_db clock phone name people w)) = S (ticks w).
Proof.
  unfold save_user_data_to_db. now destruct (List.find _ _).
Qed.

(** The id an enqueue returns is the one of the entry already there. *)
Lemma save_existing_id phone name people w e :
  List.filter (fun u => (u_phone_number u =? phone)%string) (users (db w)) = [e] ->
  fst (save_user_data_to_db clock phone name people w) = u_id e.
Proof.
  intros E. unfold save_user_data_to_db.
  destruct (List.find _ _) as [e'|] eqn:F; simpl.
  - apply find_some in F. apply (proj2 (filter_In
      (fun u => (u_phone_number u =? phone)%string) e' _)) in F.
    rewrite E in F. destruct F as [<-|[]]. reflexivity.
  - apply find_phone_none in F.
    rewrite filter_phone_none in E by assumption. discriminate.
Qed.

Lemma save_wf phone name people w :
  db_wf (db w) ->
  db_wf (db (snd (save_user_data_to_db clock phone name people w))).
Proof.
  intros [W1 W2 W3 W4 W5 W6 W7]. unfold save_user_data_to_db.
  destruct (List.find _ _) as [e|] eqn:F; simpl.
  - assert (I : List.map u_id (List.map (fun u =>
                 if (u_id u =? u_id e)%Z
                 then {| u_id := u_id u; u_phone_number := u_phone_number u;
                         u_name := name; u_people_count := people;
                         u_timestamp := current_timestamp clock w |}
                 else u) (users (db w))) = List.map u_id (users (db w))).
    { rewrite List.map_map. apply List.map_ext. intros u.
      now destruct (u_id u =? u_id e)%Z. }
    assert (P : List.map u_phone_number (List.map (fun u =>
                 if (u_id u =? u_id e)%Z
                 then {| u_id := u_id u; u_phone_number := u_phone_number u;
                         u_name := name; u_people_count := people;
                         u_timestamp := current_timestamp clock w |}
                 else u) (users (db w))) = List.map u_phone_number (users (db w))).
    { rewrite List.map_map. apply List.map_ext. intros u.
      now destruct (u_id u =? u_id e)%Z. }
    constructor; simpl; try assumption.
    + now rewrite I.
    + now rewrite P.
    + apply Forall_map. eapply List.Forall_impl; [|exact W5].
      intros u Hu. simpl. now destruct (u_id u =? u_id e)%Z.
  - apply find_phone_none in F.
    rewrite List.Forall_forall in W5.
    constructor; simpl; try assumption.
    + rewrite List.map_app. simpl. apply List.NoDup_app.
      * exact W1.
      * repeat constructor. intros [].
      * intros x Hx [<-|[]].
        apply in_map_iff in Hx. destruct Hx as (u & E & Hu).
        apply W5 in Hu. lia.
    + rewrite List.map_app. simpl. apply List.NoDup_app.
      * exact W2.
      * repeat constructor. intros [].
      * intros x Hx [<-|[]]. contradiction.
    + apply Forall_app. split.
      * apply List.Forall_forall. intros u Hu. apply W5 in Hu. lia.
      * constructor; [simpl; lia|constructor].
    + lia.
Qed.
Lemma save_existing_length phone name people w e :
  List.filter (fun u => (u_phone_number u =? phone)%string) (users (db w)) = [e] ->
  length (users (db (snd (save_user_data_to_db clock phone name people w)))) =
  length (users (db w)).
Proof.
  intros E. unfold save_user_data_to_db.
  destruct (List.find _ _) as [e'|] eqn:F; simpl.
  - apply length_map.
  - apply find_phone_none in F.
    rewrite filter_phone_none in E by assumption. discriminate.
Qed.

(** C4. Enqueueing is an upsert on the phone number. After any enqueue the
    waitlist holds exactly one entry for that phone number, with the name,
    the party size and the clock reading of that call; enqueueing the same
    phone number a second time, with whatever name and size, returns the
    same entry id, adds no entry to the waitlist and leaves the one entry
    with the second name, the second size and the time of the second call;
    phone numbers stay unique. *)
Theorem enqueue_twice_one_entry phone name1 people1 name2 people2 w :
  db_wf (db w) ->
  let first := save_user_data_to_db clock phone name1 people1 w in
  let second := save_user_data_to_db clock phone name2 people2 (snd first) in
  List.filter (fun u => (u_phone_number u =? phone)%string)
              (users (db (snd first))) =
    [ {| u_id := fst first; u_phone_number := phone; u_name := name1;
         u_people_count := people1; u_timestamp := clock (ticks w) |} ]
  /\ fst second = fst first
  /\ List.filter (fun u => (u_phone_number u =? phone)%string)
                 (users (db (snd second))) =
    [ {| u_id := fst first; u_phone_number := phone; u_name := name2;
         u_people_count := people2; u_timestamp := clock (S (ticks w)) |} ]
  /\ length (users (db (snd second))) = length (users (db (snd first)))
  /\ List.NoDup (List.map u_phone_number (users (db (snd second))))
  /\ db_wf (db (snd second)).
Proof.
  intros W first second.
  assert (W1 : db_wf (db (snd first))) by now apply save_wf.
  assert (W2 : db_wf (db (snd second))) by now apply save_wf.
  assert (E1 := save_entry phone name1 people1 w (wf_phones _ W)).
  assert (E2 := save_entry phone name2 people2 (snd first) (wf_phones _ W1)).
  cbv zeta in E1, E2. fold first in E1. fold second in E2.
  assert (I := save_existing_id phone name2 people2 (snd first) _ E1).
  fold second in I. simpl in I.
  split; [exact E1|]. split; [exact I|]. split.
  - rewrite E2, I. unfold first at 2. now rewrite save_ticks.
  - split; [|split; [apply (wf_phones _ W2)|exact W2]].
    apply (save_existing_length phone name2 people2 (snd first) _ E1).
Qed.
End Waitlist.

(** ** The allocation pass *)

Section Allocation.
Variable clock : nat -> Z.

Lemma timestamp_le_total (a b : user_row) :
  (u_timestamp a <=? u_timestamp b) = true \/ (u_timestamp b <=? u_timestamp a) = true.
Proof. destruct (Z.leb_spec (u_timestamp a) (u_timestamp b)); [auto|right; lia]. Qed.

Lemma timestamp_le_trans (a b c : user_row) :
  (u_timestamp a <=? u_timestamp b) = true ->
  (u_timestamp b <=? u_timestamp c) = true ->
  (u_timestamp a <=? u_timestamp c) = true.
Proof. lia. Qed.

Lemma capacity_le_total (a b : table_row) :
  (t_capacity a <=? t_capacity b) = true \/ (t_capacity b <=? t_capacity a) = true.
Proof. destruct (Z.leb_spec (t_capacity a) (t_capacity b)); [auto|right; lia]. Qed.

Lemma capacity_le_trans (a b c : table_row) :
  (t_capacity a <=? t_capacity b) = true ->
  (t_capacity b <=? t_capacity c) = true ->
  (t_capacity a <=? t_capacity c) = true.
Proof. lia. Qed.

Lemma key_le_spec x y :
  key_le x y = true <->
  a_wasted_seats x < a_wasted_seats y
  \/ (a_wasted_seats x = a_wasted_seats y
      /\ a_customer_timestamp x <= a_customer_timestamp y).
Proof.
  unfold key_le. rewrite orb_true_iff, andb_true_iff. lia.
Qed.

Lemma key_le_total x y : key_le x y = true \/ key_le y x = true.
Proof. rewrite !key_le_spec. lia. Qed.

Lemma key_le_trans x y z :
  key_le x y = true -> key_le y z = true -> key_le x z = true.
Proof. rewrite !key_le_spec. lia. Qed.

(** The pool is sorted by wasted seats, then by timestamp, and holds the
    same allocations as before. *)
Lemma sorted_allocations_sorted pool :
  StronglySorted (fun x y => key_le x y = true) (sorted_allocations pool)
  /\ Permutation (sorted_allocations pool) pool.
Proof.
  split.
  - apply sort_by_sorted; [apply key_le_total|apply key_le_trans].
  - apply sort_by_perm.
Qed.

Lemma execute_first x rest w :
  execute_allocations clock (x :: rest) ∅ ∅ w = (true, commit clock x w).
Proof.
  simpl. rewrite !bool_decide_eq_true_2 by set_solver. reflexivity.
Qed.

Lemma allocation_pass_next w :
  allocation_pass clock w =
  match next_allocation (get_waiting_customers w) (get_free_tables w) with
  | Some x => (true, commit clock x (print log_attempting w))
  | None => (false, print log_attempting w)
  end.
Proof.
  unfold allocation_pass, next_allocation.
  change (get_waiting_customers (print log_attempting w))
    with (get_waiting_customers w).
  change (get_free_tables (print log_attempting w)) with (get_free_tables w).
  destruct (sorted_allocations _) as [|x rest]; [reflexivity|].
  apply execute_first.
Qed.
End Allocation.

(** ** The best table for one customer *)

Section BestMatch.
Variable c : user_row.

Lemma consider_infeasible st t :
  f_capacity t < u_people_count c -> consider_table c st t = st.
Proof.
  intros H. unfold consider_table.
  destruct (Z.leb_spec (u_people_count c) (f_capacity t)); [lia|reflexivity].
Qed.

Lemma skip_infeasible l st :
  (forall t, In t l -> f_capacity t < u_people_count c) ->
  fold_left (consider_table c) l st = st.
Proof.
  revert st. induction l as [|t r IH]; intros st H; simpl; [reflexivity|].
  rewrite consider_infeasible by (apply H; now left).
  apply IH. intros t' Ht'. apply H. now right.
Qed.

Lemma consider_first t :
  u_people_count c <= f_capacity t ->
  consider_table c (None, None) t =
  (Some (candidate c t), Some (f_capacity t - u_people_count c)).
Proof.
  intros H. unfold consider_table. simpl.
  destruct (Z.leb_spec (u_people_count c) (f_capacity t)); [reflexivity|lia].
Qed.

(** A table that wastes no fewer seats does not replace the best one. *)
Lemma consider_not_better t0 t :
  (u_people_count c <= f_capacity t -> f_capacity t0 <= f_capacity t) ->
  consider_table c (Some (candidate c t0), Some (f_capacity t0 - u_people_count c)) t =
  (Some (candidate c t0), Some (f_capacity t0 - u_people_count c)).
Proof.
  intros H. unfold consider_table. simpl.
  destruct (Z.leb_spec (u_people_count c) (f_capacity t)); [|reflexivity].
  destruct (Z.ltb_spec (f_capacity t - u_people_count c)
                       (f_capacity t0 - u_people_count c)); [lia|].
  destruct (Z.eqb_spec (f_capacity t - u_people_count c)
                       (f_capacity t0 - u_people_count c)); [|reflexivity].
  now rewrite Z.ltb_irrefl.
Qed.

Lemma keep_best t0 l :
  (forall t, In t l -> u_people_count c <= f_capacity t ->
             f_capacity t0 <= f_capacity t) ->
  fold_left (consider_table c) l
    (Some (candidate c t0), Some (f_capacity t0 - u_people_count c)) =
  (Some (candidate c t0), Some (f_capacity t0 - u_people_count c)).
Proof.
  induction l as [|t r IH]; intros H; simpl; [reflexivity|].
  rewrite consider_not_better by (apply H; now left).
  apply IH. intros t' Ht'. apply H. now right.
Qed.

(** With the free tables in ascending capacity, the best match is the first
    table that is large enough. *)
Lemma best_match_first_fit l1 t l2 :
  (forall t', In t' l1 -> f_capacity t' < u_people_count c) ->
  u_people_count c <= f_capacity t ->
  (forall t', In t' l2 -> u_people_count c <= f_capacity t' ->
              f_capacity t <= f_capacity t') ->
  best_match_for_customer c (l1 ++ t :: l2) = Some (candidate c t).
Proof.
  intros H1 Ht H2. unfold best_match_for_customer.
  rewrite fold_left_app, (skip_infeasible l1) by assumption. simpl.
  rewrite consider_first by assumption. rewrite keep_best by assumption.
  reflexivity.
Qed.

Lemma best_match_none l :
  (forall t, In t l -> f_capacity t < u_people_count c) ->
  best_match_for_customer c l = None.
Proof.
  intros H. unfold best_match_for_customer. now rewrite skip_infeasible.
Qed.

Lemma scanned_step seen st t :
  scanned c seen st -> scanned c (seen ++ [t]) (consider_table c st t).
Proof.
  intros [[-> H]|(t0 & -> & I & F & M)].
  - destruct (Z.leb_spec (u_people_count c) (f_capacity t)) as [L|L].
    + right. exists t. rewrite consider_first by assumption.
      split; [reflexivity|]. split; [apply in_or_app; right; now left|].
      split; [assumption|]. intros t' Ht' Ft'. apply in_app_or in Ht'.
      destruct Ht' as [Ht'|[<-|[]]]; [|lia]. apply H in Ht'. lia.
    + left. rewrite consider_infeasible by assumption.
      split; [reflexivity|]. intros t' Ht'. apply in_app_or in Ht'.
      destruct Ht' as [Ht'|[<-|[]]]; [now apply H|assumption].
  - right.
    destruct (Z.leb_spec (u_people_count c) (f_capacity t)) as [L|L];
      [destruct (Z.leb_spec (f_capacity t0) (f_capacity t)) as [L'|L']|].
    + exists t0. rewrite consider_not_better by auto.
      split; [reflexivity|]. split; [apply in_or_app; now left|].
      split; [assumption|]. intros t' Ht' Ft'. apply in_app_or in Ht'.
      destruct Ht' as [Ht'|[<-|[]]]; [now apply M|assumption].
    + exists t. split.
      * unfold consider_table. simpl.
        destruct (Z.leb_spec (u_people_count c) (f_capacity t)); [|lia].
        destruct (Z.ltb_spec (f_capacity t - u_people_count c)
                             (f_capacity t0 - u_people_count c)); [reflexivity|lia].
      * split; [apply in_or_app; right; now left|].
        split; [assumption|]. intros t' Ht' Ft'. apply in_app_or in Ht'.
        destruct Ht' as [Ht'|[<-|[]]]; [|lia]. apply M in Ht'; lia.
    + exists t0. rewrite consider_infeasible by assumption.
      split; [reflexivity|]. split; [apply in_or_app; now left|].
      split; [assumption|]. intros t' Ht' Ft'. apply in_app_or in Ht'.
      destruct Ht' as [Ht'|[<-|[]]]; [now apply M|lia].
Qed.

Lemma scanned_fold l seen st :
  scanned c seen st -> scanned c (seen ++ l) (fold_left (consider_table c) l st).
Proof.
  revert seen st. induction l as [|t r IH]; intros seen st H; simpl.
  - now rewrite app_nil_r.
  - change (seen ++ t :: r)%list with (seen ++ [t] ++ r)%list.
    rewrite app_assoc.
    apply IH. now apply scanned_step.
Qed.

(** The best match of a customer: a table that is large enough and wastes
    the fewest seats among those that are; none if no table is large
    enough. *)
Lemma best_match_spec l :
  match best_match_for_customer c l with
  | Some b =>
      b = candidate c (a_table b) /\ In (a_table b) l
      /\ u_people_count c <= f_capacity (a_table b)
      /\ forall t, In t l -> u_people_count c <= f_capacity t ->
                   a_wasted_seats b <= f_capacity t - u_people_count c
  | None => forall t, In t l -> f_capacity t < u_people_count c
  end.
Proof.
  assert (S : scanned c [] (None, None)) by (left; split; [reflexivity|intros t []]).
  apply (scanned_fold l) in S. simpl in S. unfold best_match_for_customer.
  destruct S as [[-> H]|(t0 & -> & I & F & M)]; simpl; [exact H|].
  repeat split; try assumption. intros t Ht Ft. specialize (M t Ht Ft). lia.
Qed.
End BestMatch.

(** ** The pool of a pass and the allocation it commits *)

Section Pool.
Variable clock : nat -> Z.

Lemma potential_In x waiting free_tables :
  In x (potential_allocations waiting free_tables) <->
  exists c, In c waiting /\ best_match_for_customer c free_tables = Some x.
Proof.
  induction waiting as [|c r IH]; simpl.
  - split; [intros []|intros (c & [] & _)].
  - destruct (best_match_for_customer c free_tables) as [b|] eqn:B; simpl;
      rewrite IH; split.
    + intros [<-|(c' & I & E)]; [exists c; auto|exists c'; auto].
    + intros (c' & [<-|I] & E); [left; congruence|right; eauto].
    + intros (c' & I & E). eauto.
    + intros (c' & [<-|I] & E); [congruence|eauto].
Qed.

(** An allocation of the pool pairs a waiting customer with a free table
    that is large enough for the party and wastes the fewest seats. *)
Lemma pool_member x waiting free_tables :
  In x (potential_allocations waiting free_tables) ->
  In (a_customer x) waiting /\ In (a_table x) free_tables
  /\ x = candidate (a_customer x) (a_table x)
  /\ 0 <= a_wasted_seats x
  /\ forall t, In t free_tables ->
       u_people_count (a_customer x) <= f_capacity t ->
       a_wasted_seats x <= f_capacity t - u_people_count (a_customer x).
Proof.
  intros I. apply potential_In in I. destruct I as (c & I & B).
  pose proof (best_match_spec c free_tables) as S. rewrite B in S.
  destruct S as (E & T & F & M).
  assert (C : a_customer x = c) by (rewrite E; reflexivity).
  rewrite C. repeat split; try assumption.
  rewrite E. simpl. lia.
Qed.

Lemma next_allocation_least x waiting free_tables :
  next_allocation waiting free_tables = Some x ->
  In x (potential_allocations waiting free_tables)
  /\ forall y, In y (potential_allocations waiting free_tables) ->
       key_le x y = true.
Proof.
  unfold next_allocation, sorted_allocations. intros H.
  destruct (sort_by key_le _) as [|x' rest] eqn:E; [discriminate|].
  injection H as ->. split.
  - apply (sort_by_In key_le). rewrite E. now left.
  - apply (sort_by_head_least key_le key_le_total key_le_trans _ _ _ E).
Qed.

Lemma next_allocation_none waiting free_tables :
  next_allocation waiting free_tables = None <->
  potential_allocations waiting free_tables = [].
Proof.
  unfold next_allocation, sorted_allocations.
  rewrite <- (sort_by_nil key_le).
  destruct (sort_by key_le _); simpl; split; congruence.
Qed.

Lemma potential_no_tables waiting :
  potential_allocations waiting [] = [].
Proof. induction waiting as [|c r IH]; simpl; [reflexivity|exact IH]. Qed.

Lemma waiting_after_commit x w :
  get_waiting_customers (commit clock x w) =
  List.filter (fun u => negb (u_id u =? u_id (a_customer x)))
              (get_waiting_customers w).
Proof.
  unfold get_waiting_customers, commit. rewrite seat_users.
  symmetry. apply sort_by_filter.
  - intros a b. apply timestamp_le_total.
  - intros a b c. apply timestamp_le_trans.
Qed.

Lemma free_after_seat tid cid now (l : list table_row) :
  List.filter (fun t => status_eqb (t_status t) free)
    (List.map (fun t => if t_id t =? tid then seated_row now cid t else t) l) =
  List.filter (fun t => negb (t_id t =? tid))
    (List.filter (fun t => status_eqb (t_status t) free) l).
Proof.
  induction l as [|t r IH]; simpl; [reflexivity|].
  destruct (t_id t =? tid) eqn:E; simpl.
  - rewrite IH. destruct (status_eqb (t_status t) free); simpl;
      rewrite ?E; reflexivity.
  - rewrite IH. destruct (status_eqb (t_status t) free); simpl;
      rewrite ?E; reflexivity.
Qed.

Lemma free_tables_after_commit x w :
  get_free_tables (commit clock x w) =
  List.filter (fun t => negb (f_id t =? f_id (a_table x))) (get_free_tables w).
Proof.
  unfold get_free_tables, commit. rewrite seat_tables, free_after_seat.
  rewrite <- sort_by_filter.
  - induction (sort_by _ _) as [|t r IH]; simpl; [reflexivity|].
    destruct (t_id t =? f_id (a_table x)); simpl; now rewrite IH.
  - intros a b. apply capacity_le_total.
  - intros a b c. apply capacity_le_trans.
Qed.

Lemma filter_id_shorter cid (l : list user_row) :
  In cid (List.map u_id l) ->
  (length (List.filter (fun u => negb (u_id u =? cid)%Z) l) < length l)%nat.
Proof.
  induction l as [|u r IH]; simpl; [intros []|].
  pose proof (List.filter_length_le (fun u => negb (u_id u =? cid)) r) as L.
  destruct (Z.eqb_spec (u_id u) cid); simpl.
  - intros _. lia.
  - intros [E|I]; [contradiction|]. apply IH in I. lia.
Qed.

Lemma filter_id_one_less cid (l : list user_row) :
  List.NoDup (List.map u_id l) -> In cid (List.map u_id l) ->
  S (length (List.filter (fun u => negb (u_id u =? cid)) l)) = length l.
Proof.
  induction l as [|u r IH]; simpl; [intros _ []|].
  intros N I. apply NoDup_cons_iff in N. destruct N as [N1 N2].
  destruct (Z.eqb_spec (u_id u) cid) as [E|E]; simpl.
  - f_equal. clear IH I N2. subst cid.
    induction r as [|v r IH]; simpl in *; [reflexivity|].
    destruct (Z.eqb_spec (u_id v) (u_id u)); simpl; [tauto|].
    f_equal. apply IH. tauto.
  - destruct I as [I|I]; [contradiction|]. f_equal. now apply IH.
Qed.
End Pool.

(** ** Termination of the allocation run *)

Section Termination.
Variable clock : nat -> Z.

Lemma next_allocation_customer x w :
  next_allocation (get_waiting_customers w) (get_free_tables w) = Some x ->
  In (a_customer x) (users (db w)).
Proof.
  intros H. apply next_allocation_least in H. destruct H as [I _].
  apply pool_member in I. destruct I as [I _].
  unfold get_waiting_customers in I. now apply sort_by_In in I.
Qed.

Lemma attempt_unfold fuel w :
  attempt_seating_allocation clock (S fuel) w =
  match next_allocation (get_waiting_customers w) (get_free_tables w) with
  | Some x => attempt_seating_allocation clock fuel
                (commit clock x (print log_attempting w))
  | None => Some (print log_no_further (print log_attempting w))
  end.
Proof.
  simpl. rewrite allocation_pass_next.
  now destruct (next_allocation _ _).
Qed.

Lemma attempt_enough_fuel fuel w :
  (length (users (db w)) < fuel)%nat ->
  exists w', attempt_seating_allocation clock fuel w = Some w'.
Proof.
  revert w. induction fuel as [|fuel IH]; intros w L; [lia|].
  rewrite attempt_unfold.
  destruct (next_allocation _ _) as [x|] eqn:N; [|eauto].
  apply IH. apply next_allocation_customer in N.
  unfold commit. rewrite seat_users. simpl.
  pose proof (filter_id_shorter (u_id (a_customer x)) (users (db w))
                (in_map u_id _ _ N)). lia.
Qed.

(** C6. A pass over an empty waitlist, or with no free table, commits
    nothing and is the only call of the run: the database is as before and
    one call of depth suffices. Every call of the run makes one pass, which
    either commits nothing, and the run returns what the pass left, or
    commits exactly one allocation: it removes the seated customer's entry
    from the waitlist, which gets shorter (by exactly one entry when ids
    are unique), prints one seating, and the run is the run that starts
    over on what the pass left, one call deeper. With a call depth above
    the length of the waitlist the run returns. *)
Theorem allocation_run_terminates :
  (forall w fuel,
      users (db w) = [] \/ get_free_tables w = [] ->
      attempt_seating_allocation clock (S fuel) w =
        Some (print log_no_further (print log_attempting w))
      /\ allocation_pass clock w = (false, print log_attempting w))
  /\ (forall w fuel,
        (allocation_pass clock w = (false, print log_attempting w)
         /\ attempt_seating_allocation clock (S fuel) w =
            Some (print log_no_further (print log_attempting w)))
        \/ exists x,
             let w' := commit clock x (print log_attempting w) in
             allocation_pass clock w = (true, w')
             /\ attempt_seating_allocation clock (S fuel) w =
                attempt_seating_allocation clock fuel w'
             /\ In (a_customer x) (users (db w))
             /\ users (db w') =
                List.filter (fun u => negb (u_id u =? u_id (a_customer x)))
                            (users (db w))
             /\ (length (users (db w')) < length (users (db w)))%nat
             /\ (List.NoDup (List.map u_id (users (db w))) ->
                 S (length (users (db w'))) = length (users (db w)))
             /\ trace w' =
                (trace w ++
                 [Printed log_attempting;
                  Sent (u_phone_number (a_customer x))
                       (msg_table_ready (u_name (a_customer x))
                                        (f_table_number (a_table x)));
                  Printed (log_seated (u_name (a_customer x))
                             (u_id (a_customer x))
                             (f_table_number (a_table x))
                             (f_id (a_table x)))])%list)
  /\ (forall w fuel,
        (length (users (db w)) < fuel)%nat ->
        exists w', attempt_seating_allocation clock fuel w = Some w').
Proof.
  split; [|split].
  - intros w fuel H.
    assert (N : next_allocation (get_waiting_customers w) (get_free_tables w) = None).
    { apply next_allocation_none. destruct H as [H|H].
      - unfold get_waiting_customers. rewrite H. reflexivity.
      - rewrite H. apply potential_no_tables. }
    rewrite attempt_unfold, allocation_pass_next, N. split; reflexivity.
  - intros w fuel. rewrite attempt_unfold, allocation_pass_next.
    destruct (next_allocation _ _) as [x|] eqn:N;
      [right|left; split; reflexivity].
    exists x. cbv zeta. apply next_allocation_customer in N.
    pose proof (in_map u_id _ _ N) as I.
    split; [reflexivity|]. split; [reflexivity|].
    split; [exact N|]. split; [reflexivity|].
    unfold commit. rewrite seat_users. simpl.
    split; [now apply filter_id_shorter|]. split.
    + intros D. now apply filter_id_one_less.
    + rewrite <- !app_assoc. reflexivity.
  - intros w fuel. apply attempt_enough_fuel.
Qed.
End Termination.

(** ** First come, first served among equal matches *)

Section FirstCome.
Variable clock : nat -> Z.

Lemma execute_allocations_first_unclaimed sorted seated occupied_ids w :
  execute_allocations clock sorted seated occupied_ids w =
  match List.find (unclaimed seated occupied_ids) sorted with
  | Some x => (true, commit clock x w)
  | None => (false, w)
  end.
Proof.
  induction sorted as [|x rest IH]; simpl; [reflexivity|].
  unfold unclaimed at 1.
  destruct (bool_decide _ && bool_decide _); [reflexivity|exact IH].
Qed.

Lemma filter_nil_all {A} (p : A -> bool) l :
  List.filter p l = [] -> forall x, In x l -> p x = false.
Proof.
  induction l as [|y r IH]; simpl; [intros _ x []|].
  destruct (p y) eqn:E; [discriminate|].
  intros H x [<-|I]; [exact E|now apply IH].
Qed.

Lemma filter_single_split {A} (p : A -> bool) l t :
  List.filter p l = [t] ->
  exists l1 l2, l = (l1 ++ t :: l2)%list /\ p t = true
    /\ (forall x, In x l1 -> p x = false)
    /\ (forall x, In x l2 -> p x = false).
Proof.
  induction l as [|y r IH]; simpl; [discriminate|].
  destruct (p y) eqn:E.
  - intros H. injection H as -> H. exists [], r. simpl.
    split; [reflexivity|]. split; [exact E|]. split; [intros x []|].
    now apply filter_nil_all.
  - intros H. destruct (IH H) as (l1 & l2 & -> & Pt & H1 & H2).
    exists (y :: l1), l2. split; [reflexivity|]. split; [exact Pt|].
    split; [|exact H2]. intros x [<-|I]; [exact E|now apply H1].
Qed.

Lemma waiting_pair u1 u2 w :
  Permutation (users (db w)) [u1; u2] ->
  u_timestamp u1 < u_timestamp u2 ->
  get_waiting_customers w = [u1; u2].
Proof.
  intros P T. symmetry in P. apply Permutation_length_2_inv in P.
  unfold get_waiting_customers.
  destruct P as [-> | ->]; simpl.
  - destruct (Z.leb_spec (u_timestamp u1) (u_timestamp u2)); [reflexivity|lia].
  - destruct (Z.leb_spec (u_timestamp u2) (u_timestamp u1)); [lia|reflexivity].
Qed.

Lemma seated_table_row x w r :
  In r (tables (db (commit clock x w))) -> t_id r = f_id (a_table x) ->
  t_status r = occupied /\ t_occupied_by_user_id r = Some (u_id (a_customer x)).
Proof.
  unfold commit. rewrite seat_tables, in_map_iff. intros (r0 & <- & _) E.
  destruct (Z.eqb_spec (t_id r0) (f_id (a_table x))); [split; reflexivity|].
  contradiction.
Qed.
(** C2. In every pass the pool of candidates is put in the order of wasted
    seats, then of enqueue timestamps, both ascending, and the pass commits
    the first allocation of that order whose customer and table are both
    unclaimed. So when the waitlist holds two parties of the same size, the
    first enqueued strictly before the second, and exactly one free table is
    large enough for them, the run seats the first party at that table and
    leaves the second party on the waitlist. *)
Theorem first_come_first_served :
  (forall x y,
      key_le x y = true <->
      a_wasted_seats x < a_wasted_seats y
      \/ (a_wasted_seats x = a_wasted_seats y
          /\ a_customer_timestamp x <= a_customer_timestamp y))
  /\ (forall w,
        let pool := potential_allocations (get_waiting_customers w)
                                          (get_free_tables w) in
        StronglySorted (fun x y => key_le x y = true) (sorted_allocations pool)
        /\ Permutation (sorted_allocations pool) pool
        /\ allocation_pass clock w =
           execute_allocations clock (sorted_allocations pool) ∅ ∅
             (print log_attempting w))
  /\ (forall sorted seated occupied_ids w,
        execute_allocations clock sorted seated occupied_ids w =
        match List.find (unclaimed seated occupied_ids) sorted with
        | Some x => (true, commit clock x w)
        | None => (false, w)
        end)
  /\ (forall w u1 u2 t fuel,
        Permutation (users (db w)) [u1; u2] ->
        u_id u1 <> u_id u2 ->
        u_people_count u1 = u_people_count u2 ->
        u_timestamp u1 < u_timestamp u2 ->
        List.filter (seats (u_people_count u1)) (get_free_tables w) = [t] ->
        exists w',
          attempt_seating_allocation clock (S (S fuel)) w = Some w'
          /\ users (db w') = [u2]
          /\ trace w' =
             (trace w ++
              [Printed log_attempting;
               Sent (u_phone_number u1)
                    (msg_table_ready (u_name u1) (f_table_number t));
               Printed (log_seated (u_name u1) (u_id u1)
                                   (f_table_number t) (f_id t));
               Printed log_attempting;
               Printed log_no_further])%list
          /\ (forall r, In r (tables (db w')) -> t_id r = f_id t ->
                t_status r = occupied
                /\ t_occupied_by_user_id r = Some (u_id u1))).
Proof.
  split; [exact key_le_spec|]. split; [|split].
  - intros w pool. destruct (sorted_allocations_sorted pool) as [S P].
    split; [exact S|]. split; [exact P|]. reflexivity.
  - apply execute_allocations_first_unclaimed.
  - intros w u1 u2 t fuel P D E T F.
    pose proof (waiting_pair u1 u2 w P T) as W.
    destruct (filter_single_split _ _ _ F) as (l1 & l2 & L & Ft & F1 & F2).
    unfold seats in Ft, F1, F2.
    assert (B1 : best_match_for_customer u1 (get_free_tables w) =
                 Some (candidate u1 t)).
    { rewrite L. apply best_match_first_fit.
      - intros t' I. apply F1 in I. lia.
      - lia.
      - intros t' I G. apply F2 in I. lia. }
    assert (B2 : best_match_for_customer u2 (get_free_tables w) =
                 Some (candidate u2 t)).
    { rewrite L. apply best_match_first_fit.
      - intros t' I. apply F1 in I. lia.
      - lia.
      - intros t' I G. apply F2 in I. lia. }
    assert (N1 : next_allocation (get_waiting_customers w) (get_free_tables w) =
                 Some (candidate u1 t)).
    { unfold next_allocation. rewrite W. simpl. rewrite B1, B2. simpl.
      unfold key_le. simpl.
      destruct (Z.ltb_spec (f_capacity t - u_people_count u1)
                           (f_capacity t - u_people_count u2)); [reflexivity|].
      destruct (Z.eqb_spec (f_capacity t - u_people_count u1)
                           (f_capacity t - u_people_count u2)); [|lia].
      destruct (Z.leb_spec (u_timestamp u1) (u_timestamp u2)); [reflexivity|lia]. }
    set (w1 := commit clock (candidate u1 t) (print log_attempting w)).
    assert (W1 : get_waiting_customers w1 = [u2]).
    { unfold w1. rewrite waiting_after_commit.
      change (get_waiting_customers (print log_attempting w))
        with (get_waiting_customers w).
      rewrite W. simpl. rewrite Z.eqb_refl. simpl.
      destruct (Z.eqb_spec (u_id u2) (u_id u1)); [congruence|reflexivity]. }
    assert (N2 : next_allocation (get_waiting_customers w1) (get_free_tables w1) = None).
    { apply next_allocation_none. rewrite W1. simpl.
      rewrite best_match_none; [reflexivity|].
      intros t' I. unfold w1 in I. rewrite free_tables_after_commit in I.
      change (get_free_tables (print log_attempting w))
        with (get_free_tables w) in I.
      apply filter_In in I. destruct I as [I Ne]. simpl in Ne.
      rewrite L in I. apply in_app_or in I.
      destruct I as [I|[<-|I]].
      - apply F1 in I. lia.
      - rewrite Z.eqb_refl in Ne. discriminate.
      - apply F2 in I. lia. }
    exists (print log_no_further (print log_attempting w1)).
    split; [|split; [|split]].
    + rewrite attempt_unfold, N1. fold w1. rewrite attempt_unfold, N2.
      reflexivity.
    + simpl. symmetry in P. apply Permutation_length_2_inv in P.
      destruct P as [-> | ->]; simpl; rewrite Z.eqb_refl; simpl;
        destruct (Z.eqb_spec (u_id u2) (u_id u1)); simpl; congruence.
    + simpl. rewrite <- !app_assoc. reflexivity.
    + intros r I Id.
      change (tables (db (print log_no_further (print log_attempting w1))))
        with (tables (db w1)) in I.
      apply (seated_table_row (candidate u1 t) _ r I Id).
Qed.
End FirstCome.

(** ** Least waste first *)

Section LeastWaste.
Variable clock : nat -> Z.

Lemma nodup_map_filter {A B} (f : A -> B) (p : A -> bool) l :
  List.NoDup (List.map f l) -> List.NoDup (List.map f (List.filter p l)).
Proof.
  induction l as [|x r IH]; simpl; [intros; constructor|].
  intros N. apply NoDup_cons_iff in N. destruct N as [N1 N2].
  destruct (p x); simpl; [|now apply IH].
  constructor; [|now apply IH].
  intros I. apply N1. apply in_map_iff in I. destruct I as (y & E & I).
  apply filter_In in I. rewrite <- E. apply in_map. tauto.
Qed.

Lemma free_table_ids_nodup w :
  List.NoDup (List.map t_id (tables (db w))) ->
  List.NoDup (List.map f_id (get_free_tables w)).
Proof.
  intros N. unfold get_free_tables. rewrite List.map_map. simpl.
  eapply Permutation_NoDup.
  - symmetry. apply Permutation_map. apply sort_by_perm.
  - now apply nodup_map_filter.
Qed.

Lemma other_table_row x w r :
  In r (tables (db (commit clock x w))) -> t_id r <> f_id (a_table x) ->
  In r (tables (db w)).
Proof.
  unfold commit. rewrite seat_tables, in_map_iff. intros (r0 & <- & I) E.
  destruct (Z.eqb_spec (t_id r0) (f_id (a_table x))); [|exact I].
  simpl in E. contradiction.
Qed.

(** The allocation a pass commits pairs a waiting party with a free table
    that seats it, and no waiting party and free table that seats it leave
    fewer seats empty. *)
Lemma committed_pair_least w x :
  next_allocation (get_waiting_customers w) (get_free_tables w) = Some x ->
  In (a_customer x) (users (db w)) /\ In (a_table x) (get_free_tables w)
  /\ u_people_count (a_customer x) <= f_capacity (a_table x)
  /\ forall u t, In u (users (db w)) -> In t (get_free_tables w) ->
       u_people_count u <= f_capacity t ->
       f_capacity (a_table x) - u_people_count (a_customer x)
       <= f_capacity t - u_people_count u.
Proof.
  intros N. pose proof (next_allocation_customer x w N) as U.
  destruct (next_allocation_least _ _ _ N) as [I K].
  destruct (pool_member _ _ _ I) as (_ & T & E & W & M).
  assert (Wx : a_wasted_seats x =
               f_capacity (a_table x) - u_people_count (a_customer x))
    by (rewrite E at 1; reflexivity).
  split; [exact U|]. split; [exact T|]. split; [lia|].
  intros u t Iu It F.
  pose proof (best_match_spec u (get_free_tables w)) as S.
  destruct (best_match_for_customer u (get_free_tables w)) as [b|] eqn:B.
  - destruct S as (Eb & _ & _ & Mb).
    assert (Ib : In b (potential_allocations (get_waiting_customers w)
                                              (get_free_tables w))).
    { apply potential_In. exists u. split; [|exact B].
      unfold get_waiting_customers. now apply sort_by_In. }
    apply K, key_le_spec in Ib. specialize (Mb t It F). lia.
  - specialize (S t It). lia.
Qed.

(** If some waiting party fits some free table exactly, the pass commits a
    party at a table of exactly its size. *)
Lemma exact_fit_committed w u t :
  In u (users (db w)) -> In t (get_free_tables w) ->
  f_capacity t = u_people_count u ->
  exists x,
    next_allocation (get_waiting_customers w) (get_free_tables w) = Some x
    /\ allocation_pass clock w = (true, commit clock x (print log_attempting w))
    /\ In (a_customer x) (users (db w)) /\ In (a_table x) (get_free_tables w)
    /\ f_capacity (a_table x) = u_people_count (a_customer x).
Proof.
  intros U T E. rewrite allocation_pass_next.
  destruct (next_allocation _ _) as [x|] eqn:N.
  - exists x. split; [reflexivity|]. split; [reflexivity|].
    destruct (committed_pair_least w x N) as (Ux & Tx & F & M).
    split; [exact Ux|]. split; [exact Tx|].
    specialize (M u t U T). lia.
  - exfalso. apply next_allocation_none in N.
    pose proof (best_match_spec u (get_free_tables w)) as S.
    destruct (best_match_for_customer u (get_free_tables w)) as [b|] eqn:B.
    + assert (Ib : In b (potential_allocations (get_waiting_customers w)
                                                (get_free_tables w))).
      { apply potential_In. exists u. split; [|exact B].
        unfold get_waiting_customers. now apply sort_by_In. }
      rewrite N in Ib. destruct Ib.
    + specialize (S t T). lia.
Qed.

Lemma waiting_two_orders p2 p5 w :
  Permutation (users (db w)) [p2; p5] ->
  get_waiting_customers w = [p2; p5] \/ get_waiting_customers w = [p5; p2].
Proof.
  intros P. apply Permutation_length_2_inv. symmetry.
  rewrite <- P. apply sort_by_perm.
Qed.

(** C1. With free tables of capacities 2, 2, 4 and 6 and a waitlist of a
    party of 2 and a party of 5, the run seats the party of 2 at the first
    table of capacity 2 and the party of 5 at the table of capacity 6, and
    leaves the other two tables free and the waitlist empty. In every pass
    the party and the table of the committed allocation are a waiting
    party and a free table that seats it, and no waiting party and free
    table that seats it leave fewer seats empty than they do; so if some
    waiting party fits some free table exactly, the pass seats a party at
    a table of exactly its size. *)
Theorem least_waste_first :
  (forall w x,
      next_allocation (get_waiting_customers w) (get_free_tables w) = Some x ->
      allocation_pass clock w = (true, commit clock x (print log_attempting w))
      /\ In (a_customer x) (users (db w))
      /\ In (a_table x) (get_free_tables w)
      /\ u_people_count (a_customer x) <= f_capacity (a_table x)
      /\ forall u t,
           In u (users (db w)) -> In t (get_free_tables w) ->
           u_people_count u <= f_capacity t ->
           f_capacity (a_table x) - u_people_count (a_customer x)
           <= f_capacity t - u_people_count u)
  /\ (forall w u t,
        In u (users (db w)) -> In t (get_free_tables w) ->
        f_capacity t = u_people_count u ->
        exists x,
          next_allocation (get_waiting_customers w) (get_free_tables w) = Some x
          /\ allocation_pass clock w =
             (true, commit clock x (print log_attempting w))
          /\ In (a_customer x) (users (db w))
          /\ In (a_table x) (get_free_tables w)
          /\ f_capacity (a_table x) = u_people_count (a_customer x))
  /\ (forall w p2 p5 a b c d fuel,
        db_wf (db w) ->
        Permutation (users (db w)) [p2; p5] ->
        u_people_count p2 = 2 -> u_people_count p5 = 5 ->
        get_free_tables w = [a; b; c; d] ->
        f_capacity a = 2 -> f_capacity b = 2 ->
        f_capacity c = 4 -> f_capacity d = 6 ->
        exists w',
          attempt_seating_allocation clock (S (S (S fuel))) w = Some w'
          /\ users (db w') = []
          /\ get_free_tables w' = [b; c]
          /\ trace w' =
             (trace w ++
              [Printed log_attempting;
               Sent (u_phone_number p2)
                    (msg_table_ready (u_name p2) (f_table_number a));
               Printed (log_seated (u_name p2) (u_id p2)
                                   (f_table_number a) (f_id a));
               Printed log_attempting;
               Sent (u_phone_number p5)
                    (msg_table_ready (u_name p5) (f_table_number d));
               Printed (log_seated (u_name p5) (u_id p5)
                                   (f_table_number d) (f_id d));
               Printed log_attempting;
               Printed log_no_further])%list
          /\ (forall r, In r (tables (db w')) -> t_id r = f_id d ->
                t_status r = occupied
                /\ t_occupied_by_user_id r = Some (u_id p5))
          /\ (forall r, In r (tables (db w')) -> t_id r = f_id a ->
                t_status r = occupied
                /\ t_occupied_by_user_id r = Some (u_id p2))).
Proof.
  split; [|split].
  - intros w x N. split.
    + now rewrite allocation_pass_next, N.
    + now apply committed_pair_least.
  - apply exact_fit_committed.
  - intros w p2 p5 a b c d fuel WF P S2 S5 F Ca Cb Cc Cd.
    assert (Du : u_id p2 <> u_id p5).
    { pose proof (wf_user_ids _ WF) as N.
      eapply Permutation_NoDup in N; [|apply Permutation_map; exact P].
      simpl in N. apply NoDup_cons_iff in N. simpl in N.
      intuition congruence. }
    assert (Dt : List.NoDup (List.map f_id [a; b; c; d])).
    { rewrite <- F. apply free_table_ids_nodup, (wf_table_ids _ WF). }
    simpl in Dt.
    apply NoDup_cons_iff in Dt. destruct Dt as [Da Dt].
    apply NoDup_cons_iff in Dt. destruct Dt as [Db Dt].
    apply NoDup_cons_iff in Dt. destruct Dt as [Dc _]. simpl in Da, Db, Dc.
    assert (B2 : best_match_for_customer p2 [a; b; c; d] = Some (candidate p2 a)).
    { apply (best_match_first_fit p2 [] a [b; c; d]).
      - intros t' [].
      - lia.
      - intros t' [<-|[<-|[<-|[]]]] _; lia. }
    assert (B5 : best_match_for_customer p5 [a; b; c; d] = Some (candidate p5 d)).
    { apply (best_match_first_fit p5 [a; b; c] d []).
      - intros t' [<-|[<-|[<-|[]]]]; lia.
      - lia.
      - intros t' []. }
    assert (B5' : best_match_for_customer p5 [b; c; d] = Some (candidate p5 d)).
    { apply (best_match_first_fit p5 [b; c] d []).
      - intros t' [<-|[<-|[]]]; lia.
      - lia.
      - intros t' []. }
    assert (N1 : next_allocation (get_waiting_customers w) (get_free_tables w) =
                 Some (candidate p2 a)).
    { unfold next_allocation. rewrite F.
      destruct (waiting_two_orders p2 p5 w P) as [-> | ->]; simpl;
        rewrite B2, B5; simpl; unfold key_le; simpl;
        rewrite Ca, Cd, S2, S5; reflexivity. }
    set (w1 := commit clock (candidate p2 a) (print log_attempting w)).
    assert (W1 : get_waiting_customers w1 = [p5]).
    { unfold w1. rewrite waiting_after_commit.
      change (get_waiting_customers (print log_attempting w))
        with (get_waiting_customers w).
      destruct (waiting_two_orders p2 p5 w P) as [-> | ->]; simpl;
        rewrite Z.eqb_refl; simpl;
        destruct (Z.eqb_spec (u_id p5) (u_id p2)); simpl; congruence. }
    assert (F1 : get_free_tables w1 = [b; c; d]).
    { unfold w1. rewrite free_tables_after_commit.
      change (get_free_tables (print log_attempting w)) with (get_free_tables w).
      rewrite F. simpl. rewrite Z.eqb_refl. simpl.
      destruct (Z.eqb_spec (f_id b) (f_id a)); [tauto|].
      destruct (Z.eqb_spec (f_id c) (f_id a)); [tauto|].
      destruct (Z.eqb_spec (f_id d) (f_id a)); [tauto|]. reflexivity. }
    assert (N2 : next_allocation (get_waiting_customers w1) (get_free_tables w1) =
                 Some (candidate p5 d)).
    { unfold next_allocation. rewrite W1, F1. simpl. now rewrite B5'. }
    set (w2 := commit clock (candidate p5 d) (print log_attempting w1)).
    assert (W2 : get_waiting_customers w2 = []).
    { unfold w2. rewrite waiting_after_commit.
      change (get_waiting_customers (print log_attempting w1))
        with (get_waiting_customers w1).
      rewrite W1. simpl. now rewrite Z.eqb_refl. }
    assert (F2 : get_free_tables w2 = [b; c]).
    { unfold w2. rewrite free_tables_after_commit.
      change (get_free_tables (print log_attempting w1)) with (get_free_tables w1).
      rewrite F1. simpl. rewrite Z.eqb_refl. simpl.
      destruct (Z.eqb_spec (f_id b) (f_id d)); [intuition congruence|].
      destruct (Z.eqb_spec (f_id c) (f_id d)); [intuition congruence|].
      reflexivity. }
    assert (N3 : next_allocation (get_waiting_customers w2) (get_free_tables w2) = None).
    { apply next_allocation_none. now rewrite W2. }
    exists (print log_no_further (print log_attempting w2)).
    split; [|split; [|split; [|split; [|split]]]].
    + rewrite attempt_unfold, N1. fold w1. rewrite attempt_unfold, N2. fold w2.
      rewrite attempt_unfold, N3. reflexivity.
    + change (users (db (print log_no_further (print log_attempting w2))))
        with (users (db w2)).
      apply (sort_by_nil (fun a0 b0 => u_timestamp a0 <=? u_timestamp b0)).
      exact W2.
    + exact F2.
    + simpl. rewrite <- !app_assoc. reflexivity.
    + intros r I Id.
      change (tables (db (print log_no_further (print log_attempting w2))))
        with (tables (db w2)) in I.
      apply (seated_table_row clock (candidate p5 d) _ r I Id).
    + intros r I Id.
      change (tables (db (print log_no_further (print log_attempting w2))))
        with (tables (db w2)) in I.
      apply other_table_row in I; [|simpl; intuition congruence].
      apply (seated_table_row clock (candidate p2 a) _ r I Id).
Qed.
End LeastWaste.

(** ** Strings *)

Section Strings.

Lemma is_space_lower_char c : is_space (lower_char c) = is_space c.
Proof. destruct c as [[] [] [] [] [] [] [] []]; reflexivity. Qed.

Lemma lower_char_idem c : lower_char (lower_char c) = lower_char c.
Proof. destruct c as [[] [] [] [] [] [] [] []]; reflexivity. Qed.

Lemma lower_char_comma c : Ascii.eqb (lower_char c) "," = Ascii.eqb c ",".
Proof. destruct c as [[] [] [] [] [] [] [] []]; reflexivity. Qed.

Lemma lower_idem s : lower (lower s) = lower s.
Proof.
  unfold lower. induction s as [|c r IH]; simpl; [reflexivity|].
  now rewrite lower_char_idem, IH.
Qed.

Lemma lstrip_lower s : lstrip (lower s) = lower (lstrip s).
Proof.
  induction s as [|c r IH]; simpl; [reflexivity|].
  rewrite is_space_lower_char. now destruct (is_space c).
Qed.

Lemma rstrip_lower s : rstrip (lower s) = lower (rstrip s).
Proof.
  induction s as [|c r IH]; simpl; [reflexivity|].
  fold (lower r). rewrite IH, is_space_lower_char.
  destruct (rstrip r); simpl; [now destruct (is_space c)|reflexivity].
Qed.

Lemma strip_lower s : strip (lower s) = lower (strip s).
Proof. unfold strip. now rewrite lstrip_lower, rstrip_lower. Qed.

Lemma lstrip_idem s : lstrip (lstrip s) = lstrip s.
Proof.
  induction s as [|c r IH]; simpl; [reflexivity|].
  destruct (is_space c) eqn:E; [exact IH|]. simpl. now rewrite E.
Qed.

Lemma rstrip_cons c r :
  rstrip (String c r) =
  match rstrip r with
  | EmptyString => if is_space c then EmptyString else String c EmptyString
  | r' => String c r'
  end.
Proof. reflexivity. Qed.

Lemma rstrip_idem s : rstrip (rstrip s) = rstrip s.
Proof.
  induction s as [|c r IH]; [reflexivity|].
  rewrite rstrip_cons. destruct (rstrip r) as [|c' r'] eqn:E.
  - destruct (is_space c) eqn:S; [reflexivity|].
    rewrite rstrip_cons. simpl. now rewrite S.
  - rewrite rstrip_cons, IH. reflexivity.
Qed.

Lemma lstrip_rstrip s : lstrip (rstrip s) = rstrip (lstrip s).
Proof.
  induction s as [|c r IH]; [reflexivity|].
  rewrite rstrip_cons. simpl lstrip at 2.
  destruct (is_space c) eqn:S.
  - rewrite <- IH. destruct (rstrip r) as [|c' r'] eqn:E; [reflexivity|].
    simpl. now rewrite S.
  - rewrite rstrip_cons.
    destruct (rstrip r) as [|c' r'] eqn:E; simpl; now rewrite S.
Qed.

Lemma strip_idem s : strip (strip s) = strip s.
Proof.
  unfold strip. now rewrite lstrip_rstrip, lstrip_idem, rstrip_idem.
Qed.

Lemma lstrip_strip s : lstrip (strip s) = strip s.
Proof. unfold strip. now rewrite lstrip_rstrip, lstrip_idem. Qed.

Lemma rstrip_strip s : rstrip (strip s) = strip s.
Proof. unfold strip. now rewrite rstrip_idem. Qed.

Lemma strip_lstrip s : strip (lstrip s) = strip s.
Proof. unfold strip. now rewrite lstrip_idem. Qed.

Lemma strip_rstrip s : strip (rstrip s) = strip s.
Proof. unfold strip. now rewrite lstrip_rstrip, rstrip_idem. Qed.

Lemma literal_space_is_space c :
  is_literal_space c = true -> is_space c = true.
Proof.
  destruct c as [[] [] [] [] [] [] [] []]; vm_compute; intros H;
    first [reflexivity | discriminate H].
Qed.

Lemma lstrip_length s : (String.length (lstrip s) <= String.length s)%nat.
Proof.
  induction s as [|c r IH]; simpl; [lia|].
  destruct (is_space c); simpl; lia.
Qed.

Lemma lstrip_fixed_literal s : lstrip s = s -> literal_lstrip s = s.
Proof.
  destruct s as [|c r]; [reflexivity|]. simpl.
  destruct (is_space c) eqn:E.
  - intros H. pose proof (lstrip_length r) as L. rewrite H in L. simpl in L. lia.
  - intros _. destruct (is_literal_space c) eqn:F; [|reflexivity].
    apply literal_space_is_space in F. congruence.
Qed.

Lemma rstrip_fixed_literal s : rstrip s = s -> literal_rstrip s = s.
Proof.
  induction s as [|c r IH]; [reflexivity|].
  rewrite rstrip_cons. simpl literal_rstrip.
  destruct (rstrip r) as [|c' r'] eqn:E.
  - destruct (is_space c) eqn:S; [discriminate|].
    intros H. injection H as <-. simpl.
    destruct (is_literal_space c) eqn:F; [|reflexivity].
    apply literal_space_is_space in F. congruence.
  - intros H. injection H as H. rewrite IH by exact H.
    rewrite <- H. reflexivity.
Qed.

(** On a text that [strip] has been through, [int] has nothing to skip. *)
Lemma int_stripped s : int (strip s) = int_literal (strip s).
Proof.
  unfold int.
  rewrite (lstrip_fixed_literal (strip s)) by apply lstrip_strip.
  rewrite (rstrip_fixed_literal (strip s)) by apply rstrip_strip.
  reflexivity.
Qed.
End Strings.

Section Split.
Variable sep : ascii.

Lemma split_not_nil s : split sep s <> [].
Proof.
  destruct s as [|c r]; simpl; [discriminate|].
  destruct (Ascii.eqb c sep); [discriminate|].
  destruct (split sep r); discriminate.
Qed.

Lemma split_cons_single c r :
  split sep (String c r) = [String c r] <->
  Ascii.eqb c sep = false /\ split sep r = [r].
Proof.
  simpl. destruct (Ascii.eqb c sep).
  - split; [discriminate|intros [? _]; discriminate].
  - destruct (split sep r) as [|h t] eqn:E.
    + now destruct (split_not_nil r).
    + split.
      * intros H. injection H as -> ->. auto.
      * intros [_ H]. injection H as -> ->. reflexivity.
Qed.

Lemma split_single s q : split sep s = [q] -> s = q.
Proof.
  revert q. induction s as [|c r IH]; intros q; simpl.
  - intros H. now injection H.
  - destruct (Ascii.eqb c sep).
    + intros H. injection H as _ H. now destruct (split_not_nil r).
    + destruct (split sep r) as [|h t] eqn:E; [now destruct (split_not_nil r)|].
      intros H. injection H as <- ->. f_equal. now apply IH.
Qed.

Lemma split_app p q :
  split sep p = [p] -> split sep (p ++ String sep q) = p :: split sep q.
Proof.
  induction p as [|c r IH]; simpl append.
  - intros _. simpl. now rewrite Ascii.eqb_refl.
  - intros H. apply split_cons_single in H. destruct H as [C H].
    simpl. rewrite C, (IH H). reflexivity.
Qed.

Lemma split_two_inv s p q :
  split sep s = [p; q] ->
  s = (p ++ String sep q)%string /\ split sep p = [p] /\ split sep q = [q].
Proof.
  revert p. induction s as [|c r IH]; intros p; simpl; [discriminate|].
  destruct (Ascii.eqb_spec c sep) as [->|C].
  - intros H. injection H as <- H. pose proof (split_single _ _ H) as ->.
    repeat split; assumption.
  - destruct (split sep r) as [|h t] eqn:E; [discriminate|].
    intros H. injection H as <- ->.
    destruct (IH h eq_refl) as (-> & Hh & Hq).
    repeat split; try assumption.
    apply split_cons_single. split; [|exact Hh].
    now apply Ascii.eqb_neq.
Qed.

Lemma split_lstrip_single p : split sep p = [p] -> split sep (lstrip p) = [lstrip p].
Proof.
  induction p as [|c r IH]; [auto|].
  intros H. simpl lstrip. destruct (is_space c); [|exact H].
  apply split_cons_single in H. now apply IH.
Qed.

Lemma split_rstrip_single q : split sep q = [q] -> split sep (rstrip q) = [rstrip q].
Proof.
  induction q as [|c r IH]; [auto|].
  intros H. apply split_cons_single in H. destruct H as [C H].
  rewrite rstrip_cons. specialize (IH H).
  destruct (rstrip r) as [|c' r'] eqn:E.
  - destruct (is_space c); [reflexivity|].
    apply split_cons_single. auto.
  - apply split_cons_single. auto.
Qed.

Hypothesis sep_not_space : is_space sep = false.

Lemma lstrip_app_sep p q :
  lstrip (p ++ String sep q) = (lstrip p ++ String sep q)%string.
Proof.
  induction p as [|c r IH]; simpl.
  - now rewrite sep_not_space.
  - destruct (is_space c); [exact IH|reflexivity].
Qed.

Lemma rstrip_app_sep p q :
  rstrip (p ++ String sep q) = (p ++ String sep (rstrip q))%string.
Proof.
  induction p as [|c r IH].
  - change (rstrip (String sep q) = String sep (rstrip q)).
    rewrite rstrip_cons. destruct (rstrip q); [|reflexivity].
    now rewrite sep_not_space.
  - change (rstrip (String c (r ++ String sep q)) =
            String c (r ++ String sep (rstrip q))).
    rewrite rstrip_cons, IH. now destruct r.
Qed.

(** Stripping a text with one separator strips the left of the first piece
    and the right of the second. *)
Lemma split_strip_two s p q :
  split sep s = [p; q] -> split sep (strip s) = [lstrip p; rstrip q].
Proof.
  intros H. apply split_two_inv in H. destruct H as (-> & Hp & Hq).
  unfold strip. rewrite lstrip_app_sep, rstrip_app_sep.
  rewrite split_app by now apply split_lstrip_single.
  now rewrite split_rstrip_single.
Qed.
End Split.

Lemma split_comma_lower s : split "," (lower s) = List.map lower (split "," s).
Proof.
  induction s as [|c r IH]; simpl; [reflexivity|].
  fold (lower r). rewrite lower_char_comma, IH.
  destruct (Ascii.eqb c ","); [reflexivity|].
  now destruct (split "," r).
Qed.

Lemma literal_lstrip_lower s :
  literal_lstrip (lower s) = lower (literal_lstrip s).
Proof.
  induction s as [|c r IH]; simpl; [reflexivity|].
  assert (E : is_literal_space (lower_char c) = is_literal_space c)
    by (destruct c as [[] [] [] [] [] [] [] []]; reflexivity).
  rewrite E. now destruct (is_literal_space c).
Qed.

Lemma literal_rstrip_lower s :
  literal_rstrip (lower s) = lower (literal_rstrip s).
Proof.
  induction s as [|c r IH]; simpl; [reflexivity|].
  assert (E : is_literal_space (lower_char c) = is_literal_space c)
    by (destruct c as [[] [] [] [] [] [] [] []]; reflexivity).
  fold (lower r). rewrite IH, E.
  destruct (literal_rstrip r); simpl;
    [now destruct (is_literal_space c)|reflexivity].
Qed.

Lemma count_digits_lower s : count_digits (lower s) = count_digits s.
Proof.
  induction s as [|c r IH]; simpl; [reflexivity|].
  assert (E : is_digit (lower_char c) = is_digit c)
    by (destruct c as [[] [] [] [] [] [] [] []]; reflexivity).
  fold (lower r). now rewrite IH, E.
Qed.

Lemma int_literal_lower s : int_literal (lower s) = int_literal s.
Proof.
  assert (D : forall r acc b, digits_value acc b (lower r) = digits_value acc b r).
  { induction r as [|c r IH]; intros acc b; simpl; [reflexivity|].
    fold (lower r).
    assert (E : is_digit (lower_char c) = is_digit c
                /\ (is_digit c = true -> digit_value (lower_char c) = digit_value c)
                /\ Ascii.eqb (lower_char c) "_" = Ascii.eqb c "_")
      by (destruct c as [[] [] [] [] [] [] [] []]; repeat split; discriminate).
    destruct E as (E1 & E2 & E3). rewrite E1, E3.
    destruct (is_digit c) eqn:Dg; [rewrite E2 by reflexivity; apply IH|].
    destruct (Ascii.eqb c "_" && b); [apply IH|reflexivity]. }
  unfold int_literal. rewrite count_digits_lower.
  destruct (int_max_str_digits <? count_digits s); [reflexivity|].
  destruct s as [|c r]; [reflexivity|].
  change (lower (String c r)) with (String (lower_char c) (lower r)).
  destruct c as [[] [] [] [] [] [] [] []]; simpl lower_char;
    rewrite ?D; try reflexivity;
    change (lower (String ?a r)) with (String (lower_char a) (lower r));
    simpl; rewrite ?D; reflexivity.
Qed.

Lemma int_lower s : int (lower s) = int s.
Proof.
  unfold int.
  now rewrite literal_lstrip_lower, literal_rstrip_lower, int_literal_lower.
Qed.

(** ** The conversation handler *)

Section Handler.
Variable clock : nat -> Z.

Lemma attempt_frame fuel w w' :
  attempt_seating_allocation clock fuel w = Some w' ->
  user_states w' = user_states w
  /\ exists evs, trace w' = (trace w ++ evs)%list.
Proof.
  revert w. induction fuel as [|fuel IH]; intros w; [discriminate|].
  rewrite attempt_unfold.
  destruct (next_allocation _ _) as [x|].
  - intros H. apply IH in H. destruct H as (U & evs & T).
    split; [exact U|]. simpl in T. rewrite <- !app_assoc in T. eauto.
  - intros H. injection H as <-. split; [reflexivity|].
    simpl. rewrite <- app_assoc. eauto.
Qed.

Lemma new_events_app w w' evs :
  trace w' = (trace w ++ evs)%list -> new_events w w' = evs.
Proof.
  intros E. unfold new_events. rewrite E. apply drop_app_length.
Qed.

Lemma name_and_count_code text :
  name_and_count text =
  match List.map strip (split "," text) with
  | [name; people_count_str] =>
      match int people_count_str with
      | Some n => Some (name, n)
      | None => None
      end
  | _ => None
  end.
Proof.
  unfold name_and_count.
  destruct (split "," text) as [|a [|b [|c l]]]; reflexivity.
Qed.

Lemma save_id_positive phone name people w :
  db_wf (db w) ->
  0 < fst (save_user_data_to_db clock phone name people w).
Proof.
  intros W. unfold save_user_data_to_db.
  destruct (List.find _ _) as [e|] eqn:F; simpl.
  - apply find_some in F. destruct F as [I _].
    pose proof (wf_users_seq _ W) as S. rewrite List.Forall_forall in S.
    apply S in I. lia.
  - pose proof (wf_seq_nonneg _ W). lia.
Qed.

Lemma save_length phone name people w :
  (length (users (db (snd (save_user_data_to_db clock phone name people w))))
   <= length (users (db w)) + 1)%nat.
Proof.
  unfold save_user_data_to_db.
  destruct (List.find _ _) as [e|]; simpl.
  - rewrite length_map. lia.
  - rewrite length_app. simpl. lia.
Qed.

Lemma save_frame phone name people w :
  let r := save_user_data_to_db clock phone name people w in
  user_states (snd r) = user_states w
  /\ exists e, is_enqueue e = true /\ trace (snd r) = (trace w ++ [e])%list.
Proof.
  unfold save_user_data_to_db.
  destruct (List.find _ _) as [e|]; simpl; (split; [reflexivity|]);
    eexists; (split; [|reflexivity]); reflexivity.
Qed.
End Handler.

Section TableNumber.
Variable clock : nat -> Z.

Lemma handle_message_text fuel msg w s :
  m_type msg = "text" ->
  user_states w !! m_from msg = Some s ->
  handle_message clock fuel msg w =
  handle_text clock fuel (m_from msg) s (strip (lower (m_text_body msg))) w.
Proof.
  intros T S. unfold handle_message. cbv zeta. rewrite S. cbv iota beta.
  rewrite S, T. reflexivity.
Qed.

(** C3, as the code has it. For a waiter who is asked for a table number,
    an ASCII text that normalizes to a number no table carries makes the
    handler print and send the lookup error and leave the database as it
    was; the session is then reset to customer / initial, like after a
    release that succeeds. *)
Theorem unknown_table_reported fuel msg w :
  isascii (m_text_body msg) = true ->
  m_type msg = "text" ->
  user_states w !! m_from msg =
    Some {| s_role := Waiter; s_state := awaiting_free_table_number |} ->
  ~ In (normalize_table_number (strip (lower (m_text_body msg))))
       (List.map t_table_number (tables (db w))) ->
  exists w',
    handle_message clock fuel msg w = Some w'
    /\ trace w' =
       (trace w ++
        [Printed (log_not_found
                    (normalize_table_number (strip (lower (m_text_body msg)))));
         Sent (m_from msg)
              (msg_could_not_find_table
                 (normalize_table_number (strip (lower (m_text_body msg)))))])%list
    /\ db w' = db w
    /\ List.map t_status (tables (db w')) = List.map t_status (tables (db w))
    /\ user_states w' = <[m_from msg := fresh_session]> (user_states w)
    /\ user_states w' !! m_from msg =
       Some {| s_role := Customer; s_state := initial |}.
Proof.
  intros _ T S N. rewrite (handle_message_text _ _ _ _ T S).
  unfold handle_text. simpl.
  rewrite (release_absent clock _ w N).
  eexists. split; [reflexivity|]. simpl.
  rewrite <- app_assoc. repeat split.
  apply lookup_insert_eq.
Qed.
End TableNumber.

(** C3, as stated, fails: the waiter's session does not stay at
    waiter / awaiting_free_table_number after an unknown table number. *)
Lemma unknown_table_session_not_kept :
  isascii (m_text_body unknown_table_message) = true
  /\ m_type unknown_table_message = "text"
  /\ user_states waiter_prompted !! m_from unknown_table_message =
     Some {| s_role := Waiter; s_state := awaiting_free_table_number |}
  /\ ~ In (normalize_table_number
             (strip (lower (m_text_body unknown_table_message))))
          (List.map t_table_number (tables (db waiter_prompted)))
  /\ exists w',
       handle_message sample_clock 1 unknown_table_message waiter_prompted
         = Some w'
       /\ user_states w' !! m_from unknown_table_message <>
          Some {| s_role := Waiter; s_state := awaiting_free_table_number |}.
Proof.
  split; [reflexivity|]. split; [reflexivity|]. split; [reflexivity|]. split.
  - vm_compute. intros H.
    repeat (destruct H as [H|H]; [discriminate|]). exact H.
  - eexists. split; [vm_compute; reflexivity|]. vm_compute. discriminate.
Qed.

Section NameAndPeople.
Variable clock : nat -> Z.

Lemma send_rejected sender m w : rejected sender m w (send_message sender m w).
Proof. repeat split. Qed.

Lemma rejected_no_enqueue sender m w w' :
  rejected sender m w w' ->
  ~ exists e, In e (new_events w w') /\ is_enqueue e = true.
Proof.
  intros (T & _ & _) (e & I & E).
  rewrite (new_events_app _ _ _ T) in I. destruct I as [<-|[]]. discriminate.
Qed.

(** C7. For a customer who is asked for name and party size, the handler
    enqueues exactly when the text splits on a comma into a name and an
    integer count with 0 < count <= 6. Then it calls
    [save_user_data_to_db] with that name and count, sends the queued
    confirmation, resets the session to customer / initial and runs the
    allocation. When the text does not parse, or the count is not positive,
    or it is above 6, the handler sends the matching error and changes
    neither the session nor the database. The text is ASCII, and an
    integer is a literal as [int] reads it: a sign or none, and at most
    4300 digits. *)
Theorem name_and_people_validated fuel msg w :
  isascii (m_text_body msg) = true ->
  m_type msg = "text" ->
  user_states w !! m_from msg =
    Some {| s_role := Customer; s_state := awaiting_name_people |} ->
  db_wf (db w) ->
  (length (users (db w)) + 1 < fuel)%nat ->
  exists w',
    handle_message clock fuel msg w = Some w'
    /\ ((exists e, In e (new_events w w') /\ is_enqueue e = true) <->
        (exists name count,
            name_and_count (strip (lower (m_text_body msg))) = Some (name, count)
            /\ 0 < count <= 6))
    /\ match name_and_count (strip (lower (m_text_body msg))) with
       | Some (name, count) =>
           if count <=? 0 then rejected (m_from msg) msg_must_be_positive w w'
           else if 6 <? count then rejected (m_from msg) msg_more_than_six w w'
           else
             let saved := save_user_data_to_db clock (m_from msg) name count w in
             attempt_seating_allocation clock fuel
               (set_session (m_from msg) fresh_session
                  (send_message (m_from msg) (msg_in_the_queue name count)
                     (snd saved))) = Some w'
             /\ (exists e evs,
                   is_enqueue e = true
                   /\ trace w' =
                      (trace w ++
                       e :: Sent (m_from msg) (msg_in_the_queue name count)
                         :: evs)%list)
             /\ user_states w' = <[m_from msg := fresh_session]> (user_states w)
             /\ user_states w' !! m_from msg =
                Some {| s_role := Customer; s_state := initial |}
       | None => rejected (m_from msg) msg_format_name_number w w'
       end.
Proof.
  intros _ T S W L. rewrite (handle_message_text _ _ _ _ _ T S).
  unfold handle_text. simpl. rewrite name_and_count_code.
  set (reject := fun m => send_rejected (m_from msg) m w).
  destruct (List.map strip (split "," (strip (lower (m_text_body msg)))))
    as [|name [|cnt [|x l]]];
    try (eexists; split; [reflexivity|]; split; [|apply reject];
         split; [intros H; now apply (rejected_no_enqueue _ _ _ _ (reject _)) in H
                |intros (? & ? & ? & _); discriminate]).
  destruct (int cnt) as [count|];
    [|eexists; split; [reflexivity|]; split; [|apply reject];
      split; [intros H; now apply (rejected_no_enqueue _ _ _ _ (reject _)) in H
             |intros (? & ? & ? & _); discriminate]].
  destruct (Z.leb_spec count 0) as [C0|C0].
  { eexists. split; [reflexivity|]. split; [|apply reject].
    split; [intros H; now apply (rejected_no_enqueue _ _ _ _ (reject _)) in H|].
    intros (? & ? & E & ?). injection E as <- <-. lia. }
  destruct (Z.ltb_spec 6 count) as [C6|C6].
  { eexists. split; [reflexivity|]. split; [|apply reject].
    split; [intros H; now apply (rejected_no_enqueue _ _ _ _ (reject _)) in H|].
    intros (? & ? & E & ?). injection E as <- <-. lia. }
  pose proof (save_id_positive clock (m_from msg) name count w W) as P.
  pose proof (save_length clock (m_from msg) name count w) as Ls.
  destruct (save_frame clock (m_from msg) name count w) as (Us & e & Ee & Ts).
  destruct (save_user_data_to_db clock (m_from msg) name count w)
    as [user_id w1] eqn:Sv. simpl in P, Ls, Us, Ts.
  destruct (Z.eqb_spec user_id 0) as [Z0|Z0]; [lia|]. simpl.
  destruct (attempt_enough_fuel clock fuel
              (set_session (m_from msg) fresh_session
                 (send_message (m_from msg) (msg_in_the_queue name count) w1)))
    as [w' A]; [simpl; lia|].
  exists w'. split; [exact A|].
  destruct (attempt_frame clock _ _ _ A) as (U & evs & Tr).
  simpl in U, Tr. rewrite Ts, <- !app_assoc in Tr. simpl in Tr.
  split; [split|].
  - intros _. exists name, count. split; [reflexivity|lia].
  - intros _. exists e. split; [|exact Ee].
    rewrite (new_events_app _ _ _ Tr). now left.
  - split; [exact A|]. split; [eauto|].
    rewrite U, Us. split; [reflexivity|]. apply lookup_insert_eq.
Qed.
End NameAndPeople.

(** ** Table numbers *)

Section Normalization.

Lemma upper_char_not_lower c : is_lower (upper_char c) = false.
Proof. destruct c as [[] [] [] [] [] [] [] []]; reflexivity. Qed.

Lemma upper_no_lower s :
  Forall (fun c => is_lower c = false) (list_ascii_of_string (upper s)).
Proof.
  induction s as [|c r IH]; simpl; constructor;
    [apply upper_char_not_lower|exact IH].
Qed.

Lemma all_digits_spec s :
  all_digits s = true <->
  Forall (fun c => is_digit c = true) (list_ascii_of_string s).
Proof.
  induction s as [|c r IH]; simpl.
  - split; [constructor|reflexivity].
  - rewrite andb_true_iff, IH. split.
    + intros [? ?]. now constructor.
    + intros H. inversion H. auto.
Qed.

Lemma isdigit_spec s :
  isdigit s = true <->
  s <> "" /\ Forall (fun c => is_digit c = true) (list_ascii_of_string s).
Proof.
  rewrite <- all_digits_spec. destruct s as [|c r]; simpl.
  - split; [discriminate|intros [H _]; now destruct H].
  - split; [intros H; split; [discriminate|exact H]|tauto].
Qed.

Lemma replace_table_leading s :
  replace "table" "" ("table" ++ s) = replace "table" "" s.
Proof. destruct s; reflexivity. Qed.

Lemma replace_from_cons old new c r :
  replace_from old new O (String c r) =
  if String.prefix old (String c r)
  then (new ++ replace_from old new (String.length old - 1) r)%string
  else String c (replace_from old new O r).
Proof. reflexivity. Qed.

Lemma prefix_table_other c r :
  Ascii.eqb c "t" = false -> String.prefix "table" (String c r) = false.
Proof.
  intros H.
  change (String.prefix "table" (String c r))
    with (if ascii_dec "t" c then String.prefix "able" r else false).
  destruct (ascii_dec "t" c) as [<-|N]; [discriminate|reflexivity].
Qed.

(** The first occurrence of the word is removed, wherever the text before
    it has no letter t. *)
Lemma replace_table_after a s :
  Forall (fun c => Ascii.eqb c "t" = false) (list_ascii_of_string a) ->
  replace "table" "" (a ++ "table" ++ s) = (a ++ replace "table" "" s)%string.
Proof.
  induction a as [|c r IH]; intros H.
  - apply replace_table_leading.
  - simpl in H. inversion H as [|? ? Hc Hr]; subst.
    change (String c r ++ "table" ++ s)%string
      with (String c (r ++ "table" ++ s)).
    change (String c r ++ replace "table" "" s)%string
      with (String c (r ++ replace "table" "" s)).
    rewrite <- (IH Hr). unfold replace.
    rewrite replace_from_cons, prefix_table_other by exact Hc. reflexivity.
Qed.

Lemma release_fails_iff clock number w :
  fst (update_table_status_to_free clock number w) = false <->
  ~ exists t, In t (tables (db w)) /\ t_table_number t = number.
Proof.
  pose proof (release_result clock number w) as R.
  rewrite in_map_iff in R.
  destruct (fst (update_table_status_to_free clock number w)).
  - split; [discriminate|]. intros N. exfalso. apply N.
    destruct (proj1 R eq_refl) as (t & E & I). eauto.
  - split; [|reflexivity]. intros _ (t & I & E).
    assert (false = true) by (apply R; eauto). discriminate.
Qed.

(** C8. The table number of a text: all the occurrences of "table" are
    removed (a leading one, or the first one when no t precedes it, as
    instances) and the rest is stripped of whitespace on both sides; a rest
    that is not empty and all digits becomes "T" followed by it; any other
    rest is upper-cased, so that no lower-case letter is left. The lookup
    that follows, [update_table_status_to_free], fails exactly when no
    table carries that number. The texts are ASCII. *)
Theorem table_number_normalized :
  (forall text,
      isascii text = true ->
      let rest := strip (replace "table" "" text) in
      lstrip rest = rest /\ rstrip rest = rest
      /\ (isdigit rest = true ->
          normalize_table_number text = String "T" rest)
      /\ (isdigit rest = false ->
          normalize_table_number text = upper rest
          /\ Forall (fun c => is_lower c = false)
                    (list_ascii_of_string (normalize_table_number text))))
  /\ (forall s,
        isascii s = true ->
        (isdigit s = true <->
         s <> "" /\ Forall (fun c => is_digit c = true) (list_ascii_of_string s)))
  /\ (forall s,
        isascii s = true ->
        normalize_table_number ("table" ++ s) = normalize_table_number s)
  /\ (forall a s,
        isascii a = true -> isascii s = true ->
        Forall (fun c => Ascii.eqb c "t" = false) (list_ascii_of_string a) ->
        replace "table" "" (a ++ "table" ++ s) =
        (a ++ replace "table" "" s)%string)
  /\ (normalize_table_number "4" = "T4"
      /\ normalize_table_number "table 4" = "T4"
      /\ normalize_table_number "t10" = "T10"
      /\ normalize_table_number "4 table" = "T4"
      /\ normalize_table_number "patio" = "PATIO")
  /\ (forall clock text w,
        isascii text = true ->
        (fst (update_table_status_to_free clock
                (normalize_table_number text) w) = false <->
         ~ exists t, In t (tables (db w))
                     /\ t_table_number t = normalize_table_number text)).
Proof.
  split; [|split; [|split; [|split; [|split]]]].
  - intros text _ rest. unfold normalize_table_number. fold rest.
    split; [apply lstrip_strip|]. split; [apply rstrip_strip|].
    split; intros D; rewrite D; [reflexivity|].
    split; [reflexivity|apply upper_no_lower].
  - intros s _. apply isdigit_spec.
  - intros s _. unfold normalize_table_number.
    now rewrite replace_table_leading.
  - intros a s _ _. apply replace_table_after.
  - repeat split.
  - intros clock text w _. apply release_fails_iff.
Qed.
End Normalization.

(** ** Letter case and surrounding whitespace of the inbound text *)

Section LetterCase.
Variable clock : nat -> Z.

Lemma strip_lower_idem s : strip (lower (strip (lower s))) = strip (lower s).
Proof. now rewrite <- (strip_lower (lower s)), lower_idem, strip_idem. Qed.

(** What the handler does to a session in state [initial] on a trigger. *)
Lemma handle_trigger fuel msg w text reply next :
  m_type msg = "text" ->
  s_state (session_of (m_from msg) w) = initial ->
  strip (lower (m_text_body msg)) = text ->
  (text = "waiter" /\ reply = msg_enter_password
   /\ next = {| s_role := Waiter; s_state := awaiting_waiter_password |})
  \/ (text = "hi" /\ reply = msg_enter_name_and_people
      /\ next = {| s_role := Customer; s_state := awaiting_name_people |}) ->
  exists w',
    handle_message clock fuel msg w = Some w'
    /\ trace w' = (trace w ++ [Sent (m_from msg) reply])%list
    /\ user_states w' = <[m_from msg := next]> (user_states w)
    /\ db w' = db w.
Proof.
  intros T S B C. unfold handle_message, session_of in *. cbv zeta.
  rewrite T, B. simpl.
  destruct (user_states w !! m_from msg) as [s|] eqn:L.
  - rewrite L. simpl in *. unfold handle_text. rewrite S.
    destruct C as [(-> & -> & ->)|(-> & -> & ->)]; simpl;
      (eexists; split; [reflexivity|]; repeat split).
  - simpl. rewrite lookup_insert_eq. simpl. unfold handle_text. simpl.
    destruct C as [(-> & -> & ->)|(-> & -> & ->)]; simpl;
      (eexists; split; [reflexivity|]; repeat split; simpl;
       apply insert_insert_eq).
Qed.

Lemma typed_name_and_count body p q count :
  split "," body = [p; q] -> int (strip q) = Some count ->
  List.map strip (split "," (strip (lower body))) =
    [lower (strip p); strip (rstrip (lower q))]
  /\ int (strip (rstrip (lower q))) = Some count.
Proof.
  intros Sp I.
  assert (E : split "," (lower body) = [lower p; lower q])
    by (rewrite split_comma_lower, Sp; reflexivity).
  apply (split_strip_two "," eq_refl) in E. rewrite E. simpl. split.
  - now rewrite strip_lstrip, strip_lower.
  - now rewrite strip_rstrip, strip_lower, int_lower.
Qed.

Lemma is_whitespace_space c : is_whitespace c = is_space c.
Proof. destruct c as [[] [] [] [] [] [] [] []]; reflexivity. Qed.

Lemma upper_not_whitespace c : is_upper c = true -> is_whitespace c = false.
Proof.
  destruct c as [[] [] [] [] [] [] [] []]; vm_compute; intros H;
    first [reflexivity | discriminate H].
Qed.

Lemma small_not_whitespace c d :
  is_upper c = true -> nat_of_ascii d = (nat_of_ascii c + 32)%nat ->
  is_whitespace d = false.
Proof.
  intros U E. rewrite <- (ascii_nat_embedding d), E. clear E. revert U.
  destruct c as [[] [] [] [] [] [] [] []]; vm_compute; intros H;
    first [reflexivity | discriminate H].
Qed.

Lemma lowercased_lower typed t : lowercased typed t = true -> t = lower typed.
Proof.
  revert t. induction typed as [|c r IH]; intros [|d r']; simpl;
    try discriminate; [reflexivity|].
  intros H. apply andb_prop in H. destruct H as [H1 H2].
  change (lower (String c r)) with (String (lower_char c) (lower r)).
  rewrite <- (IH _ H2). f_equal.
  unfold lower_char. destruct (is_upper c).
  - apply Nat.eqb_eq in H1. now rewrite <- H1, ascii_nat_embedding.
  - now apply Ascii.eqb_eq in H1.
Qed.

Lemma lstrip_padding p : padding p = true -> lstrip p = "".
Proof.
  induction p as [|c r IH]; simpl; [reflexivity|].
  rewrite is_whitespace_space. intros H. apply andb_prop in H.
  destruct H as [-> H]. now apply IH.
Qed.

Lemma lstrip_padded p s : padding p = true -> lstrip (p ++ s) = lstrip s.
Proof.
  induction p as [|c r IH]; [reflexivity|]. simpl padding.
  rewrite is_whitespace_space. intros H. apply andb_prop in H.
  destruct H as [H1 H2].
  change (String c r ++ s)%string with (String c (r ++ s)). simpl.
  rewrite H1. now apply IH.
Qed.

Lemma rstrip_padding p : padding p = true -> rstrip p = "".
Proof.
  induction p as [|c r IH]; [reflexivity|]. simpl padding.
  rewrite is_whitespace_space. intros H. apply andb_prop in H.
  destruct H as [H1 H2]. rewrite rstrip_cons, (IH H2), H1. reflexivity.
Qed.

Lemma rstrip_padded s p : padding p = true -> rstrip (s ++ p) = rstrip s.
Proof.
  intros P. induction s as [|c r IH]; [now apply rstrip_padding|].
  change (String c r ++ p)%string with (String c (r ++ p)).
  now rewrite !rstrip_cons, IH.
Qed.

Lemma rstrip_last c r :
  is_space (last_char c r) = false -> rstrip (String c r) = String c r.
Proof.
  revert c. induction r as [|d r IH]; intros c H.
  - simpl in *. now rewrite H.
  - rewrite rstrip_cons, (IH d H). reflexivity.
Qed.

(** The text the handler works on, said without [strip] and [lower]: what
    is left of the body between the whitespace around it, its capital
    letters made small. *)
Lemma seen_text pad1 core pad2 t :
  padding pad1 = true -> padding pad2 = true ->
  trimmed core = true -> lowercased core t = true ->
  strip (lower (pad1 ++ core ++ pad2)) = t.
Proof.
  intros P1 P2 T L. rewrite strip_lower, (lowercased_lower _ _ L). f_equal.
  unfold strip. rewrite lstrip_padded by exact P1.
  destruct core as [|c r].
  - simpl. rewrite lstrip_padding by exact P2. reflexivity.
  - simpl in T. apply andb_prop in T. destruct T as [T1 T2].
    rewrite is_whitespace_space in T1, T2.
    apply negb_true_iff in T1, T2.
    change (String c r ++ pad2)%string with (String c (r ++ pad2)).
    simpl lstrip. rewrite T1.
    change (String c (r ++ pad2)) with (String c r ++ pad2)%string.
    rewrite rstrip_padded by exact P2. now apply rstrip_last.
Qed.

Lemma lowercased_last c r d r' :
  lowercased (String c r) (String d r') = true ->
  lowercased (String (last_char c r) "") (String (last_char d r') "") = true.
Proof.
  revert c d r'. induction r as [|c' r IH]; intros c d [|d' r'] H;
    simpl in H; apply andb_prop in H; destruct H as [H1 H2];
    try discriminate.
  - simpl. now rewrite H1.
  - simpl last_char. apply IH. exact H2.
Qed.

Lemma lowercased_not_whitespace c d :
  lowercased (String c "") (String d "") = true ->
  is_whitespace d = false -> is_whitespace c = false.
Proof.
  simpl. rewrite andb_true_r. destruct (is_upper c) eqn:U.
  - intros _ _. now apply upper_not_whitespace.
  - intros E. apply Ascii.eqb_eq in E. now subst.
Qed.

(** A text that becomes a trimmed one when its capitals are made small is
    trimmed. *)
Lemma lowercased_trimmed core t :
  lowercased core t = true -> trimmed t = true -> trimmed core = true.
Proof.
  destruct core as [|c r], t as [|d r']; try discriminate; [reflexivity|].
  intros L T. simpl in T. apply andb_prop in T. destruct T as [T1 T2].
  apply negb_true_iff in T1, T2. simpl.
  apply andb_true_intro. split; apply negb_true_iff.
  - simpl in L. apply andb_prop in L. destruct L as [L _].
    apply (lowercased_not_whitespace c d); [|exact T1].
    simpl. now rewrite L.
  - apply (lowercased_not_whitespace _ (last_char d r')); [|exact T2].
    now apply lowercased_last.
Qed.

(** C10. The handler works on the body without the whitespace around it
    and with its capital letters made small: for a body that is a text
    [core] between two paddings of whitespace, the chain of tests receives
    [core] lower-cased, and the message is handled like the one whose body
    is that text. So hi and waiter, in any letter case and padded or
    not, start the customer and the waiter flow, the waiter password is
    accepted in any letter case, and the name saved for a party is what the
    customer typed before the comma, without the whitespace around it and
    in small letters. The bodies are ASCII texts. *)
Theorem text_lowered_and_stripped :
  (forall fuel msg w pad1 core pad2 t,
      isascii (m_text_body msg) = true ->
      m_type msg = "text" ->
      m_text_body msg = (pad1 ++ core ++ pad2)%string ->
      padding pad1 = true -> padding pad2 = true ->
      trimmed core = true -> lowercased core t = true ->
      handle_message clock fuel msg w =
        handle_message clock fuel
          {| m_from := m_from msg; m_type := m_type msg; m_text_body := t |} w
      /\ forall s, user_states w !! m_from msg = Some s ->
           handle_message clock fuel msg w =
           handle_text clock fuel (m_from msg) s t w)
  /\ (forall fuel msg w pad1 core pad2,
        isascii (m_text_body msg) = true ->
        m_type msg = "text" ->
        s_state (session_of (m_from msg) w) = initial ->
        m_text_body msg = (pad1 ++ core ++ pad2)%string ->
        padding pad1 = true -> padding pad2 = true ->
        lowercased core "hi" = true ->
        exists w',
          handle_message clock fuel msg w = Some w'
          /\ trace w' = (trace w ++ [Sent (m_from msg) msg_enter_name_and_people])%list
          /\ user_states w' =
             <[m_from msg := {| s_role := Customer;
                                s_state := awaiting_name_people |}]>
               (user_states w)
          /\ db w' = db w)
  /\ (forall fuel msg w pad1 core pad2,
        isascii (m_text_body msg) = true ->
        m_type msg = "text" ->
        s_state (session_of (m_from msg) w) = initial ->
        m_text_body msg = (pad1 ++ core ++ pad2)%string ->
        padding pad1 = true -> padding pad2 = true ->
        lowercased core "waiter" = true ->
        exists w',
          handle_message clock fuel msg w = Some w'
          /\ trace w' = (trace w ++ [Sent (m_from msg) msg_enter_password])%list
          /\ user_states w' =
             <[m_from msg := {| s_role := Waiter;
                                s_state := awaiting_waiter_password |}]>
               (user_states w)
          /\ db w' = db w)
  /\ (forall fuel msg w pad1 core pad2,
        isascii (m_text_body msg) = true ->
        m_type msg = "text" ->
        user_states w !! m_from msg =
          Some {| s_role := Waiter; s_state := awaiting_waiter_password |} ->
        m_text_body msg = (pad1 ++ core ++ pad2)%string ->
        padding pad1 = true -> padding pad2 = true ->
        lowercased core "waiter123" = true ->
        handle_message clock fuel msg w =
        Some (set_session (m_from msg)
                {| s_role := Waiter; s_state := awaiting_free_table_number |}
                (send_message (m_from msg) msg_waiter_authenticated w)))
  /\ (forall fuel msg w p q pad1 core pad2 name count,
        isascii (m_text_body msg) = true ->
        m_type msg = "text" ->
        user_states w !! m_from msg =
          Some {| s_role := Customer; s_state := awaiting_name_people |} ->
        db_wf (db w) ->
        split "," (m_text_body msg) = [p; q] ->
        p = (pad1 ++ core ++ pad2)%string ->
        padding pad1 = true -> padding pad2 = true ->
        trimmed core = true -> lowercased core name = true ->
        int (strip q) = Some count -> 0 < count <= 6 ->
        let saved := save_user_data_to_db clock (m_from msg) name count w in
        handle_message clock fuel msg w =
          attempt_seating_allocation clock fuel
            (set_session (m_from msg) fresh_session
               (send_message (m_from msg)
                  (msg_in_the_queue name count) (snd saved)))
        /\ List.filter (fun u => (u_phone_number u =? m_from msg)%string)
                       (users (db (snd saved))) =
           [ {| u_id := fst saved; u_phone_number := m_from msg;
                u_name := name; u_people_count := count;
                u_timestamp := clock (ticks w) |} ]).
Proof.
  split; [|split; [|split; [|split]]].
  - intros fuel msg w pad1 core pad2 t _ T B P1 P2 Tr L.
    pose proof (seen_text pad1 core pad2 t P1 P2 Tr L) as E.
    rewrite <- B in E.
    assert (Et : strip (lower t) = t).
    { rewrite <- E. apply strip_lower_idem. }
    split.
    + unfold handle_message. simpl. now rewrite E, Et.
    + intros s S. now rewrite (handle_message_text _ _ _ _ _ T S), E.
  - intros fuel msg w pad1 core pad2 _ T S B P1 P2 L.
    apply (handle_trigger fuel msg w "hi"); try assumption.
    + rewrite B. apply seen_text; try assumption.
      now apply (lowercased_trimmed core "hi").
    + right. repeat split.
  - intros fuel msg w pad1 core pad2 _ T S B P1 P2 L.
    apply (handle_trigger fuel msg w "waiter"); try assumption.
    + rewrite B. apply seen_text; try assumption.
      now apply (lowercased_trimmed core "waiter").
    + left. repeat split.
  - intros fuel msg w pad1 core pad2 _ T S B P1 P2 L.
    rewrite (handle_message_text _ _ _ _ _ T S), B.
    rewrite (seen_text pad1 core pad2 "waiter123" P1 P2
               (lowercased_trimmed core "waiter123" L eq_refl) L).
    reflexivity.
  - intros fuel msg w p q pad1 core pad2 name count _ T S W Sp Ep P1 P2 Tr L I C saved.
    destruct (typed_name_and_count _ _ _ _ Sp I) as [M I'].
    assert (En : lower (strip p) = name).
    { rewrite <- strip_lower, Ep. now apply seen_text. }
    rewrite En in M.
    split.
    + rewrite (handle_message_text _ _ _ _ _ T S).
      unfold handle_text. simpl. rewrite M, I'.
      destruct (Z.leb_spec count 0); [lia|].
      destruct (Z.ltb_spec 6 count); [lia|].
      pose proof (save_id_positive clock (m_from msg) name count w W) as P.
      fold saved in P. subst saved.
      destruct (save_user_data_to_db clock (m_from msg) name count w)
        as [user_id w1]. simpl in *.
      destruct (Z.eqb_spec user_id 0); [lia|reflexivity].
    + apply (save_entry clock (m_from msg) name count w).
      apply (wf_phones _ W).
Qed.
End LetterCase.

(** ** The schema constraints hold in every reachable world *)

Section SchemaInvariant.
Variable clock : nat -> Z.

Lemma map_map_same {A B} (g : A -> B) (f : A -> A) l :
  (forall x, g (f x) = g x) -> List.map g (List.map f l) = List.map g l.
Proof.
  intros H. rewrite List.map_map. apply List.map_ext. exact H.
Qed.

Lemma empty_db_wf : db_wf empty_db.
Proof. constructor; simpl; try constructor; lia. Qed.

Lemma insert_or_ignore_wf number capacity w :
  db_wf (db w) -> db_wf (db (insert_or_ignore_table clock number capacity w)).
Proof.
  intros W. unfold insert_or_ignore_table.
  destruct W as [W1 W2 W3 W4 W5 W6 W7]. rewrite List.Forall_forall in W6.
  destruct (existsb _ _) eqn:E.
  { constructor; simpl; try assumption; [|lia].
    apply List.Forall_forall. intros t Ht. apply W6 in Ht. lia. }
  constructor; simpl; try assumption.
  - rewrite List.map_app. simpl. apply List.NoDup_app.
    + exact W3.
    + repeat constructor. intros [].
    + intros x Hx [<-|[]]. apply in_map_iff in Hx.
      destruct Hx as (t & Et & Ht). apply W6 in Ht. lia.
  - rewrite List.map_app. simpl. apply List.NoDup_app.
    + exact W4.
    + repeat constructor. intros [].
    + intros x Hx [<-|[]]. apply in_map_iff in Hx.
      destruct Hx as (t & Et & Ht).
      assert (X : existsb (fun t => (t_table_number t =? number)%string)
                          (tables (db w)) = true).
      { apply existsb_exists. exists t. split; [exact Ht|].
        now apply String.eqb_eq. }
      congruence.
  - apply Forall_app. split.
    + apply List.Forall_forall. intros t Ht. apply W6 in Ht. lia.
    + constructor; [simpl; lia|constructor].
  - lia.
Qed.

Lemma print_db l w : db (print l w) = db w.
Proof. reflexivity. Qed.

Lemma init_db_wf w : db_wf (db w) -> db_wf (db (init_db clock w)).
Proof.
  unfold init_db. cbv zeta. rewrite print_db.
  generalize initial_tables_config. intros cfg. revert w.
  induction cfg as [|c r IH]; intros w W; simpl; [exact W|].
  apply IH. now apply insert_or_ignore_wf.
Qed.

Lemma release_wf number w :
  db_wf (db w) ->
  db_wf (db (snd (update_table_status_to_free clock number w))).
Proof.
  intros [W1 W2 W3 W4 W5 W6 W7].
  pose proof (release_tables clock number w) as T.
  pose proof (release_users clock number w) as U.
  assert (S : users_seq (db (snd (update_table_status_to_free clock number w)))
              = users_seq (db w)
              /\ tables_seq (db (snd (update_table_status_to_free clock number w)))
                 = tables_seq (db w)).
  { unfold update_table_status_to_free. now destruct (0 <? _)%nat. }
  destruct S as [S1 S2].
  constructor; rewrite ?T, ?U, ?S1, ?S2; try assumption.
  - rewrite map_map_same; [exact W3|].
    intros t. now destruct (t_table_number t =? number)%string.
  - rewrite map_map_same; [exact W4|].
    intros t. now destruct (t_table_number t =? number)%string.
  - apply Forall_map. eapply List.Forall_impl; [|exact W6].
    intros t Ht. simpl. now destruct (t_table_number t =? number)%string.
Qed.

Lemma seat_wf cid tid number phone name w :
  db_wf (db w) ->
  db_wf (db (seat_customer clock cid tid number phone name w)).
Proof.
  intros [W1 W2 W3 W4 W5 W6 W7].
  constructor; rewrite ?seat_tables, ?seat_users; try assumption.
  - now apply nodup_map_filter.
  - now apply nodup_map_filter.
  - rewrite map_map_same; [exact W3|].
    intros t. now destruct (t_id t =? tid).
  - rewrite map_map_same; [exact W4|].
    intros t. now destruct (t_id t =? tid).
  - rewrite List.Forall_forall in *. intros u Hu.
    apply filter_In in Hu. now apply W5.
  - apply Forall_map. eapply List.Forall_impl; [|exact W6].
    intros t Ht. simpl. now destruct (t_id t =? tid).
Qed.

Lemma send_message_wf {w : world} {sender : string} (m : message) :
  db_wf (db w) -> db_wf (db (send_message sender m w)).
Proof. intros W. exact W. Qed.

Lemma attempt_wf fuel w w' :
  db_wf (db w) -> attempt_seating_allocation clock fuel w = Some w' ->
  db_wf (db w').
Proof.
  revert w. induction fuel as [|fuel IH]; intros w W; [discriminate|].
  rewrite attempt_unfold. destruct (next_allocation _ _) as [x|].
  - apply IH. unfold commit. now apply seat_wf.
  - intros H. injection H as <-. exact W.
Qed.

Lemma handle_message_wf fuel msg w w' :
  db_wf (db w) -> handle_message clock fuel msg w = Some w' -> db_wf (db w').
Proof.
  intros W. unfold handle_message. cbv zeta.
  set (w0 := match user_states w !! m_from msg with
             | Some _ => w
             | None => set_session (m_from msg) fresh_session w
             end).
  assert (W0 : db_wf (db w0))
    by (unfold w0; now destruct (user_states w !! m_from msg)).
  clearbody w0.
  destruct (m_type msg =? "text")%string;
    [|intros H; injection H as <-; exact W0].
  unfold handle_text.
  repeat match goal with
         | |- (if ?b then _ else _) = Some _ -> _ => destruct b
         end;
    try (intros H; injection H as <-; exact W0).
  - pose proof (release_wf (normalize_table_number
                              (strip (lower (m_text_body msg)))) w0 W0) as R.
    destruct (update_table_status_to_free clock _ w0) as [[|] w1]; simpl in *.
    + destruct (attempt_seating_allocation clock fuel _) as [w2|] eqn:A;
        [|discriminate].
      intros H. injection H as <-. simpl.
      apply (attempt_wf _ _ _ (send_message_wf _ R) A).
    + intros H. injection H as <-. exact R.
  - destruct (List.map strip _) as [|name [|cnt [|x l]]];
      try (intros H; injection H as <-; exact W0).
    destruct (int cnt) as [count|];
      [|intros H; injection H as <-; exact W0].
    destruct (count <=? 0); [intros H; injection H as <-; exact W0|].
    destruct (6 <? count); [intros H; injection H as <-; exact W0|].
    pose proof (save_wf clock (m_from msg) name count w0 W0) as S.
    destruct (save_user_data_to_db clock (m_from msg) name count w0)
      as [user_id w1]. simpl in S.
    destruct (negb (user_id =? 0)).
    + apply attempt_wf. exact S.
    + intros H. injection H as <-. exact S.
Qed.

(** Every world the handler reaches from a seeded store satisfies the
    schema constraints. *)
Lemma webhook_wf fuel msgs w w' :
  db_wf (db w) -> webhook clock fuel msgs w = Some w' -> db_wf (db w').
Proof.
  revert w. induction msgs as [|msg rest IH]; intros w W; simpl.
  - intros H. injection H as <-. exact W.
  - destruct (handle_message clock fuel msg w) as [w1|] eqn:H; [|discriminate].
    apply IH. now apply (handle_message_wf _ _ _ _ W H).
Qed.

Lemma attempt_occupancy fuel w w' :
  Forall occupant_iff_occupied (tables (db w)) ->
  attempt_seating_allocation clock fuel w = Some w' ->
  Forall occupant_iff_occupied (tables (db w')).
Proof.
  revert w. induction fuel as [|fuel IH]; intros w W; [discriminate|].
  rewrite attempt_unfold. destruct (next_allocation _ _) as [x|].
  - apply IH.
    apply (apply_op_invariant clock (print log_attempting w)
             (op_seat (u_id (a_customer x)) (f_id (a_table x))
                (f_table_number (a_table x)) (u_phone_number (a_customer x))
                (u_name (a_customer x))) W).
  - intros H. injection H as <-. exact W.
Qed.

(** The handler keeps the invariant of the tables, whatever the message. *)
Lemma handle_message_occupancy fuel msg w w' :
  Forall occupant_iff_occupied (tables (db w)) ->
  handle_message clock fuel msg w = Some w' ->
  Forall occupant_iff_occupied (tables (db w')).
Proof.
  intros W. unfold handle_message. cbv zeta.
  set (w0 := match user_states w !! m_from msg with
             | Some _ => w
             | None => set_session (m_from msg) fresh_session w
             end).
  assert (W0 : Forall occupant_iff_occupied (tables (db w0)))
    by (unfold w0; now destruct (user_states w !! m_from msg)).
  clearbody w0.
  destruct (m_type msg =? "text")%string;
    [|intros H; injection H as <-; exact W0].
  unfold handle_text.
  repeat match goal with
         | |- (if ?b then _ else _) = Some _ -> _ => destruct b
         end;
    try (intros H; injection H as <-; exact W0).
  - pose proof (apply_op_invariant clock w0
                  (op_release (normalize_table_number
                                 (strip (lower (m_text_body msg))))) W0) as R.
    simpl in R.
    destruct (update_table_status_to_free clock _ w0) as [[|] w1]; simpl in *.
    + destruct (attempt_seating_allocation clock fuel _) as [w2|] eqn:A;
        [|discriminate].
      intros H. injection H as <-. simpl.
      refine (attempt_occupancy _ _ _ _ A). exact R.
    + intros H. injection H as <-. exact R.
  - destruct (List.map strip _) as [|name [|cnt [|x l]]];
      try (intros H; injection H as <-; exact W0).
    destruct (int cnt) as [count|];
      [|intros H; injection H as <-; exact W0].
    destruct (count <=? 0); [intros H; injection H as <-; exact W0|].
    destruct (6 <? count); [intros H; injection H as <-; exact W0|].
    pose proof (apply_op_invariant clock w0
                  (op_enqueue (m_from msg) name count) W0) as S.
    simpl in S.
    destruct (save_user_data_to_db clock (m_from msg) name count w0)
      as [user_id w1]. simpl in S.
    destruct (negb (user_id =? 0)).
    + apply attempt_occupancy. exact S.
    + intros H. injection H as <-. exact S.
Qed.

Lemma seeded_wf : db_wf (db (init_db clock blank_world)).
Proof. apply init_db_wf, empty_db_wf. Qed.
End SchemaInvariant.

(** ** The claims on the sample worlds *)

Ltac in_list := repeat first [left; reflexivity | right].

Ltac nodup_list :=
  vm_compute; repeat (constructor; [simpl; intuition discriminate|]); constructor.
Ltac bounded_ids :=
  vm_compute; repeat (constructor; [split; [reflexivity|discriminate]|]); constructor.
Ltac sample_wf :=
  constructor;
  [nodup_list | nodup_list | nodup_list | nodup_list
  | bounded_ids | bounded_ids | vm_compute; split; discriminate].
(** The customer waits until the waiter releases T5, is seated there and
    told so; both sessions end at customer / initial. *)
Example evening_run :
  option_map
    (fun w => (users (db w), trace w, user_states w !! "15550109",
               user_states w !! "15550001",
               List.filter (fun t => (t_table_number t =? "T5")%string)
                           (tables (db w))))
    (webhook sample_clock 10 evening full_house) =
  Some ([],
        [Sent "15550109" msg_enter_name_and_people;
         Printed (log_saved_new_user 9 "15550109" "alice" 3);
         Sent "15550109" (msg_in_the_queue "alice" 3);
         Printed log_attempting; Printed log_no_further;
         Sent "15550001" msg_enter_password;
         Sent "15550001" msg_waiter_authenticated;
         Printed (log_marked_free "T5");
         Sent "15550001" (msg_table_marked_free "T5");
         Printed log_attempting;
         Sent "15550109" (msg_table_ready "alice" "T5");
         Printed (log_seated "alice" 9 "T5" 5);
         Printed log_attempting; Printed log_no_further],
        Some {| s_role := Customer; s_state := initial |},
        Some {| s_role := Customer; s_state := initial |},
        [ {| t_id := 5; t_table_number := "T5"; t_capacity := 4;
             t_status := occupied; t_occupied_by_user_id := Some 9;
             t_occupied_timestamp := Some (sample_clock 32);
             t_timestamp := sample_clock 32 |} ]).
Proof. vm_compute. reflexivity. Qed.

(** The sample worlds satisfy the schema constraints. *)
Lemma seeded_world_wf : db_wf (db seeded_world).
Proof. sample_wf. Qed.

Lemma two_parties_four_tables_wf : db_wf (db two_parties_four_tables).
Proof. sample_wf. Qed.

Lemma two_pairs_one_table_wf : db_wf (db two_pairs_one_table).
Proof. sample_wf. Qed.

Lemma customer_prompted_wf : db_wf (db customer_prompted).
Proof. sample_wf. Qed.

Lemma least_waste_first_witness :
  (exists w',
      attempt_seating_allocation sample_clock 3 two_parties_four_tables = Some w'
      /\ users (db w') = []
      /\ get_free_tables w' =
         [as_free_table (sample_table 2 "T2" 2 None);
          as_free_table (sample_table 5 "T5" 4 None)])
  /\ exists x,
       allocation_pass sample_clock two_parties_four_tables =
         (true, commit sample_clock x (print log_attempting two_parties_four_tables))
       /\ In (a_table x) (get_free_tables two_parties_four_tables)
       /\ f_capacity (a_table x) = u_people_count (a_customer x).
Proof.
  destruct (least_waste_first sample_clock) as (_ & H2 & H).
  split.
  - destruct (H two_parties_four_tables party_of_two party_of_five
                (as_free_table (sample_table 1 "T1" 2 None))
                (as_free_table (sample_table 2 "T2" 2 None))
                (as_free_table (sample_table 5 "T5" 4 None))
                (as_free_table (sample_table 9 "T9" 6 None)) 0%nat)
      as (w' & A & U & F & _).
    + exact two_parties_four_tables_wf.
    + reflexivity.
    + reflexivity.
    + reflexivity.
    + vm_compute. reflexivity.
    + reflexivity.
    + reflexivity.
    + reflexivity.
    + reflexivity.
    + exists w'. repeat split; assumption.
  - destruct (H2 two_parties_four_tables party_of_two
                (as_free_table (sample_table 1 "T1" 2 None)))
      as (x & _ & P & _ & T & F).
    + vm_compute. in_list.
    + vm_compute. in_list.
    + reflexivity.
    + exists x. repeat split; assumption.
Defined.

Lemma first_come_first_served_witness :
  exists w',
    attempt_seating_allocation sample_clock 2 two_pairs_one_table = Some w'
    /\ users (db w') = [late_pair].
Proof.
  destruct (first_come_first_served sample_clock) as (_ & _ & _ & H).
  destruct (H two_pairs_one_table early_pair late_pair
              (as_free_table (sample_table 2 "T2" 2 None)) 0%nat)
    as (w' & A & U & _).
  - reflexivity.
  - vm_compute. discriminate.
  - reflexivity.
  - vm_compute. reflexivity.
  - vm_compute. reflexivity.
  - exists w'. split; assumption.
Defined.

Lemma unknown_table_reported_witness :
  exists w',
    handle_message sample_clock 1 unknown_table_message waiter_prompted = Some w'
    /\ db w' = db waiter_prompted
    /\ user_states w' !! "15550001" =
       Some {| s_role := Customer; s_state := initial |}.
Proof.
  destruct (unknown_table_reported sample_clock 1 unknown_table_message
              waiter_prompted) as (w' & H & _ & D & _ & _ & L).
  - reflexivity.
  - reflexivity.
  - vm_compute. reflexivity.
  - vm_compute. intros H.
    repeat (destruct H as [H|H]; [discriminate|]). exact H.
  - exists w'. repeat split; assumption.
Defined.

Lemma enqueue_twice_one_entry_witness :
  List.filter (fun u => (u_phone_number u =? "15550107")%string)
    (users (db (snd (save_user_data_to_db sample_clock "15550107" "ann lee" 4
                       (snd (save_user_data_to_db sample_clock "15550107"
                               "ann" 2 seeded_world)))))) =
  [ {| u_id := 1; u_phone_number := "15550107"; u_name := "ann lee";
       u_people_count := 4; u_timestamp := sample_clock 11 |} ].
Proof.
  destruct (enqueue_twice_one_entry sample_clock "15550107" "ann" 2 "ann lee" 4
              seeded_world seeded_world_wf) as (_ & _ & E & _).
  exact E.
Defined.

Lemma release_table_idempotent_witness :
  fst (update_table_status_to_free sample_clock "T5" two_pairs_one_table) = true
  /\ fst (update_table_status_to_free sample_clock "T5"
            (snd (update_table_status_to_free sample_clock "T5"
                    two_pairs_one_table))) = true.
Proof.
  destruct (release_table_idempotent sample_clock "T5" two_pairs_one_table)
    as [H _].
  destruct H as (A & B & _).
  - vm_compute. in_list.
  - split; assumption.
Defined.

Lemma allocation_run_terminates_witness :
  (exists w',
      attempt_seating_allocation sample_clock 3 two_parties_four_tables = Some w')
  /\ exists x,
       In (a_customer x) (users (db two_parties_four_tables))
       /\ attempt_seating_allocation sample_clock 3 two_parties_four_tables =
          attempt_seating_allocation sample_clock 2
            (commit sample_clock x (print log_attempting two_parties_four_tables)).
Proof.
  destruct (allocation_run_terminates sample_clock) as (_ & H2 & H3).
  split.
  - apply H3. vm_compute. lia.
  - destruct (H2 two_parties_four_tables 2%nat)
      as [[P _]|(x & _ & R & I & _)].
    + vm_compute in P. discriminate P.
    + exists x. split; [exact I|exact R].
Defined.

Lemma name_and_people_validated_witness :
  exists w',
    handle_message sample_clock 5 name_and_people_message customer_prompted
      = Some w'
    /\ exists e, In e (new_events customer_prompted w') /\ is_enqueue e = true.
Proof.
  destruct (name_and_people_validated sample_clock 5 name_and_people_message
              customer_prompted) as (w' & H & [_ I] & _).
  - reflexivity.
  - reflexivity.
  - vm_compute. reflexivity.
  - exact customer_prompted_wf.
  - vm_compute. lia.
  - exists w'. split; [exact H|]. apply I.
    exists "ann lee", 3. split; [vm_compute; reflexivity|lia].
Defined.

Lemma table_number_normalized_witness :
  normalize_table_number "table 4" = "T4".
Proof.
  destruct table_number_normalized as (H & _).
  destruct (H "table 4" eq_refl) as (_ & _ & D & _).
  apply D. vm_compute. reflexivity.
Defined.

Lemma occupant_set_iff_occupied_witness :
  In t5_seated (tables (db seated_at_t5))
  /\ (is_Some (t_occupied_by_user_id t5_seated)
      <-> t_status t5_seated = occupied).
Proof.
  assert (I : In t5_seated (tables (db seated_at_t5)))
    by (vm_compute; in_list).
  split; [exact I|].
  destruct (occupant_set_iff_occupied sample_clock) as (H & _).
  exact (H [op_enqueue "15550107" "ann" 3;
            op_seat 1 5 "T5" "15550107" "ann"] t5_seated I).
Defined.

Lemma text_lowered_and_stripped_witness :
  exists w',
    handle_message sample_clock 1 padded_hi_message seeded_world = Some w'
    /\ user_states w' =
       <["15550107" := {| s_role := Customer; s_state := awaiting_name_people |}]>
         (user_states seeded_world).
Proof.
  destruct (text_lowered_and_stripped sample_clock) as (_ & H & _).
  destruct (H 1%nat padded_hi_message seeded_world "  " "Hi" " ")
    as (w' & A & _ & U & _).
  - reflexivity.
  - reflexivity.
  - vm_compute. reflexivity.
  - reflexivity.
  - reflexivity.
  - reflexivity.
  - reflexivity.
  - exists w'. split; assumption.
Defined.

(** ** Seeding *)

Section Seeding.
Variable clock : nat -> Z.

Lemma insert_or_ignore_present number capacity w :
  In number (List.map t_table_number (tables (db w))) ->
  tables (db (insert_or_ignore_table clock number capacity w)) = tables (db w).
Proof.
  intros I. unfold insert_or_ignore_table.
  destruct (existsb _ _) eqn:E; [reflexivity|].
  apply in_map_iff in I. destruct I as (t & Et & It).
  assert (X : existsb (fun t => (t_table_number t =? number)%string)
                      (tables (db w)) = true).
  { apply existsb_exists. exists t. split; [exact It|]. now apply String.eqb_eq. }
  congruence.
Qed.

Lemma insert_or_ignore_extends number capacity w :
  users (db (insert_or_ignore_table clock number capacity w)) = users (db w)
  /\ user_states (insert_or_ignore_table clock number capacity w) = user_states w
  /\ trace (insert_or_ignore_table clock number capacity w) = trace w
  /\ tables_seq (db (insert_or_ignore_table clock number capacity w)) =
     tables_seq (db w) + 1
  /\ users_seq (db (insert_or_ignore_table clock number capacity w)) =
     users_seq (db w)
  /\ In number (List.map t_table_number
                  (tables (db (insert_or_ignore_table clock number capacity w))))
  /\ exists added,
       tables (db (insert_or_ignore_table clock number capacity w)) =
         (tables (db w) ++ added)%list
       /\ Forall free_and_empty added.
Proof.
  unfold insert_or_ignore_table.
  destruct (existsb _ _) eqn:E; simpl.
  - repeat split.
    + apply existsb_exists in E. destruct E as (t & It & Et).
      apply in_map_iff. exists t. split; [|exact It]. now apply String.eqb_eq.
    + exists []. split; [now rewrite app_nil_r|constructor].
  - repeat split.
    + rewrite List.map_app. apply in_or_app. right. now left.
    + eexists. split; [reflexivity|]. repeat constructor.
Qed.

Lemma seed_fold_extends cfg w :
  let w' := fold_left (fun w c => insert_or_ignore_table clock (fst c) (snd c) w)
                      cfg w in
  users (db w') = users (db w)
  /\ user_states w' = user_states w
  /\ trace w' = trace w
  /\ tables_seq (db w') = tables_seq (db w) + Z.of_nat (length cfg)
  /\ users_seq (db w') = users_seq (db w)
  /\ (forall c, In c cfg -> In (fst c) (List.map t_table_number (tables (db w'))))
  /\ exists added,
       tables (db w') = (tables (db w) ++ added)%list
       /\ Forall free_and_empty added.
Proof.
  revert w. induction cfg as [|c r IH]; intros w.
  - simpl. repeat split; [lia|intros c []|].
    exists []. split; [now rewrite app_nil_r|constructor].
  - destruct (insert_or_ignore_extends (fst c) (snd c) w)
      as (U & S & T & Q & Qu & I & a1 & E1 & F1).
    destruct (IH (insert_or_ignore_table clock (fst c) (snd c) w))
      as (U' & S' & T' & Q' & Qu' & I' & a2 & E2 & F2).
    cbn [fold_left]. cbv zeta in *. rewrite U', S', T', Q', Qu', U, S, T, Q, Qu.
    repeat split.
    + cbn [length]. lia.
    + intros c' [<-|Hc]; [|now apply I'].
      rewrite E2, List.map_app. apply in_or_app. now left.
    + exists (a1 ++ a2)%list. split.
      * now rewrite E2, E1, app_assoc.
      * apply Forall_app. now split.
Qed.

Lemma seed_fold_present cfg w :
  (forall c, In c cfg -> In (fst c) (List.map t_table_number (tables (db w)))) ->
  tables (db (fold_left (fun w c => insert_or_ignore_table clock (fst c) (snd c) w)
                        cfg w)) = tables (db w).
Proof.
  revert w. induction cfg as [|c r IH]; intros w H; [reflexivity|].
  cbn [fold_left]. rewrite IH.
  - apply insert_or_ignore_present. apply H. now left.
  - intros c' Hc. rewrite insert_or_ignore_present by (apply H; now left).
    apply H. now right.
Qed.

Lemma init_db_seed w :
  let w' := fold_left (fun w c => insert_or_ignore_table clock (fst c) (snd c) w)
                      initial_tables_config w in
  db (init_db clock w) = db w'
  /\ user_states (init_db clock w) = user_states w'
  /\ trace (init_db clock w) = (trace w' ++ [Printed log_db_initialized])%list.
Proof.
  unfold init_db. cbv zeta.
  generalize (fold_left (fun w c => insert_or_ignore_table clock (fst c) (snd c) w)
                        initial_tables_config w).
  intros w0. repeat split.
Qed.

Lemma init_db_keeps_users w : users (db (init_db clock w)) = users (db w).
Proof.
  destruct (init_db_seed w) as (D & _). cbv zeta in D. rewrite D.
  pose proof (seed_fold_extends initial_tables_config w) as H.
  cbv zeta in H. now destruct H as (U & _).
Qed.

(** X1. Seeding twice leaves the rows of seeding once, whatever the store:
    the second [init_db] writes no row. Seeding keeps the waitlist, the
    sessions and every table row that is there, occupied ones included; the
    rows it adds are free and without occupant, and every table of the
    configuration is there afterwards. Each of the ten inserts uses up an
    AUTOINCREMENT value, ignored or not, and the run prints one line. *)
Theorem init_db_idempotent w :
  tables (db (init_db clock (init_db clock w))) = tables (db (init_db clock w))
  /\ users (db (init_db clock w)) = users (db w)
  /\ user_states (init_db clock w) = user_states w
  /\ (exists added,
        tables (db (init_db clock w)) = (tables (db w) ++ added)%list
        /\ Forall (fun t => t_status t = free /\ t_occupied_by_user_id t = None)
                  added)
  /\ (forall number capacity,
        In (number, capacity) initial_tables_config ->
        exists t, In t (tables (db (init_db clock w)))
                  /\ t_table_number t = number)
  /\ tables_seq (db (init_db clock w)) = tables_seq (db w) + 10
  /\ users_seq (db (init_db clock w)) = users_seq (db w)
  /\ trace (init_db clock w) = (trace w ++ [Printed log_db_initialized])%list.
Proof.
  assert (P : forall w0 number capacity,
             In (number, capacity) initial_tables_config ->
             In number (List.map t_table_number (tables (db (init_db clock w0))))).
  { intros w0 number capacity H.
    destruct (init_db_seed w0) as (D & _). cbv zeta in D. rewrite D.
    pose proof (seed_fold_extends initial_tables_config w0) as X.
    cbv zeta in X. destruct X as (_ & _ & _ & _ & _ & I & _).
    apply (I (number, capacity) H). }
  destruct (init_db_seed w) as (D & S & T). cbv zeta in D, S, T.
  pose proof (seed_fold_extends initial_tables_config w) as H.
  cbv zeta in H. destruct H as (U & Ss & Tr & Q & Qu & _ & A).
  split; [|split; [|split; [|split; [|split; [|split; [|split]]]]]].
  - destruct (init_db_seed (init_db clock w)) as (D2 & _). cbv zeta in D2.
    rewrite D2. apply seed_fold_present.
    intros [number capacity] Hc. now apply (P w number capacity).
  - now rewrite D.
  - now rewrite S.
  - now rewrite D.
  - intros number capacity Hc. specialize (P w number capacity Hc).
    apply in_map_iff in P. destruct P as (t & E & It).
    exists t. split; [exact It|exact E].
  - rewrite D, Q. reflexivity.
  - now rewrite D.
  - now rewrite T, Tr.
Qed.
End Seeding.

(** ** The two listings and the seating of one customer *)

Section Listings.
Variable clock : nat -> Z.

(** X2. [get_waiting_customers] lists every row of the waitlist once, the
    oldest timestamp first. *)
Theorem waiting_customers_oldest_first w :
  Permutation (get_waiting_customers w) (users (db w))
  /\ StronglySorted (fun a b => u_timestamp a <= u_timestamp b)
                    (get_waiting_customers w)
  /\ length (get_waiting_customers w) = length (users (db w)).
Proof.
  unfold get_waiting_customers.
  split; [apply sort_by_perm|]. split; [|apply sort_by_length].
  pose proof (sort_by_sorted (fun a b => u_timestamp a <=? u_timestamp b)
                (timestamp_le_total) (timestamp_le_trans) (users (db w))) as S.
  induction S as [|a l S IH F]; constructor; [exact IH|].
  eapply List.Forall_impl; [|exact F]. intros b Hb. simpl in Hb. lia.
Qed.

Lemma free_table_row t w :
  In t (get_free_tables w) <->
  exists r, In r (tables (db w)) /\ t_status r = free /\ t = as_free_table r.
Proof.
  unfold get_free_tables. rewrite in_map_iff. split.
  - intros (r & E & I). apply sort_by_In, filter_In in I. destruct I as [I S].
    exists r. split; [exact I|]. split; [|now rewrite <- E].
    now destruct (t_status r).
  - intros (r & I & S & ->). exists r. split; [reflexivity|].
    apply sort_by_In, filter_In. split; [exact I|]. now rewrite S.
Qed.

(** X3. [get_free_tables] lists exactly the rows whose status is free, as
    many dicts as there are such rows, the smallest capacity first; an
    occupied table is never listed. *)
Theorem free_tables_smallest_first w :
  (forall t, In t (get_free_tables w) <->
             exists r, In r (tables (db w)) /\ t_status r = free
                       /\ t = as_free_table r)
  /\ StronglySorted (fun a b => f_capacity a <= f_capacity b) (get_free_tables w)
  /\ length (get_free_tables w) =
     length (List.filter (fun r => status_eqb (t_status r) free) (tables (db w)))
  /\ (forall r, In r (tables (db w)) -> t_status r = occupied ->
                List.NoDup (List.map t_id (tables (db w))) ->
                ~ In (t_id r) (List.map f_id (get_free_tables w))).
Proof.
  split; [intros t; apply free_table_row|]. split; [|split].
  - unfold get_free_tables.
    pose proof (sort_by_sorted (fun a b => t_capacity a <=? t_capacity b)
                  capacity_le_total capacity_le_trans
                  (List.filter (fun t => status_eqb (t_status t) free)
                               (tables (db w)))) as S.
    induction S as [|a l S IH F]; simpl; constructor; [exact IH|].
    apply Forall_map. eapply List.Forall_impl; [|exact F].
    intros b Hb. simpl in *. lia.
  - unfold get_free_tables. now rewrite length_map, sort_by_length.
  - intros r I O N J. apply in_map_iff in J. destruct J as (t & E & J).
    apply free_table_row in J. destruct J as (r0 & I0 & S0 & ->). simpl in E.
    assert (r0 = r); [|subst; congruence].
    clear - N I I0 E. induction (tables (db w)) as [|x l IH]; [destruct I|].
    simpl in N. apply NoDup_cons_iff in N. destruct N as [N1 N2].
    destruct I as [->|I], I0 as [->|I0]; try reflexivity.
    + exfalso. apply N1. rewrite <- E. now apply in_map.
    + exfalso. apply N1. rewrite E. now apply in_map.
    + now apply IH.
Qed.

(** X4. [seat_customer] deletes the waitlist rows of the customer id and no
    other, keeps the sessions, writes on no table of another id and sends
    one notification to the phone it is given. It does not check the
    table id: with an id no table has, no table changes, and the customer is
    removed from the waitlist and notified all the same. *)
Theorem seat_customer_effect cid tid number phone name w :
  let w' := seat_customer clock cid tid number phone name w in
  (forall u, In u (users (db w')) <-> In u (users (db w)) /\ u_id u <> cid)
  /\ user_states w' = user_states w
  /\ List.map table_identity (tables (db w')) =
     List.map table_identity (tables (db w))
  /\ (forall r, t_id r <> tid ->
        (In r (tables (db w')) <-> In r (tables (db w))))
  /\ trace w' =
     (trace w ++ [Sent phone (msg_table_ready name number);
                  Printed (log_seated name cid number tid)])%list
  /\ (~ In tid (List.map t_id (tables (db w))) ->
      tables (db w') = tables (db w)).
Proof.
  intros w'. subst w'. split; [|split; [reflexivity|split; [|split; [|split]]]].
  - intros u. rewrite seat_users, filter_In.
    destruct (Z.eqb_spec (u_id u) cid); simpl; intuition congruence.
  - rewrite seat_tables, List.map_map. apply List.map_ext.
    intros t. now destruct (t_id t =? tid).
  - intros r N. rewrite seat_tables, in_map_iff. split.
    + intros (r0 & E & I). destruct (Z.eqb_spec (t_id r0) tid) as [Q|Q].
      * subst r. simpl in N. contradiction.
      * now subst.
    + intros I. exists r. split; [|exact I].
      destruct (Z.eqb_spec (t_id r) tid); [contradiction|reflexivity].
  - simpl. now rewrite <- app_assoc.
  - intros N. rewrite seat_tables.
    induction (tables (db w)) as [|t l IH]; simpl in *; [reflexivity|].
    destruct (Z.eqb_spec (t_id t) tid); [tauto|]. f_equal. apply IH. tauto.
Qed.
End Listings.

(** ** What a pass and a run of the allocation do to the store *)

Section Passes.
Variable clock : nat -> Z.

Lemma same_id_same_row (l : list table_row) a b :
  List.NoDup (List.map t_id l) -> In a l -> In b l -> t_id a = t_id b -> a = b.
Proof.
  induction l as [|x l IH]; [intros _ []|].
  simpl. intros N Ia Ib E. apply NoDup_cons_iff in N. destruct N as [N1 N2].
  destruct Ia as [->|Ia], Ib as [->|Ib]; try reflexivity.
  - exfalso. apply N1. rewrite E. now apply in_map.
  - exfalso. apply N1. rewrite <- E. now apply in_map.
  - now apply IH.
Qed.

(** The allocation a pass commits: a waiting customer and the row of a
    free table that is large enough, none smaller being so. *)
Lemma next_allocation_row w x :
  next_allocation (get_waiting_customers w) (get_free_tables w) = Some x ->
  In (a_customer x) (users (db w))
  /\ a_customer_timestamp x = u_timestamp (a_customer x)
  /\ exists r,
       In r (tables (db w)) /\ t_status r = free /\ a_table x = as_free_table r
       /\ u_people_count (a_customer x) <= t_capacity r
       /\ a_wasted_seats x = t_capacity r - u_people_count (a_customer x)
       /\ forall r0, In r0 (tables (db w)) -> t_status r0 = free ->
            u_people_count (a_customer x) <= t_capacity r0 ->
            t_capacity r <= t_capacity r0.
Proof.
  intros N. pose proof (next_allocation_customer x w N) as U.
  apply next_allocation_least in N. destruct N as [I _].
  apply pool_member in I. destruct I as (_ & T & E & W & M).
  split; [exact U|]. split; [now rewrite E|].
  apply free_table_row in T. destruct T as (r & Ir & Sr & Er).
  exists r. split; [exact Ir|]. split; [exact Sr|]. split; [exact Er|].
  assert (C : f_capacity (a_table x) = t_capacity r) by now rewrite Er.
  assert (Wx : a_wasted_seats x =
               f_capacity (a_table x) - u_people_count (a_customer x))
    by (rewrite E at 1; reflexivity).
  split; [lia|]. split; [lia|].
  intros r0 I0 S0 F0.
  assert (T0 : In (as_free_table r0) (get_free_tables w))
    by (apply free_table_row; eauto).
  specialize (M _ T0 F0). simpl in M. lia.
Qed.

Lemma idle_iff_settled w :
  next_allocation (get_waiting_customers w) (get_free_tables w) = None <->
  settled w.
Proof.
  rewrite next_allocation_none. split.
  - intros P u t U T.
    pose proof (best_match_spec u (get_free_tables w)) as S.
    destruct (best_match_for_customer u (get_free_tables w)) as [b|] eqn:B.
    + assert (I : In b (potential_allocations (get_waiting_customers w)
                                               (get_free_tables w))).
      { apply potential_In. exists u. split; [|exact B].
        unfold get_waiting_customers. now apply sort_by_In. }
      rewrite P in I. destruct I.
    + now apply S.
  - intros S.
    destruct (potential_allocations _ _) as [|x l] eqn:P; [reflexivity|].
    assert (I : In x (potential_allocations (get_waiting_customers w)
                                             (get_free_tables w)))
      by (rewrite P; now left).
    apply pool_member in I. destruct I as (U & T & E & W & _).
    unfold get_waiting_customers in U. apply sort_by_In in U.
    specialize (S _ _ U T). rewrite E in W. simpl in W. lia.
Qed.

(** X5. A pass commits something exactly when somebody on the waitlist
    fits a free table. What it commits is a customer of the waitlist and a
    table row that is free and large enough for the party, the smallest
    such capacity among the free tables. *)
Theorem pass_commits_smallest_fit w :
  (fst (allocation_pass clock w) = false <-> settled w)
  /\ (forall w',
        allocation_pass clock w = (true, w') ->
        exists x r,
          w' = commit clock x (print log_attempting w)
          /\ In (a_customer x) (users (db w))
          /\ In r (tables (db w)) /\ t_status r = free
          /\ a_table x = as_free_table r
          /\ u_people_count (a_customer x) <= t_capacity r
          /\ a_wasted_seats x = t_capacity r - u_people_count (a_customer x)
          /\ forall r0, In r0 (tables (db w)) -> t_status r0 = free ->
               u_people_count (a_customer x) <= t_capacity r0 ->
               t_capacity r <= t_capacity r0).
Proof.
  rewrite allocation_pass_next. split.
  - rewrite <- idle_iff_settled.
    destruct (next_allocation _ _); simpl; split; congruence.
  - intros w'. destruct (next_allocation _ _) as [x|] eqn:N; [|discriminate].
    intros H. injection H as <-.
    destruct (next_allocation_row w x N) as (U & _ & r & Ir & Sr & Er & F & W & M).
    exists x, r. repeat split; assumption.
Qed.

Lemma next_allocation_least_pair w x u t :
  next_allocation (get_waiting_customers w) (get_free_tables w) = Some x ->
  In u (users (db w)) -> In t (get_free_tables w) ->
  u_people_count u <= f_capacity t ->
  a_wasted_seats x < f_capacity t - u_people_count u
  \/ (a_wasted_seats x = f_capacity t - u_people_count u
      /\ u_timestamp (a_customer x) <= u_timestamp u).
Proof.
  intros N U T F.
  destruct (next_allocation_row w x N) as (_ & Tx & _).
  pose proof (best_match_spec u (get_free_tables w)) as S.
  destruct (best_match_for_customer u (get_free_tables w)) as [b|] eqn:B.
  - destruct S as (Eb & _ & _ & M).
    assert (I : In b (potential_allocations (get_waiting_customers w)
                                             (get_free_tables w))).
    { apply potential_In. exists u. split; [|exact B].
      unfold get_waiting_customers. now apply sort_by_In. }
    apply next_allocation_least in N. destruct N as [_ K].
    apply K, key_le_spec in I. specialize (M t T F).
    assert (Tb : a_customer_timestamp b = u_timestamp u)
      by (rewrite Eb; reflexivity).
    lia.
  - specialize (S t T). lia.
Qed.

Lemma next_allocation_earliest w x u :
  next_allocation (get_waiting_customers w) (get_free_tables w) = Some x ->
  In u (users (db w)) ->
  u_people_count u = u_people_count (a_customer x) ->
  u_timestamp (a_customer x) <= u_timestamp u.
Proof.
  intros N U E.
  destruct (next_allocation_row w x N) as (_ & _ & r & Ir & Sr & Er & F & W & _).
  assert (T : In (a_table x) (get_free_tables w))
    by (apply free_table_row; eauto).
  assert (C : f_capacity (a_table x) = t_capacity r) by now rewrite Er.
  destruct (next_allocation_least_pair w x u (a_table x) N U T) as [H|H]; lia.
Qed.

(** X6. The allocation a pass commits is the least of all the pairs of a
    waiting customer and a free table that seats the party, in the order of
    wasted seats first and timestamps second. So among waiting parties of
    the same size the one with the earliest timestamp is seated first. *)
Theorem pass_commits_least_pair w x :
  next_allocation (get_waiting_customers w) (get_free_tables w) = Some x ->
  allocation_pass clock w = (true, commit clock x (print log_attempting w))
  /\ (forall u t,
        In u (users (db w)) -> In t (get_free_tables w) ->
        u_people_count u <= f_capacity t ->
        a_wasted_seats x < f_capacity t - u_people_count u
        \/ (a_wasted_seats x = f_capacity t - u_people_count u
            /\ u_timestamp (a_customer x) <= u_timestamp u))
  /\ (forall u,
        In u (users (db w)) ->
        u_people_count u = u_people_count (a_customer x) ->
        u_timestamp (a_customer x) <= u_timestamp u).
Proof.
  intros N. split; [now rewrite allocation_pass_next, N|]. split.
  - intros u t. now apply next_allocation_least_pair.
  - intros u. now apply next_allocation_earliest.
Qed.
End Passes.

Section Runs.
Variable clock : nat -> Z.

Lemma commit_users x w u :
  In u (users (db (commit clock x w))) <->
  In u (users (db w)) /\ u_id u <> u_id (a_customer x).
Proof.
  unfold commit. rewrite seat_users, filter_In.
  destruct (Z.eqb_spec (u_id u) (u_id (a_customer x))); simpl;
    intuition congruence.
Qed.

Lemma commit_identity x w :
  List.map table_identity (tables (db (commit clock x w))) =
  List.map table_identity (tables (db w)).
Proof.
  unfold commit. rewrite seat_tables, List.map_map. apply List.map_ext.
  intros t. now destruct (t_id t =? f_id (a_table x)).
Qed.

(** The rows after the commit of the allocation a pass has chosen. *)
Lemma commit_rows x w r' :
  List.NoDup (List.map t_id (tables (db w))) ->
  next_allocation (get_waiting_customers w) (get_free_tables w) = Some x ->
  In r' (tables (db (commit clock x (print log_attempting w)))) ->
  In r' (tables (db w))
  \/ exists r,
       In r (tables (db w)) /\ t_status r = free
       /\ u_people_count (a_customer x) <= t_capacity r
       /\ r' = seated_row (clock (ticks w)) (u_id (a_customer x)) r.
Proof.
  intros D N I.
  destruct (next_allocation_row w x N) as (_ & _ & r & Ir & Sr & Er & F & _).
  unfold commit in I. rewrite seat_tables, in_map_iff in I.
  destruct I as (r0 & E & I0).
  change (tables (db (print log_attempting w))) with (tables (db w)) in I0.
  change (ticks (print log_attempting w)) with (ticks w) in E.
  destruct (Z.eqb_spec (t_id r0) (f_id (a_table x))) as [Q|Q].
  - right. exists r. repeat split; try assumption.
    rewrite Er in Q. simpl in Q.
    now rewrite <- E, (same_id_same_row _ _ _ D I0 Ir Q).
  - left. now subst.
Qed.

Lemma commit_keeps_occupied x w r :
  List.NoDup (List.map t_id (tables (db w))) ->
  next_allocation (get_waiting_customers w) (get_free_tables w) = Some x ->
  In r (tables (db w)) -> t_status r = occupied ->
  In r (tables (db (commit clock x (print log_attempting w)))).
Proof.
  intros D N I O.
  destruct (next_allocation_row w x N) as (_ & _ & r0 & I0 & S0 & E0 & _).
  unfold commit. rewrite seat_tables, in_map_iff. exists r. split; [|exact I].
  destruct (Z.eqb_spec (t_id r) (f_id (a_table x))) as [Q|Q]; [|reflexivity].
  rewrite E0 in Q. simpl in Q.
  rewrite (same_id_same_row _ _ _ D I I0 Q) in O. congruence.
Qed.

Lemma run_users_subset fuel w w' :
  attempt_seating_allocation clock fuel w = Some w' ->
  forall u, In u (users (db w')) -> In u (users (db w)).
Proof.
  revert w. induction fuel as [|fuel IH]; intros w; [discriminate|].
  rewrite attempt_unfold. destruct (next_allocation _ _) as [x|].
  - intros H u U. apply (IH _ H), commit_users in U. tauto.
  - intros H. injection H as <-. auto.
Qed.

Lemma run_rows fuel w w' :
  db_wf (db w) ->
  attempt_seating_allocation clock fuel w = Some w' ->
  (forall r', In r' (tables (db w')) ->
      In r' (tables (db w))
      \/ exists r u now,
           In r (tables (db w)) /\ t_status r = free
           /\ In u (users (db w)) /\ ~ In u (users (db w'))
           /\ u_people_count u <= t_capacity r
           /\ r' = seated_row now (u_id u) r)
  /\ (forall r, In r (tables (db w)) -> t_status r = occupied ->
                In r (tables (db w')))
  /\ List.map table_identity (tables (db w')) =
     List.map table_identity (tables (db w))
  /\ (forall u, In u (users (db w')) -> In u (users (db w))).
Proof.
  revert w. induction fuel as [|fuel IH]; intros w W; [discriminate|].
  rewrite attempt_unfold.
  destruct (next_allocation _ _) as [x|] eqn:N.
  - intros H. set (w1 := commit clock x (print log_attempting w)) in *.
    assert (W1 : db_wf (db w1)) by (unfold w1, commit; apply seat_wf; exact W).
    destruct (IH w1 W1 H) as (R & O & T & U).
    pose proof (wf_table_ids _ W) as D.
    destruct (next_allocation_row w x N) as (Ux & _).
    split; [|split; [|split]].
    + intros r' I. destruct (R r' I) as [I1|(r1 & u & now & I1 & S1 & U1 & G1 & F1 & E1)].
      * destruct (commit_rows x w r' D N I1) as [I0|(r & I0 & S0 & F0 & E0)];
          [now left|].
        right. exists r, (a_customer x), (clock (ticks w)).
        repeat split; try assumption.
        intros J. apply U in J. unfold w1 in J. apply commit_users in J. tauto.
      * right. exists r1, u, now.
        destruct (commit_rows x w r1 D N I1) as [I0|(r & _ & _ & _ & E0)].
        -- unfold w1 in U1. apply commit_users in U1.
           repeat split; try assumption. tauto.
        -- rewrite E0 in S1. discriminate.
    + intros r I Oc. apply O; [|exact Oc].
      now apply commit_keeps_occupied.
    + rewrite T. apply (commit_identity x (print log_attempting w)).
    + intros u J. apply U in J. unfold w1 in J. apply commit_users in J. tauto.
  - intros H. injection H as <-. simpl. repeat split; auto.
Qed.

Lemma run_settled fuel w w' :
  attempt_seating_allocation clock fuel w = Some w' -> settled w'.
Proof.
  revert w. induction fuel as [|fuel IH]; intros w; [discriminate|].
  rewrite attempt_unfold.
  destruct (next_allocation _ _) as [x|] eqn:N; [apply IH|].
  intros H. injection H as <-. now apply idle_iff_settled.
Qed.

(** X9. A run sends one table-ready notification for every entry it takes
    off the waitlist, and nothing else to anybody: the waitlist gets
    shorter by the number of notifications, each of which goes to the
    phone of a party that was waiting and is seated now. *)
Theorem run_notifies_each_seated_party fuel w w' :
  db_wf (db w) ->
  attempt_seating_allocation clock fuel w = Some w' ->
  exists evs,
    trace w' = (trace w ++ evs)%list
    /\ length (users (db w)) =
       (length (users (db w')) + length (List.filter is_table_ready evs))%nat
    /\ forall to m, In (Sent to m) evs ->
         exists u number,
           In u (users (db w)) /\ ~ In u (users (db w'))
           /\ to = u_phone_number u
           /\ m = msg_table_ready (u_name u) number.
Proof.
  revert w. induction fuel as [|fuel IH]; intros w W; [discriminate|].
  rewrite attempt_unfold.
  destruct (next_allocation _ _) as [x|] eqn:N.
  - intros H. set (w1 := commit clock x (print log_attempting w)) in *.
    assert (W1 : db_wf (db w1)) by (unfold w1, commit; apply seat_wf; exact W).
    destruct (IH w1 W1 H) as (evs & T & L & Sn).
    pose proof (next_allocation_customer x w N) as Ux.
    exists ([Printed log_attempting;
             Sent (u_phone_number (a_customer x))
                  (msg_table_ready (u_name (a_customer x))
                                   (f_table_number (a_table x)));
             Printed (log_seated (u_name (a_customer x)) (u_id (a_customer x))
                        (f_table_number (a_table x)) (f_id (a_table x)))]
            ++ evs)%list.
    split; [|split].
    + rewrite T. simpl. now rewrite <- !app_assoc.
    + assert (K : S (length (users (db w1))) = length (users (db w))).
      { unfold w1, commit. rewrite seat_users.
        apply (filter_id_one_less (u_id (a_customer x)) (users (db w)));
          [apply (wf_user_ids _ W)|now apply in_map]. }
      simpl. lia.
    + intros to m I. apply in_app_or in I. destruct I as [I|I].
      * destruct I as [I|[I|[I|[]]]]; try discriminate.
        injection I as <- <-. exists (a_customer x), (f_table_number (a_table x)).
        repeat split; [exact Ux|].
        intros J. apply (run_users_subset _ _ _ H) in J.
        unfold w1 in J. apply commit_users in J. tauto.
      * destruct (Sn to m I) as (u & number & U1 & G & E1 & E2).
        exists u, number. unfold w1 in U1. apply commit_users in U1.
        repeat split; tauto.
  - intros H. injection H as <-.
    exists [Printed log_attempting; Printed log_no_further].
    split; [simpl; now rewrite <- app_assoc|]. split; [simpl; lia|].
    intros to m [I|[I|[]]]; discriminate.
Qed.
(** X7. A run of the allocation never seats a party at a table that was
    occupied or that is too small, and frees no table. Every row it
    leaves is a row it found, or the row of a table it found free, now
    occupied by a party that was waiting, fits the table and is no longer
    on the waitlist; the rows it found occupied are untouched; ids, numbers
    and capacities are the same; nobody joins the waitlist. *)
Theorem run_seats_only_on_free_tables fuel w w' :
  db_wf (db w) ->
  attempt_seating_allocation clock fuel w = Some w' ->
  (forall r', In r' (tables (db w')) ->
      In r' (tables (db w))
      \/ exists r u now,
           In r (tables (db w)) /\ t_status r = free
           /\ In u (users (db w)) /\ ~ In u (users (db w'))
           /\ u_people_count u <= t_capacity r
           /\ r' = seated_row now (u_id u) r)
  /\ (forall r, In r (tables (db w)) -> t_status r = occupied ->
                In r (tables (db w')))
  /\ List.map table_identity (tables (db w')) =
     List.map table_identity (tables (db w))
  /\ (forall u, In u (users (db w')) -> In u (users (db w))).
Proof. apply run_rows. Qed.

(** X8. When a run of the allocation returns, nobody left on the waitlist
    fits a table that is free. *)
Theorem run_ends_settled fuel w w' :
  attempt_seating_allocation clock fuel w = Some w' -> settled w'.
Proof. apply run_settled. Qed.
End Runs.

(** ** What a message does to the sessions *)

Section Sessions.
Variable clock : nat -> Z.

(** The session writes of the chain of [if]/[elif]. *)
Lemma handle_text_session fuel sender s text w w' :
  handle_text clock fuel sender s text w = Some w' ->
  user_states w' = user_states w
  \/ exists s',
       user_states w' = <[sender := s']> (user_states w)
       /\ (s' = fresh_session
           \/ (s' = {| s_role := Waiter; s_state := awaiting_waiter_password |}
               /\ s_state s = initial /\ text = "waiter")
           \/ (s' = {| s_role := Waiter; s_state := awaiting_free_table_number |}
               /\ s = {| s_role := Waiter; s_state := awaiting_waiter_password |}
               /\ text = "waiter123")
           \/ (s' = {| s_role := Customer; s_state := awaiting_name_people |}
               /\ s_state s = initial /\ text = "hi")).
Proof.
  unfold handle_text.
  destruct s as [[] []]; simpl;
    try (intros H; injection H as <-; now left).
  - (* customer, initial *)
    destruct (String.eqb_spec text "waiter") as [->|_].
    { intros H; injection H as <-. right. eexists. split; [reflexivity|]. tauto. }
    destruct (String.eqb_spec text "hi") as [->|_].
    { intros H; injection H as <-. right. eexists. split; [reflexivity|]. tauto. }
    intros H; injection H as <-; now left.
  - (* customer, awaiting_name_people *)
    destruct (List.map strip _) as [|name [|cnt [|y l]]];
      try (intros H; injection H as <-; now left).
    destruct (int cnt) as [count|]; [|intros H; injection H as <-; now left].
    destruct (count <=? 0); [intros H; injection H as <-; now left|].
    destruct (6 <? count); [intros H; injection H as <-; now left|].
    destruct (save_frame clock sender name count w) as (Us & _).
    destruct (save_user_data_to_db clock sender name count w) as [user_id w1].
    simpl in Us.
    destruct (negb (user_id =? 0)).
    + intros H. apply attempt_frame in H. destruct H as [U _]. simpl in U.
      right. exists fresh_session. rewrite U, Us. split; [reflexivity|tauto].
    + intros H; injection H as <-. left. exact Us.
  - (* waiter, initial *)
    destruct (String.eqb_spec text "waiter") as [->|_].
    { intros H; injection H as <-. right. eexists. split; [reflexivity|]. tauto. }
    destruct (String.eqb_spec text "hi") as [->|_].
    { intros H; injection H as <-. right. eexists. split; [reflexivity|]. tauto. }
    intros H; injection H as <-; now left.
  - (* waiter, awaiting_waiter_password *)
    destruct (String.eqb_spec text "waiter123") as [->|_];
      intros H; injection H as <-; right; eexists; (split; [reflexivity|]);
      tauto.
  - (* waiter, awaiting_free_table_number *)
    assert (Ur : user_states (snd (update_table_status_to_free clock
                                     (normalize_table_number text) w))
                 = user_states w).
    { unfold update_table_status_to_free. now destruct (0 <? _)%nat. }
    destruct (update_table_status_to_free clock _ w) as [[|] w1]; simpl in Ur.
    + destruct (attempt_seating_allocation clock fuel _) as [w2|] eqn:A;
        [|discriminate].
      intros H; injection H as <-. apply attempt_frame in A.
      destruct A as [U _]. simpl in U. right. exists fresh_session.
      simpl. rewrite U, Ur. split; [reflexivity|tauto].
    + intros H; injection H as <-. right. exists fresh_session.
      simpl. rewrite Ur. split; [reflexivity|tauto].
Qed.

(** The session writes of the handler, the lazy creation of the session
    included. *)
Lemma handle_message_session fuel msg w w' :
  handle_message clock fuel msg w = Some w' ->
  exists s',
    user_states w' = <[m_from msg := s']> (user_states w)
    /\ (s' = session_of (m_from msg) w
        \/ s' = fresh_session
        \/ (s' = {| s_role := Waiter; s_state := awaiting_waiter_password |}
            /\ s_state (session_of (m_from msg) w) = initial
            /\ m_type msg = "text"
            /\ strip (lower (m_text_body msg)) = "waiter")
        \/ (s' = {| s_role := Waiter; s_state := awaiting_free_table_number |}
            /\ session_of (m_from msg) w =
               {| s_role := Waiter; s_state := awaiting_waiter_password |}
            /\ m_type msg = "text"
            /\ strip (lower (m_text_body msg)) = "waiter123")
        \/ (s' = {| s_role := Customer; s_state := awaiting_name_people |}
            /\ s_state (session_of (m_from msg) w) = initial
            /\ m_type msg = "text"
            /\ strip (lower (m_text_body msg)) = "hi")).
Proof.
  unfold handle_message, session_of. cbv zeta.
  set (sender := m_from msg).
  set (w0 := match user_states w !! sender with
             | Some _ => w
             | None => set_session sender fresh_session w
             end).
  assert (E0 : user_states w0 =
               <[sender := default fresh_session (user_states w !! sender)]>
                 (user_states w)
               /\ default fresh_session (user_states w0 !! sender) =
                  default fresh_session (user_states w !! sender)).
  { unfold w0. destruct (user_states w !! sender) as [s|] eqn:L; simpl.
    - rewrite L. split; [|reflexivity]. symmetry. now apply insert_id.
    - rewrite lookup_insert_eq. split; reflexivity. }
  destruct E0 as [E0 D0]. rewrite D0. clearbody w0.
  set (s := default fresh_session (user_states w !! sender)) in *.
  destruct (String.eqb_spec (m_type msg) "text") as [T|T].
  - intros H. apply handle_text_session in H.
    destruct H as [U|(s' & U & C)].
    + exists s. rewrite U, E0. split; [reflexivity|now left].
    + exists s'. rewrite U, E0, insert_insert_eq. split; [reflexivity|].
      right. tauto.
  - intros H. injection H as <-. exists s. simpl. rewrite E0.
    split; [reflexivity|now left].
Qed.

Lemma new_session_valid fuel msg w w' s' :
  valid_session (session_of (m_from msg) w) ->
  handle_message clock fuel msg w = Some w' ->
  user_states w' !! m_from msg = Some s' -> valid_session s'.
Proof.
  intros V H L. destruct (handle_message_session _ _ _ _ H) as (s & U & C).
  rewrite U, lookup_insert_eq in L. injection L as <-.
  unfold valid_session in *. unfold fresh_session in C.
  destruct C as [->|[->|[(-> & _)|[(-> & _)|(-> & _)]]]]; tauto.
Qed.

(** X10. The handler keeps the sessions among the four pairs of role and
    state it assigns: customer / initial, waiter / awaiting_waiter_password,
    waiter / awaiting_free_table_number and
    customer / awaiting_name_people; after any sequence of messages on a
    store without sessions every session is one of them. *)
Theorem sessions_stay_valid :
  (forall fuel msg w w',
      (forall p s, user_states w !! p = Some s -> valid_session s) ->
      handle_message clock fuel msg w = Some w' ->
      forall p s, user_states w' !! p = Some s -> valid_session s)
  /\ (forall fuel msgs w w',
        user_states w = ∅ ->
        webhook clock fuel msgs w = Some w' ->
        forall p s, user_states w' !! p = Some s -> valid_session s).
Proof.
  assert (St : forall fuel msg w w',
             (forall p s, user_states w !! p = Some s -> valid_session s) ->
             handle_message clock fuel msg w = Some w' ->
             forall p s, user_states w' !! p = Some s -> valid_session s).
  { intros fuel msg w w' V H p s L.
    destruct (decide (p = m_from msg)) as [->|Ne].
    - apply (new_session_valid fuel msg w w' s); try assumption.
      unfold session_of. destruct (user_states w !! m_from msg) as [s0|] eqn:L0.
      + now apply (V (m_from msg)).
      + left. reflexivity.
    - destruct (handle_message_session _ _ _ _ H) as (s1 & U & _).
      rewrite U, lookup_insert_ne in L by congruence. now apply (V p). }
  split; [exact St|].
  intros fuel msgs w w' E.
  assert (V : forall p s, user_states w !! p = Some s -> valid_session s)
    by (intros p s L; rewrite E, lookup_empty in L; discriminate).
  clear E. revert w V. induction msgs as [|msg rest IH]; intros w V; simpl.
  - intros H. injection H as <-. exact V.
  - destruct (handle_message clock fuel msg w) as [w1|] eqn:H; [|discriminate].
    apply IH. now apply (St fuel msg w w1).
Qed.

(** X11. A message changes the session of its sender at most: the session
    of every other phone number is what it was, present or not. *)
Theorem other_sessions_untouched fuel msg w w' p :
  handle_message clock fuel msg w = Some w' ->
  p <> m_from msg ->
  user_states w' !! p = user_states w !! p.
Proof.
  intros H Ne. destruct (handle_message_session _ _ _ _ H) as (s & U & _).
  rewrite U. apply lookup_insert_ne. congruence.
Qed.

(** X16. A session comes to the table prompt by the password only: if the
    sender's session is at awaiting_free_table_number after a message and
    was not so before, then it was a waiter's at the password prompt and
    the ASCII text was the password, in some letter case and padded or
    not. *)
Theorem table_prompt_needs_password fuel msg w w' :
  isascii (m_text_body msg) = true ->
  handle_message clock fuel msg w = Some w' ->
  s_state (session_of (m_from msg) w') = awaiting_free_table_number ->
  s_state (session_of (m_from msg) w) = awaiting_free_table_number
  \/ (session_of (m_from msg) w =
        {| s_role := Waiter; s_state := awaiting_waiter_password |}
      /\ m_type msg = "text"
      /\ strip (lower (m_text_body msg)) = "waiter123").
Proof.
  intros _ H S. destruct (handle_message_session _ _ _ _ H) as (s & U & C).
  unfold session_of in S at 1. rewrite U, lookup_insert_eq in S. simpl in S.
  destruct C as [->|[->|[(-> & _)|[(-> & C)|(-> & _)]]]];
    try discriminate; tauto.
Qed.
End Sessions.

(** ** What a message does to the database *)

Section MessagesAndStore.
Variable clock : nat -> Z.

(** The writes of the chain of [if]/[elif] on the database: none, or a
    release that found its table followed by a run of the allocation, or an
    enqueue followed by a run. *)
Lemma handle_text_db fuel sender s text w w' :
  db_wf (db w) ->
  handle_text clock fuel sender s text w = Some w' ->
  db w' = db w
  \/ (s = {| s_role := Waiter; s_state := awaiting_free_table_number |}
      /\ exists w1 w2,
           db w1 = db (snd (update_table_status_to_free clock
                              (normalize_table_number text) w))
           /\ attempt_seating_allocation clock fuel w1 = Some w2
           /\ db w' = db w2)
  \/ (s = {| s_role := Customer; s_state := awaiting_name_people |}
      /\ exists name count w1 w2,
           db w1 = db (snd (save_user_data_to_db clock sender name count w))
           /\ attempt_seating_allocation clock fuel w1 = Some w2
           /\ db w' = db w2).
Proof.
  intros W. unfold handle_text.
  destruct s as [[] []]; simpl;
    try (intros H; injection H as <-; now left).
  - destruct (text =? "waiter")%string; [intros H; injection H as <-; now left|].
    destruct (text =? "hi")%string; intros H; injection H as <-; now left.
  - destruct (List.map strip _) as [|name [|cnt [|y l]]];
      try (intros H; injection H as <-; now left).
    destruct (int cnt) as [count|]; [|intros H; injection H as <-; now left].
    destruct (count <=? 0); [intros H; injection H as <-; now left|].
    destruct (6 <? count); [intros H; injection H as <-; now left|].
    pose proof (save_id_positive clock sender name count w W) as P.
    destruct (save_user_data_to_db clock sender name count w)
      as [user_id w1] eqn:Sv. simpl in P.
    destruct (Z.eqb_spec user_id 0); [lia|]. simpl.
    intros H. right. right. split; [reflexivity|].
    eexists name, count, _, w'. split; [|split; [exact H|reflexivity]].
    rewrite Sv. reflexivity.
  - destruct (text =? "waiter")%string; [intros H; injection H as <-; now left|].
    destruct (text =? "hi")%string; intros H; injection H as <-; now left.
  - destruct (text =? "waiter123")%string; intros H; injection H as <-; now left.
  - pose proof (release_result clock (normalize_table_number text) w) as R.
    pose proof (release_absent clock (normalize_table_number text) w) as A.
    destruct (update_table_status_to_free clock _ w) as [[|] w1] eqn:Up;
      simpl in R.
    + destruct (attempt_seating_allocation clock fuel _) as [w2|] eqn:Run;
        [|discriminate].
      intros H; injection H as <-. right. left. split; [reflexivity|].
      eexists _, w2. split; [|split; [exact Run|reflexivity]].
      reflexivity.
    + intros H; injection H as <-. left.
      assert (N : ~ In (normalize_table_number text)
                       (List.map t_table_number (tables (db w))))
        by (intros I; apply R in I; discriminate).
      specialize (A N). injection A as ->. reflexivity.
Qed.

Lemma handle_message_db fuel msg w w' :
  db_wf (db w) ->
  handle_message clock fuel msg w = Some w' ->
  exists w0,
    db w0 = db w
    /\ (db w' = db w
        \/ (session_of (m_from msg) w =
              {| s_role := Waiter; s_state := awaiting_free_table_number |}
            /\ m_type msg = "text"
            /\ exists w1 w2,
                 db w1 = db (snd (update_table_status_to_free clock
                                    (normalize_table_number
                                       (strip (lower (m_text_body msg)))) w0))
                 /\ attempt_seating_allocation clock fuel w1 = Some w2
                 /\ db w' = db w2)
        \/ (session_of (m_from msg) w =
              {| s_role := Customer; s_state := awaiting_name_people |}
            /\ m_type msg = "text"
            /\ exists name count w1 w2,
                 db w1 = db (snd (save_user_data_to_db clock (m_from msg)
                                    name count w0))
                 /\ attempt_seating_allocation clock fuel w1 = Some w2
                 /\ db w' = db w2)).
Proof.
  intros W. unfold handle_message, session_of. cbv zeta.
  set (sender := m_from msg).
  set (w0 := match user_states w !! sender with
             | Some _ => w
             | None => set_session sender fresh_session w
             end).
  assert (E0 : db w0 = db w
               /\ default fresh_session (user_states w0 !! sender) =
                  default fresh_session (user_states w !! sender)).
  { unfold w0. destruct (user_states w !! sender) as [s|] eqn:L; simpl.
    - now rewrite L.
    - now rewrite lookup_insert_eq. }
  destruct E0 as [E0 D0]. rewrite D0. clearbody w0.
  intros H0. exists w0. split; [exact E0|]. revert H0.
  destruct (String.eqb_spec (m_type msg) "text") as [T|T].
  - intros H. apply handle_text_db in H; [|now rewrite E0].
    rewrite E0 in H. destruct H as [K|[(S & K)|(S & K)]]; tauto.
  - intros H. injection H as <-. left. exact E0.
Qed.

Lemma settled_db w w' : db w = db w' -> settled w -> settled w'.
Proof.
  unfold settled, get_free_tables. intros E S. rewrite <- E. exact S.
Qed.

Lemma wf_db w w' : db w = db w' -> db_wf (db w) -> db_wf (db w').
Proof. intros E W. now rewrite <- E. Qed.

Lemma handle_message_settled fuel msg w w' :
  db_wf (db w) -> settled w ->
  handle_message clock fuel msg w = Some w' -> settled w'.
Proof.
  intros W S H. destruct (handle_message_db _ _ _ _ W H) as (w0 & E0 & C).
  destruct C as [E|[(_ & _ & w1 & w2 & _ & R & E)|(_ & _ & n & c & w1 & w2 & _ & R & E)]].
  - apply (settled_db w); [now symmetry|exact S].
  - apply (settled_db w2); [now symmetry|]. now apply (run_settled clock fuel w1).
  - apply (settled_db w2); [now symmetry|]. now apply (run_settled clock fuel w1).
Qed.

Lemma webhook_settled fuel msgs w w' :
  db_wf (db w) -> settled w ->
  webhook clock fuel msgs w = Some w' -> settled w'.
Proof.
  revert w. induction msgs as [|msg rest IH]; intros w W S; simpl.
  - intros H. injection H as <-. exact S.
  - destruct (handle_message clock fuel msg w) as [w1|] eqn:H; [|discriminate].
    apply IH.
    + now apply (handle_message_wf clock fuel msg w w1).
    + now apply (handle_message_settled fuel msg w w1).
Qed.

Lemma init_db_users w : users (db (init_db clock w)) = users (db w).
Proof. apply init_db_keeps_users. Qed.

Lemma seeded_settled : settled (init_db clock blank_world).
Proof.
  intros u t U. rewrite init_db_users in U. destruct U.
Qed.

(** X14. Nobody waits while a table that fits them is free: if that is so
    before a message it is so after it, and it is so after any sequence of
    messages on the seeded store. *)
Theorem nobody_waits_for_a_free_fit :
  (forall fuel msg w w',
      db_wf (db w) -> settled w ->
      handle_message clock fuel msg w = Some w' -> settled w')
  /\ (forall fuel msgs w',
        webhook clock fuel msgs (init_db clock blank_world) = Some w' ->
        forall u t, In u (users (db w')) -> In t (get_free_tables w') ->
                    f_capacity t < u_people_count u).
Proof.
  split; [apply handle_message_settled|].
  intros fuel msgs w' H.
  exact (webhook_settled fuel msgs _ w' (seeded_wf clock) seeded_settled H).
Qed.
End MessagesAndStore.

Section Tables.
Variable clock : nat -> Z.

Lemma release_identity number w :
  List.map table_identity
    (tables (db (snd (update_table_status_to_free clock number w)))) =
  List.map table_identity (tables (db w)).
Proof.
  rewrite release_tables, List.map_map. apply List.map_ext.
  intros t. now destruct (t_table_number t =? number)%string.
Qed.

Lemma release_keeps_other number w r :
  In r (tables (db w)) -> t_table_number r <> number ->
  In r (tables (db (snd (update_table_status_to_free clock number w)))).
Proof.
  intros I N. rewrite release_tables, in_map_iff. exists r. split; [|exact I].
  destruct (String.eqb_spec (t_table_number r) number); [contradiction|].
  reflexivity.
Qed.

Lemma handle_message_identity fuel msg w w' :
  db_wf (db w) ->
  handle_message clock fuel msg w = Some w' ->
  List.map table_identity (tables (db w')) =
  List.map table_identity (tables (db w)).
Proof.
  intros W H. destruct (handle_message_db _ _ _ _ _ W H) as (w0 & E0 & C).
  assert (W0 : db_wf (db w0)) by now rewrite E0.
  destruct C as [E|[(_ & _ & w1 & w2 & E1 & R & E)
                   |(_ & _ & n & c & w1 & w2 & E1 & R & E)]].
  - now rewrite E.
  - assert (W1 : db_wf (db w1)) by (rewrite E1; now apply release_wf).
    destruct (run_rows clock fuel w1 w2 W1 R) as (_ & _ & T & _).
    now rewrite E, T, E1, release_identity, E0.
  - assert (W1 : db_wf (db w1)) by (rewrite E1; now apply save_wf).
    destruct (run_rows clock fuel w1 w2 W1 R) as (_ & _ & T & _).
    now rewrite E, T, E1, save_tables, E0.
Qed.

(** X15. An occupied table stays occupied, by the same party and since the
    same time, through every message but a text of a waiter at the table
    prompt that names the table: no customer and no waiter who has not
    passed the password prompt frees a table. The text is ASCII. *)
Theorem occupied_until_released fuel msg w w' r :
  isascii (m_text_body msg) = true ->
  db_wf (db w) ->
  handle_message clock fuel msg w = Some w' ->
  In r (tables (db w)) -> t_status r = occupied ->
  session_of (m_from msg) w <>
    {| s_role := Waiter; s_state := awaiting_free_table_number |}
  \/ m_type msg <> "text"
  \/ t_table_number r <>
     normalize_table_number (strip (lower (m_text_body msg))) ->
  In r (tables (db w')).
Proof.
  intros _ W H I O G. destruct (handle_message_db _ _ _ _ _ W H) as (w0 & E0 & C).
  assert (W0 : db_wf (db w0)) by now rewrite E0.
  destruct C as [E|[(S & T & w1 & w2 & E1 & R & E)
                   |(_ & _ & n & c & w1 & w2 & E1 & R & E)]].
  - now rewrite E.
  - destruct G as [G|[G|G]]; try contradiction.
    assert (W1 : db_wf (db w1)) by (rewrite E1; now apply release_wf).
    destruct (run_rows clock fuel w1 w2 W1 R) as (_ & K & _).
    rewrite E. apply K; [|exact O]. rewrite E1.
    apply release_keeps_other; [now rewrite E0|exact G].
  - assert (W1 : db_wf (db w1)) by (rewrite E1; now apply save_wf).
    destruct (run_rows clock fuel w1 w2 W1 R) as (_ & K & _).
    rewrite E. apply K; [|exact O]. now rewrite E1, save_tables, E0.
Qed.

Lemma webhook_invariants fuel msgs w w' :
  db_wf (db w) -> Forall occupant_iff_occupied (tables (db w)) ->
  webhook clock fuel msgs w = Some w' ->
  db_wf (db w') /\ Forall occupant_iff_occupied (tables (db w'))
  /\ List.map table_identity (tables (db w')) =
     List.map table_identity (tables (db w)).
Proof.
  revert w. induction msgs as [|msg rest IH]; intros w W O; simpl.
  - intros H. injection H as <-. auto.
  - destruct (handle_message clock fuel msg w) as [w1|] eqn:H; [|discriminate].
    intros R.
    pose proof (handle_message_wf clock fuel msg w w1 W H) as W1.
    pose proof (handle_message_occupancy clock fuel msg w w1 O H) as O1.
    destruct (IH w1 W1 O1 R) as (W' & O' & T).
    split; [exact W'|]. split; [exact O'|].
    now rewrite T, (handle_message_identity fuel msg w w1 W H).
Qed.

Lemma seeded_identity :
  List.map table_identity (tables (db (init_db clock blank_world))) =
  [(1, "T1", 2); (2, "T2", 2); (3, "T3", 2); (4, "T4", 2);
   (5, "T5", 4); (6, "T6", 4); (7, "T7", 4); (8, "T8", 4);
   (9, "T9", 6); (10, "T10", 6)].
Proof. reflexivity. Qed.

Lemma seeded_occupancy :
  Forall occupant_iff_occupied (tables (db (init_db clock blank_world))).
Proof.
  eapply List.Forall_impl; [apply free_and_empty_invariant|].
  apply init_db_free. constructor.
Qed.

(** X19. After any sequence of messages on the seeded store the schema
    constraints hold (ids, phone numbers and table numbers are unique), a
    table has an occupant exactly when it is occupied, and the tables are
    the ten of the seed, with their ids, numbers and capacities: the
    handler creates and deletes no table. A message never changes the id,
    the number or the capacity of a table. *)
Theorem reachable_store_invariants :
  (forall fuel msg w w',
      db_wf (db w) ->
      handle_message clock fuel msg w = Some w' ->
      List.map table_identity (tables (db w')) =
      List.map table_identity (tables (db w)))
  /\ (forall fuel msgs w',
        webhook clock fuel msgs (init_db clock blank_world) = Some w' ->
        db_wf (db w')
        /\ Forall (fun t => is_Some (t_occupied_by_user_id t)
                            <-> t_status t = occupied) (tables (db w'))
        /\ List.map table_identity (tables (db w')) =
           [(1, "T1", 2); (2, "T2", 2); (3, "T3", 2); (4, "T4", 2);
            (5, "T5", 4); (6, "T6", 4); (7, "T7", 4); (8, "T8", 4);
            (9, "T9", 6); (10, "T10", 6)]).
Proof.
  split; [apply handle_message_identity|].
  intros fuel msgs w' H.
  destruct (webhook_invariants fuel msgs _ w' (seeded_wf clock)
              seeded_occupancy H) as (W & O & T).
  split; [exact W|]. split; [exact O|]. now rewrite T, seeded_identity.
Qed.
End Tables.

(** ** Messages that change nothing, and spellings *)

Section Replies.
Variable clock : nat -> Z.

(** X12. A message that is not a text is answered with the text-only
    notice and nothing else happens: the database is as before, and the
    sender keeps the session it had; a sender never seen before gets the
    session customer / initial all the same. *)
Theorem non_text_message_ignored fuel msg w :
  m_type msg <> "text" ->
  exists w',
    handle_message clock fuel msg w = Some w'
    /\ trace w' = (trace w ++ [Sent (m_from msg) msg_only_text])%list
    /\ db w' = db w
    /\ user_states w' =
       <[m_from msg := session_of (m_from msg) w]> (user_states w)
    /\ (user_states w !! m_from msg = None ->
        user_states w' !! m_from msg =
        Some {| s_role := Customer; s_state := initial |}).
Proof.
  intros T. unfold handle_message, session_of. cbv zeta.
  destruct (String.eqb_spec (m_type msg) "text") as [|_]; [contradiction|].
  destruct (user_states w !! m_from msg) as [s|] eqn:L.
  - eexists. split; [reflexivity|]. simpl.
    repeat split; [|discriminate]. symmetry. now apply insert_id.
  - eexists. split; [reflexivity|]. simpl.
    repeat split. intros _. apply lookup_insert_eq.
Qed.

(** X13. A wrong password ends the waiter flow: the handler answers that
    the password is incorrect, resets the session to customer / initial and
    leaves the database alone. A text that is neither hi nor waiter, sent
    from a session in state initial, gets the help text and changes no
    session state and no row. The texts are ASCII. *)
Theorem unrecognised_text_changes_nothing :
  (forall fuel msg w,
      isascii (m_text_body msg) = true ->
      m_type msg = "text" ->
      user_states w !! m_from msg =
        Some {| s_role := Waiter; s_state := awaiting_waiter_password |} ->
      strip (lower (m_text_body msg)) <> "waiter123" ->
      exists w',
        handle_message clock fuel msg w = Some w'
        /\ trace w' = (trace w ++ [Sent (m_from msg) msg_incorrect_password])%list
        /\ db w' = db w
        /\ user_states w' !! m_from msg =
           Some {| s_role := Customer; s_state := initial |})
  /\ (forall fuel msg w,
        isascii (m_text_body msg) = true ->
        m_type msg = "text" ->
        s_state (session_of (m_from msg) w) = initial ->
        strip (lower (m_text_body msg)) <> "waiter" ->
        strip (lower (m_text_body msg)) <> "hi" ->
        exists w',
          handle_message clock fuel msg w = Some w'
          /\ trace w' = (trace w ++ [Sent (m_from msg) msg_say_hi_or_waiter])%list
          /\ db w' = db w
          /\ session_of (m_from msg) w' = session_of (m_from msg) w).
Proof.
  split.
  - intros fuel msg w _ T S N.
    rewrite (handle_message_text clock _ _ _ _ T S). unfold handle_text. simpl.
    destruct (String.eqb_spec (strip (lower (m_text_body msg))) "waiter123");
      [contradiction|].
    eexists. split; [reflexivity|]. simpl. repeat split.
    apply lookup_insert_eq.
  - intros fuel msg w _ T S N1 N2. unfold handle_message, session_of in *.
    cbv zeta. rewrite T. simpl.
    destruct (user_states w !! m_from msg) as [s|] eqn:L.
    + rewrite L. simpl in *. unfold handle_text. rewrite S. simpl.
      destruct (String.eqb_spec (strip (lower (m_text_body msg))) "waiter");
        [contradiction|].
      destruct (String.eqb_spec (strip (lower (m_text_body msg))) "hi");
        [contradiction|].
      destruct s as [[] st]; simpl in S; subst st; simpl;
        (eexists; split; [reflexivity|]; simpl; rewrite L; repeat split).
    + simpl. rewrite lookup_insert_eq. simpl. unfold handle_text. simpl.
      destruct (String.eqb_spec (strip (lower (m_text_body msg))) "waiter");
        [contradiction|].
      destruct (String.eqb_spec (strip (lower (m_text_body msg))) "hi");
        [contradiction|].
      eexists. split; [reflexivity|]. simpl. rewrite lookup_insert_eq.
      repeat split.
Qed.
End Replies.

Section Spellings.

Lemma digit_char_facts c :
  is_digit c = true ->
  is_space c = false /\ lower_char c = c /\ upper_char c = c
  /\ Ascii.eqb c "t" = false /\ c <> "a"%char.
Proof.
  destruct c as [[] [] [] [] [] [] [] []]; intros H; try discriminate H;
    repeat split; discriminate.
Qed.

Lemma replace_without_t s :
  Forall (fun c => Ascii.eqb c "t" = false) (list_ascii_of_string s) ->
  replace "table" "" s = s.
Proof.
  unfold replace. induction s as [|c r IH]; intros H; [reflexivity|].
  simpl in H. inversion H as [|? ? Hc Hr]; subst.
  rewrite replace_from_cons, prefix_table_other by exact Hc.
  now rewrite IH.
Qed.

Lemma rstrip_cons_fixed a s :
  s <> "" -> rstrip s = s -> rstrip (String a s) = String a s.
Proof.
  intros N E. rewrite rstrip_cons, E. destruct s; [now destruct N|reflexivity].
Qed.

Lemma digits_plain d :
  Forall (fun c => is_digit c = true) (list_ascii_of_string d) ->
  lower d = d /\ upper d = d /\ replace "table" "" d = d
  /\ (d <> "" -> strip d = d).
Proof.
  intros H.
  assert (T : Forall (fun c => Ascii.eqb c "t" = false) (list_ascii_of_string d)).
  { eapply List.Forall_impl; [|exact H]. intros c Hc.
    now destruct (digit_char_facts c Hc) as (_ & _ & _ & E & _). }
  split; [|split; [|split; [now apply replace_without_t|]]].
  - clear T. unfold lower. induction d as [|c r IH]; [reflexivity|].
    simpl in *. inversion H as [|? ? Hc Hr]; subst.
    destruct (digit_char_facts c Hc) as (_ & L & _). now rewrite L, IH.
  - clear T. unfold upper. induction d as [|c r IH]; [reflexivity|].
    simpl in *. inversion H as [|? ? Hc Hr]; subst.
    destruct (digit_char_facts c Hc) as (_ & _ & U & _). now rewrite U, IH.
  - intros N. unfold strip.
    assert (L : lstrip d = d).
    { destruct d as [|c r]; [reflexivity|]. simpl in *.
      inversion H as [|? ? Hc Hr]; subst.
      destruct (digit_char_facts c Hc) as (Sp & _). now rewrite Sp. }
    rewrite L. clear L T N. induction d as [|c r IH]; [reflexivity|].
    simpl in H. inversion H as [|? ? Hc Hr]; subst.
    rewrite rstrip_cons, (IH Hr).
    destruct (digit_char_facts c Hc) as (Sp & _).
    destruct r; [now rewrite Sp|reflexivity].
Qed.

(** X17. The spellings of a table number agree. For a text [d] of decimal
    digits, the texts d, "t" d, "table" d, "table " d and d " table"
    all normalize to "T" d; and so do "T" d, "Table " d and "TABLE" d once
    the handler has lower-cased them. *)
Theorem table_number_spellings d :
  digits d ->
  normalize_table_number d = String "T" d
  /\ normalize_table_number (String "t" d) = String "T" d
  /\ normalize_table_number ("table" ++ d) = String "T" d
  /\ normalize_table_number ("table " ++ d) = String "T" d
  /\ normalize_table_number (d ++ " table") = String "T" d
  /\ normalize_table_number (strip (lower (String "T" d))) = String "T" d
  /\ normalize_table_number (strip (lower ("Table " ++ d))) = String "T" d
  /\ normalize_table_number (strip (lower ("TABLE" ++ d))) = String "T" d.
Proof.
  intros [N D]. destruct (digits_plain d D) as (L & U & R & S).
  specialize (S N).
  assert (I : isdigit d = true) by (apply isdigit_spec; now split).
  assert (A : normalize_table_number d = String "T" d).
  { unfold normalize_table_number. now rewrite R, S, I. }
  assert (B : normalize_table_number (String "t" d) = String "T" d).
  { unfold normalize_table_number.
    assert (P : replace "table" "" (String "t" d) = String "t" d).
    { unfold replace. rewrite replace_from_cons.
      destruct d as [|c r]; [reflexivity|].
      simpl in D. inversion D as [|? ? Hc Hr]; subst.
      destruct (digit_char_facts c Hc) as (_ & _ & _ & _ & Na).
      change (String.prefix "table" (String "t" (String c r)))
        with (if ascii_dec "a" c then String.prefix "ble" r else false).
      destruct (ascii_dec "a" c) as [E|_]; [now destruct Na|].
      f_equal. exact R. }
    rewrite P.
    assert (Q : strip (String "t" d) = String "t" d).
    { unfold strip. simpl lstrip. rewrite rstrip_cons.
      assert (Rd : rstrip d = d).
      { pose proof S as S'. unfold strip in S'.
        destruct d as [|c r]; [reflexivity|].
        simpl in D. inversion D as [|? ? Hc Hr]; subst.
        destruct (digit_char_facts c Hc) as (Sp & _).
        simpl lstrip in S'. now rewrite Sp in S'. }
      rewrite Rd. now destruct d. }
    rewrite Q.
    change (isdigit (String "t" d)) with false. cbv iota.
    change (upper (String "t" d)) with (String "T" (upper d)).
    now rewrite U. }
  assert (C : normalize_table_number ("table" ++ d) = String "T" d).
  { unfold normalize_table_number. now rewrite replace_table_leading, R, S, I. }
  assert (E : normalize_table_number ("table " ++ d) = String "T" d).
  { unfold normalize_table_number.
    change ("table " ++ d)%string with ("table" ++ String " " d)%string.
    rewrite replace_table_leading.
    assert (P : replace "table" "" (String " " d) = String " " d).
    { unfold replace. rewrite replace_from_cons, prefix_table_other by reflexivity.
      f_equal. exact R. }
    rewrite P. unfold strip. simpl lstrip. fold (strip d). now rewrite S, I. }
  assert (F : normalize_table_number (d ++ " table") = String "T" d).
  { unfold normalize_table_number.
    assert (P : replace "table" "" (d ++ " table") = (d ++ " ")%string).
    { assert (T : Forall (fun c => Ascii.eqb c "t" = false)
                         (list_ascii_of_string (d ++ " "))).
      { clear - D. induction d as [|c r IH]; simpl.
        - repeat constructor.
        - simpl in D. inversion D as [|? ? Hc Hr]; subst.
          constructor; [|now apply IH].
          now destruct (digit_char_facts c Hc) as (_ & _ & _ & T & _). }
      pose proof (replace_table_after (d ++ " ") "" T) as K.
      assert (X : ((d ++ " ") ++ "table" ++ "")%string = (d ++ " table")%string).
      { clear. induction d as [|c r IH]; [reflexivity|].
        change ((String c r ++ " ") ++ "table" ++ "")%string
          with (String c ((r ++ " ") ++ "table" ++ "")).
        now rewrite IH. }
      rewrite X in K. rewrite K.
      clear. induction (d ++ " ")%string as [|c r IH]; [reflexivity|].
      change (String c r ++ replace "table" "" "")%string
        with (String c (r ++ replace "table" "" "")). now rewrite IH. }
    rewrite P.
    assert (Q : strip (d ++ " ") = d).
    { rewrite <- S at 2. unfold strip.
      assert (Ls : lstrip (d ++ " ") = (lstrip d ++ " ")%string).
      { destruct d as [|c r]; [now destruct N|].
        simpl in D. inversion D as [|? ? Hc Hr]; subst.
        destruct (digit_char_facts c Hc) as (Sp & _).
        change (String c r ++ " ")%string with (String c (r ++ " ")).
        simpl. now rewrite Sp. }
      rewrite Ls. generalize (lstrip d). clear.
      induction s as [|c r IH]; [reflexivity|].
      change (String c r ++ " ")%string with (String c (r ++ " ")).
      rewrite !rstrip_cons, IH. reflexivity. }
    now rewrite Q, I. }
  repeat split; try assumption.
  - change (lower (String "T" d)) with (String "t" (lower d)).
    rewrite L.
    assert (Q : strip (String "t" d) = String "t" d).
    { unfold strip. simpl lstrip. rewrite rstrip_cons.
      pose proof S as S'. unfold strip in S'.
      destruct d as [|c r]; [now destruct N|].
      simpl in D. inversion D as [|? ? Hc Hr]; subst.
      destruct (digit_char_facts c Hc) as (Sp & _).
      simpl lstrip in S'. rewrite Sp in S'. now rewrite S'. }
    now rewrite Q.
  - change (lower ("Table " ++ d)) with ("table " ++ lower d)%string.
    rewrite L.
    assert (Q : strip ("table " ++ d) = ("table " ++ d)%string).
    { unfold strip. change (lstrip ("table " ++ d)) with ("table " ++ d)%string.
      pose proof S as S'. unfold strip in S'.
      destruct d as [|c r]; [now destruct N|].
      simpl in D. inversion D as [|? ? Hc Hr]; subst.
      destruct (digit_char_facts c Hc) as (Sp & _).
      simpl lstrip in S'. rewrite Sp in S'.
      change ("table " ++ String c r)%string
        with (String "t" (String "a" (String "b" (String "l" (String "e"
              (String " " (String c r))))))).
      repeat (apply rstrip_cons_fixed; [discriminate|]). exact S'. }
    now rewrite Q.
  - change (lower ("TABLE" ++ d)) with ("table" ++ lower d)%string.
    rewrite L.
    assert (Q : strip ("table" ++ d) = ("table" ++ d)%string).
    { unfold strip. change (lstrip ("table" ++ d)) with ("table" ++ d)%string.
      pose proof S as S'. unfold strip in S'.
      destruct d as [|c r]; [now destruct N|].
      simpl in D. inversion D as [|? ? Hc Hr]; subst.
      destruct (digit_char_facts c Hc) as (Sp & _).
      simpl lstrip in S'. rewrite Sp in S'.
      change ("table" ++ String c r)%string
        with (String "t" (String "a" (String "b" (String "l" (String "e"
              (String c r)))))).
      repeat (apply rstrip_cons_fixed; [discriminate|]). exact S'. }
    now rewrite Q.
Qed.
End Spellings.

(** ** Enqueueing *)

Section Enqueue.
Variable clock : nat -> Z.

Lemma same_id_same_user (l : list user_row) a b :
  List.NoDup (List.map u_id l) -> In a l -> In b l -> u_id a = u_id b -> a = b.
Proof.
  induction l as [|x l IH]; [intros _ []|].
  simpl. intros N Ia Ib E. apply NoDup_cons_iff in N. destruct N as [N1 N2].
  destruct Ia as [->|Ia], Ib as [->|Ib]; try reflexivity.
  - exfalso. apply N1. rewrite E. now apply in_map.
  - exfalso. apply N1. rewrite <- E. now apply in_map.
  - now apply IH.
Qed.

(** X18. An enqueue touches the entry of its phone number only: every
    waitlist row of another phone number is there before exactly if it is
    there after, the tables and the sessions are as they were, and the id
    it returns is positive. For a phone number that is not on the waitlist
    the id is new, above every id of the waitlist and every id handed out
    before, and the waitlist grows by one row. *)
Theorem enqueue_touches_one_entry phone name people w :
  db_wf (db w) ->
  let r := save_user_data_to_db clock phone name people w in
  (forall u, u_phone_number u <> phone ->
             (In u (users (db (snd r))) <-> In u (users (db w))))
  /\ tables (db (snd r)) = tables (db w)
  /\ user_states (snd r) = user_states w
  /\ 0 < fst r
  /\ (~ In phone (List.map u_phone_number (users (db w))) ->
      fst r = users_seq (db w) + 1
      /\ (forall u, In u (users (db w)) -> u_id u < fst r)
      /\ length (users (db (snd r))) = S (length (users (db w)))).
Proof.
  intros W r. subst r.
  pose proof (save_id_positive clock phone name people w W) as P.
  pose proof (save_tables clock phone name people w) as T.
  destruct (save_frame clock phone name people w) as (Us & _).
  split; [|split; [exact T|split; [exact Us|split; [exact P|]]]].
  - intros u N. unfold save_user_data_to_db.
    destruct (List.find _ _) as [e|] eqn:F; simpl.
    + apply find_phone_some in F. destruct F as [Ie Ee].
      rewrite in_map_iff. split.
      * intros (u0 & E & I0).
        destruct (Z.eqb_spec (u_id u0) (u_id e)) as [Q|Q]; [|now subst].
        rewrite (same_id_same_user _ _ _ (wf_user_ids _ W) I0 Ie Q) in E.
        subst u. simpl in N. contradiction.
      * intros I. exists u. split; [|exact I].
        destruct (Z.eqb_spec (u_id u) (u_id e)) as [Q|Q]; [|reflexivity].
        rewrite (same_id_same_user _ _ _ (wf_user_ids _ W) I Ie Q) in N.
        contradiction.
    + rewrite in_app_iff. split; [|tauto].
      intros [I|[<-|[]]]; [exact I|]. simpl in N. contradiction.
  - intros N. unfold save_user_data_to_db.
    destruct (List.find _ _) as [e|] eqn:F; simpl.
    + apply find_phone_some in F. destruct F as [Ie Ee].
      exfalso. apply N. rewrite <- Ee. now apply in_map.
    + split; [reflexivity|]. split.
      * intros u I. pose proof (wf_users_seq _ W) as S.
        rewrite List.Forall_forall in S. apply S in I. lia.
      * rewrite length_app. simpl. lia.
Qed.


End Enqueue.

(** ** Order of seating and replies *)

Section Order.
Variable clock : nat -> Z.

(** X21. A run never lets a party be overtaken by a later party of the
    same size: of two waiting parties of the same size, if the one with the
    earlier timestamp is still on the waitlist when the run returns, so is
    the other. *)
Theorem same_size_parties_in_order fuel w w' u1 u2 :
  db_wf (db w) ->
  attempt_seating_allocation clock fuel w = Some w' ->
  In u1 (users (db w)) -> In u2 (users (db w)) ->
  u_people_count u1 = u_people_count u2 ->
  u_timestamp u1 < u_timestamp u2 ->
  In u1 (users (db w')) -> In u2 (users (db w')).
Proof.
  revert w. induction fuel as [|fuel IH]; intros w W; [discriminate|].
  rewrite attempt_unfold.
  destruct (next_allocation _ _) as [x|] eqn:N.
  - intros H I1 I2 E T J.
    set (w1 := commit clock x (print log_attempting w)) in *.
    assert (W1 : db_wf (db w1)) by (unfold w1, commit; apply seat_wf; exact W).
    pose proof (run_users_subset clock fuel w1 w' H u1 J) as J1.
    assert (K1 := J1). unfold w1 in K1. apply commit_users in K1.
    destruct (Z.eq_dec (u_id u2) (u_id (a_customer x))) as [Q|Q].
    + exfalso.
      pose proof (next_allocation_customer x w N) as Ux.
      pose proof (same_id_same_user _ _ _ (wf_user_ids _ W) I2 Ux Q) as ->.
      pose proof (next_allocation_earliest w x u1 N I1 E). lia.
    + apply (IH w1 W1 H); try assumption.
      unfold w1. apply commit_users. split; assumption.
  - intros H. injection H as <-. auto.
Qed.

Lemma run_sends_only_ready fuel w w' :
  attempt_seating_allocation clock fuel w = Some w' ->
  exists evs,
    trace w' = (trace w ++ evs)%list
    /\ forall to m, In (Sent to m) evs -> is_table_ready (Sent to m) = true.
Proof.
  revert w. induction fuel as [|fuel IH]; intros w; [discriminate|].
  rewrite attempt_unfold. destruct (next_allocation _ _) as [x|].
  - intros H. destruct (IH _ H) as (evs & T & S). simpl in T.
    rewrite <- !app_assoc in T. eexists. split; [exact T|].
    intros to m I. simpl in I.
    destruct I as [I|[I|[I|I]]]; try discriminate; [|now apply S].
    injection I as <- <-. reflexivity.
  - intros H. injection H as <-. eexists. split.
    + simpl. rewrite <- app_assoc. reflexivity.
    + intros to m [I|[I|[]]]; discriminate.
Qed.

Lemma handle_text_replies fuel sender s text w w' :
  handle_text clock fuel sender s text w = Some w' ->
  exists pre m evs,
    trace w' = (trace w ++ pre ++ Sent sender m :: evs)%list
    /\ is_table_ready (Sent sender m) = false
    /\ (forall to m', ~ In (Sent to m') pre)
    /\ (forall to m', In (Sent to m') evs ->
                      is_table_ready (Sent to m') = true).
Proof.
  assert (One : forall m, is_table_ready (Sent sender m) = false ->
                exists pre m0 evs,
                  trace (send_message sender m w) =
                    (trace w ++ pre ++ Sent sender m0 :: evs)%list
                  /\ is_table_ready (Sent sender m0) = false
                  /\ (forall to m', ~ In (Sent to m') pre)
                  /\ (forall to m', In (Sent to m') evs ->
                                    is_table_ready (Sent to m') = true)).
  { intros m R. exists [], m, []. repeat split; [exact R|intros ? ? []|].
    intros ? ? []. }
  unfold handle_text.
  destruct s as [[] []]; simpl;
    try (intros H; injection H as <-; now apply One).
  - destruct (text =? "waiter")%string;
      [intros H; injection H as <-; now apply One|].
    destruct (text =? "hi")%string; intros H; injection H as <-; now apply One.
  - destruct (List.map strip _) as [|name [|cnt [|y l]]];
      try (intros H; injection H as <-; now apply One).
    destruct (int cnt) as [count|];
      [|intros H; injection H as <-; now apply One].
    destruct (count <=? 0); [intros H; injection H as <-; now apply One|].
    destruct (6 <? count); [intros H; injection H as <-; now apply One|].
    destruct (save_frame clock sender name count w) as (_ & e & Ee & Ts).
    destruct (save_user_data_to_db clock sender name count w) as [user_id w1].
    simpl in Ts.
    destruct (negb (user_id =? 0)).
    + intros H. apply run_sends_only_ready in H.
      destruct H as (evs & T & S). simpl in T. rewrite Ts, <- !app_assoc in T.
      exists [e], (msg_in_the_queue name count), evs.
      split; [exact T|]. split; [reflexivity|]. split; [|exact S].
      intros to m' [I|[]]. subst e. discriminate.
    + intros H; injection H as <-.
      exists [e], msg_issue_adding, []. simpl. rewrite Ts, <- app_assoc.
      split; [reflexivity|]. split; [reflexivity|]. split; [|intros ? ? []].
      intros to m' [I|[]]. subst e. discriminate.
  - destruct (text =? "waiter")%string;
      [intros H; injection H as <-; now apply One|].
    destruct (text =? "hi")%string; intros H; injection H as <-; now apply One.
  - destruct (text =? "waiter123")%string;
      intros H; injection H as <-; now apply One.
  - assert (Tr : exists l, trace (snd (update_table_status_to_free clock
                                         (normalize_table_number text) w))
                           = (trace w ++ [Printed l])%list).
    { unfold update_table_status_to_free. destruct (0 <? _)%nat; simpl; eauto. }
    destruct Tr as (l & Tr).
    destruct (update_table_status_to_free clock _ w) as [[|] w1]; simpl in Tr.
    + destruct (attempt_seating_allocation clock fuel _) as [w2|] eqn:A;
        [|discriminate].
      intros H; injection H as <-. apply run_sends_only_ready in A.
      destruct A as (evs & T & S). simpl in T. rewrite Tr, <- !app_assoc in T.
      exists [Printed l], (msg_table_marked_free (normalize_table_number text)), evs.
      split; [exact T|]. split; [reflexivity|]. split; [|exact S].
      intros to m' [I|[]]. discriminate.
    + intros H; injection H as <-.
      exists [Printed l],
             (msg_could_not_find_table (normalize_table_number text)), [].
      simpl. rewrite Tr, <- app_assoc.
      split; [reflexivity|]. split; [reflexivity|]. split; [|intros ? ? []].
      intros to m' [I|[]]. discriminate.
Qed.

Lemma handle_text_returns fuel sender s text w :
  (length (users (db w)) + 1 < fuel)%nat ->
  exists w', handle_text clock fuel sender s text w = Some w'.
Proof.
  intros L. unfold handle_text.
  destruct s as [[] []]; simpl; try (eexists; reflexivity).
  - destruct (text =? "waiter")%string; [eexists; reflexivity|].
    destruct (text =? "hi")%string; eexists; reflexivity.
  - destruct (List.map strip _) as [|name [|cnt [|y l]]];
      try (eexists; reflexivity).
    destruct (int cnt) as [count|]; [|eexists; reflexivity].
    destruct (count <=? 0); [eexists; reflexivity|].
    destruct (6 <? count); [eexists; reflexivity|].
    pose proof (save_length clock sender name count w) as Ls.
    destruct (save_user_data_to_db clock sender name count w) as [user_id w1].
    simpl in Ls.
    destruct (negb (user_id =? 0)); [|eexists; reflexivity].
    apply attempt_enough_fuel. simpl. lia.
  - destruct (text =? "waiter")%string; [eexists; reflexivity|].
    destruct (text =? "hi")%string; eexists; reflexivity.
  - destruct (text =? "waiter123")%string; eexists; reflexivity.
  - pose proof (release_users clock (normalize_table_number text) w) as U.
    destruct (update_table_status_to_free clock _ w) as [[|] w1]; simpl in U;
      [|eexists; reflexivity].
    destruct (attempt_enough_fuel clock fuel
                (send_message sender
                   (msg_table_marked_free (normalize_table_number text)) w1))
      as [w2 A]; [simpl; rewrite U; lia|].
    rewrite A. eexists; reflexivity.
Qed.

(** The handler returns when the call depth is above the length of the
    waitlist by more than one: the entry it may add, and the last pass. *)
Lemma handle_message_returns fuel msg w :
  (length (users (db w)) + 1 < fuel)%nat ->
  exists w', handle_message clock fuel msg w = Some w'.
Proof.
  intros L. unfold handle_message. cbv zeta.
  set (w0 := match user_states w !! m_from msg with
             | Some _ => w
             | None => set_session (m_from msg) fresh_session w
             end).
  assert (U0 : users (db w0) = users (db w))
    by (unfold w0; now destruct (user_states w !! m_from msg)).
  clearbody w0.
  destruct (m_type msg =? "text")%string; [|eexists; reflexivity].
  apply handle_text_returns. now rewrite U0.
Qed.

(** X22. Every message is answered. With a call depth above the length of
    the waitlist by more than one the handler returns, and it has sent its
    sender one reply, which is not a table-ready notification, and first of
    all it sends. Whatever else it sends are table-ready notifications of
    the allocation that follows, so that a party other than the sender
    only ever hears that its table is ready. *)
Theorem every_message_is_answered fuel msg w :
  (length (users (db w)) + 1 < fuel)%nat ->
  exists w' pre m evs,
    handle_message clock fuel msg w = Some w'
    /\ trace w' = (trace w ++ pre ++ Sent (m_from msg) m :: evs)%list
    /\ is_table_ready (Sent (m_from msg) m) = false
    /\ (forall to m', ~ In (Sent to m') pre)
    /\ (forall to m', In (Sent to m') evs ->
                      is_table_ready (Sent to m') = true).
Proof.
  intros L. destruct (handle_message_returns fuel msg w L) as (w' & H).
  exists w'. revert H.
  unfold handle_message. cbv zeta.
  set (w0 := match user_states w !! m_from msg with
             | Some _ => w
             | None => set_session (m_from msg) fresh_session w
             end).
  assert (T0 : trace w0 = trace w)
    by (unfold w0; now destruct (user_states w !! m_from msg)).
  clearbody w0. rewrite <- T0.
  destruct (m_type msg =? "text")%string.
  - intros H. destruct (handle_text_replies _ _ _ _ _ _ H)
      as (pre & m & evs & A & B & C & D).
    exists pre, m, evs. repeat split; assumption.
  - intros H. exists [], msg_only_text, [].
    split; [exact H|]. injection H as <-.
    repeat split; [intros ? ? []|intros ? ? []].
Qed.
End Order.


(** ** The further properties on the sample worlds *)

Lemma two_fives_and_a_pair_wf : db_wf (db two_fives_and_a_pair).
Proof. sample_wf. Qed.

Lemma waiter_releasing_wf : db_wf (db waiter_releasing).
Proof. sample_wf. Qed.

Lemma waiter_at_password_wf : db_wf (db waiter_at_password).
Proof. sample_wf. Qed.

Lemma init_db_idempotent_witness :
  In t5_seated (tables (db reseeded))
  /\ tables (db (init_db sample_clock reseeded)) = tables (db reseeded)
  /\ tables_seq (db reseeded) = 20
  /\ exists t, In t (tables (db reseeded)) /\ t_table_number t = "T5".
Proof.
  destruct (init_db_idempotent sample_clock seated_at_t5)
    as (Same & _ & _ & (added & E & _) & H & Q & _).
  fold reseeded in Same, E, H, Q.
  split; [|split; [exact Same|split]].
  - rewrite E. apply in_or_app. left. vm_compute. in_list.
  - rewrite Q. vm_compute. reflexivity.
  - apply (H "T5" 4). vm_compute. in_list.
Defined.

Lemma free_tables_smallest_first_witness :
  In (sample_table 1 "T1" 2 (Some 1)) (tables (db two_pairs_one_table))
  /\ ~ In 1 (List.map f_id (get_free_tables two_pairs_one_table)).
Proof.
  assert (I : In (sample_table 1 "T1" 2 (Some 1))
                 (tables (db two_pairs_one_table))) by (vm_compute; in_list).
  split; [exact I|].
  destruct (free_tables_smallest_first two_pairs_one_table) as (_ & _ & _ & H).
  apply (H (sample_table 1 "T1" 2 (Some 1)) I).
  - reflexivity.
  - apply (wf_table_ids _ two_pairs_one_table_wf).
Defined.

Lemma seat_customer_effect_witness :
  ~ In 99 (List.map t_id (tables (db two_pairs_one_table)))
  /\ tables (db (seat_customer sample_clock 11 99 "T99" "15550111" "cleo"
                   two_pairs_one_table)) =
     tables (db two_pairs_one_table).
Proof.
  assert (N : ~ In 99 (List.map t_id (tables (db two_pairs_one_table)))).
  { vm_compute. intros H.
    repeat (destruct H as [H|H]; [discriminate|]). exact H. }
  split; [exact N|].
  destruct (seat_customer_effect sample_clock 11 99 "T99" "15550111" "cleo"
              two_pairs_one_table) as (_ & _ & _ & _ & _ & H).
  exact (H N).
Defined.

Lemma pass_commits_smallest_fit_witness :
  allocation_pass sample_clock two_parties_four_tables =
    (true, snd (allocation_pass sample_clock two_parties_four_tables))
  /\ exists x r,
       snd (allocation_pass sample_clock two_parties_four_tables) =
         commit sample_clock x (print log_attempting two_parties_four_tables)
       /\ In r (tables (db two_parties_four_tables)) /\ t_status r = free
       /\ u_people_count (a_customer x) <= t_capacity r.
Proof.
  assert (E : allocation_pass sample_clock two_parties_four_tables =
              (true, snd (allocation_pass sample_clock two_parties_four_tables)))
    by (vm_compute; reflexivity).
  split; [exact E|].
  destruct (pass_commits_smallest_fit sample_clock two_parties_four_tables)
    as (_ & H).
  destruct (H _ E) as (x & r & C & _ & I & S & _ & F & _).
  exists x, r. repeat split; assumption.
Defined.

Lemma pass_commits_least_pair_witness :
  next_allocation (get_waiting_customers two_pairs_one_table)
                  (get_free_tables two_pairs_one_table) =
    Some (candidate early_pair (as_free_table (sample_table 2 "T2" 2 None)))
  /\ u_timestamp early_pair <= u_timestamp late_pair.
Proof.
  assert (N : next_allocation (get_waiting_customers two_pairs_one_table)
                              (get_free_tables two_pairs_one_table) =
              Some (candidate early_pair
                      (as_free_table (sample_table 2 "T2" 2 None))))
    by (vm_compute; reflexivity).
  split; [exact N|].
  destruct (pass_commits_least_pair sample_clock two_pairs_one_table _ N)
    as (_ & _ & H).
  apply (H late_pair).
  - vm_compute. in_list.
  - reflexivity.
Defined.

Lemma run_seats_only_on_free_tables_witness :
  exists w',
    attempt_seating_allocation sample_clock 3 two_parties_four_tables = Some w'
    /\ forall r, In r (tables (db two_parties_four_tables)) ->
                 t_status r = occupied -> In r (tables (db w')).
Proof.
  destruct (attempt_seating_allocation sample_clock 3 two_parties_four_tables)
    as [w'|] eqn:E.
  - exists w'. split; [reflexivity|].
    destruct (run_seats_only_on_free_tables sample_clock 3
                two_parties_four_tables w' two_parties_four_tables_wf E)
      as (_ & H & _).
    exact H.
  - vm_compute in E. discriminate E.
Defined.

Lemma run_ends_settled_witness :
  exists w',
    attempt_seating_allocation sample_clock 2 two_pairs_one_table = Some w'
    /\ settled w'.
Proof.
  destruct (attempt_seating_allocation sample_clock 2 two_pairs_one_table)
    as [w'|] eqn:E.
  - exists w'. split; [reflexivity|].
    exact (run_ends_settled sample_clock 2 two_pairs_one_table w' E).
  - vm_compute in E. discriminate E.
Defined.

Lemma run_notifies_each_seated_party_witness :
  exists w' evs,
    attempt_seating_allocation sample_clock 3 two_parties_four_tables = Some w'
    /\ trace w' = (trace two_parties_four_tables ++ evs)%list
    /\ length (users (db two_parties_four_tables)) =
       (length (users (db w')) + length (List.filter is_table_ready evs))%nat.
Proof.
  destruct (attempt_seating_allocation sample_clock 3 two_parties_four_tables)
    as [w'|] eqn:E.
  - destruct (run_notifies_each_seated_party sample_clock 3
                two_parties_four_tables w' two_parties_four_tables_wf E)
      as (evs & T & L & _).
    exists w', evs. repeat split; assumption.
  - vm_compute in E. discriminate E.
Defined.

Lemma sessions_stay_valid_witness :
  user_states full_house = ∅
  /\ exists w',
       webhook sample_clock 10 evening full_house = Some w'
       /\ forall p s, user_states w' !! p = Some s -> valid_session s.
Proof.
  split; [reflexivity|].
  destruct (webhook sample_clock 10 evening full_house) as [w'|] eqn:E.
  - exists w'. split; [reflexivity|].
    destruct (sessions_stay_valid sample_clock) as (_ & H).
    exact (H 10%nat evening full_house w' eq_refl E).
  - vm_compute in E. discriminate E.
Defined.

Lemma other_sessions_untouched_witness :
  "15550001" <> m_from hi_message
  /\ exists w',
       handle_message sample_clock 1 hi_message waiter_prompted = Some w'
       /\ user_states w' !! "15550001" = user_states waiter_prompted !! "15550001".
Proof.
  assert (N : "15550001" <> m_from hi_message) by discriminate.
  split; [exact N|].
  destruct (handle_message sample_clock 1 hi_message waiter_prompted)
    as [w'|] eqn:E.
  - exists w'. split; [reflexivity|].
    exact (other_sessions_untouched sample_clock 1 hi_message waiter_prompted
             w' "15550001" E N).
  - vm_compute in E. discriminate E.
Defined.

Lemma non_text_message_ignored_witness :
  m_type image_message <> "text"
  /\ exists w',
       handle_message sample_clock 1 image_message seeded_world = Some w'
       /\ db w' = db seeded_world.
Proof.
  assert (N : m_type image_message <> "text") by discriminate.
  split; [exact N|].
  destruct (non_text_message_ignored sample_clock 1 image_message seeded_world N)
    as (w' & H & _ & D & _).
  exists w'. split; assumption.
Defined.

Lemma unrecognised_text_changes_nothing_witness :
  strip (lower (m_text_body wrong_password_message)) <> "waiter123"
  /\ exists w',
       handle_message sample_clock 1 wrong_password_message waiter_at_password
         = Some w'
       /\ user_states w' !! "15550001" =
          Some {| s_role := Customer; s_state := initial |}.
Proof.
  assert (N : strip (lower (m_text_body wrong_password_message)) <> "waiter123")
    by (vm_compute; discriminate).
  split; [exact N|].
  destruct (unrecognised_text_changes_nothing sample_clock) as (H & _).
  destruct (H 1%nat wrong_password_message waiter_at_password) as (w' & E & _ & _ & S).
  - reflexivity.
  - reflexivity.
  - vm_compute. reflexivity.
  - exact N.
  - exists w'. split; assumption.
Defined.

Lemma nobody_waits_for_a_free_fit_witness :
  exists w',
    webhook sample_clock 10 evening (init_db sample_clock blank_world) = Some w'
    /\ settled w'.
Proof.
  destruct (webhook sample_clock 10 evening (init_db sample_clock blank_world))
    as [w'|] eqn:E.
  - exists w'. split; [reflexivity|].
    destruct (nobody_waits_for_a_free_fit sample_clock) as (_ & H).
    exact (H 10%nat evening w' E).
  - vm_compute in E. discriminate E.
Defined.

Lemma occupied_until_released_witness :
  In (sample_table 1 "T1" 2 (Some 1)) (tables (db waiter_releasing))
  /\ exists w',
       handle_message sample_clock 4 release_t3_message waiter_releasing = Some w'
       /\ users (db w') = []
       /\ In (sample_table 1 "T1" 2 (Some 1)) (tables (db w')).
Proof.
  assert (I : In (sample_table 1 "T1" 2 (Some 1))
                 (tables (db waiter_releasing))) by (vm_compute; in_list).
  split; [exact I|].
  destruct (handle_message sample_clock 4 release_t3_message waiter_releasing)
    as [w'|] eqn:E.
  - exists w'. split; [reflexivity|]. split.
    + vm_compute in E. injection E as <-. reflexivity.
    + apply (occupied_until_released sample_clock 4 release_t3_message
               waiter_releasing w' _ eq_refl waiter_releasing_wf E I).
      * reflexivity.
      * right. right. vm_compute. discriminate.
  - vm_compute in E. discriminate E.
Defined.

Lemma table_prompt_needs_password_witness :
  exists w',
    handle_message sample_clock 1 password_message waiter_at_password = Some w'
    /\ s_state (session_of "15550001" w') = awaiting_free_table_number
    /\ strip (lower (m_text_body password_message)) = "waiter123".
Proof.
  destruct (handle_message sample_clock 1 password_message waiter_at_password)
    as [w'|] eqn:E.
  - exists w'. split; [reflexivity|].
    assert (S : s_state (session_of (m_from password_message) w') =
                awaiting_free_table_number).
    { vm_compute in E. injection E as <-. vm_compute. reflexivity. }
    split; [exact S|].
    destruct (table_prompt_needs_password sample_clock 1 password_message
                waiter_at_password w' eq_refl E S) as [H|(_ & _ & H)];
      [|exact H].
    vm_compute in H. discriminate H.
  - vm_compute in E. discriminate E.
Defined.

Lemma table_number_spellings_witness :
  digits "10"
  /\ normalize_table_number (strip (lower "Table 10")) = "T10".
Proof.
  assert (D : digits "10") by (split; [discriminate|repeat constructor]).
  split; [exact D|].
  destruct (table_number_spellings "10" D) as (_ & _ & _ & _ & _ & _ & H & _).
  exact H.
Defined.

Lemma enqueue_touches_one_entry_witness :
  tables (db (snd (save_user_data_to_db sample_clock "15550111" "cleo" 4
                     two_pairs_one_table))) =
  tables (db two_pairs_one_table)
  /\ (In late_pair (users (db (snd (save_user_data_to_db sample_clock
                                     "15550111" "cleo" 4 two_pairs_one_table))))
      <-> In late_pair (users (db two_pairs_one_table))).
Proof.
  destruct (enqueue_touches_one_entry sample_clock "15550111" "cleo" 4
              two_pairs_one_table two_pairs_one_table_wf) as (H & T & _).
  split; [exact T|]. apply H. vm_compute. discriminate.
Defined.

Lemma reachable_store_invariants_witness :
  exists w',
    webhook sample_clock 10 evening (init_db sample_clock blank_world) = Some w'
    /\ db_wf (db w')
    /\ length (tables (db w')) = 10%nat.
Proof.
  destruct (webhook sample_clock 10 evening (init_db sample_clock blank_world))
    as [w'|] eqn:E.
  - exists w'. split; [reflexivity|].
    destruct (reachable_store_invariants sample_clock) as (_ & H).
    destruct (H 10%nat evening w' E) as (W & _ & T).
    split; [exact W|].
    rewrite <- (length_map table_identity), T. reflexivity.
  - vm_compute in E. discriminate E.
Defined.


Lemma same_size_parties_in_order_witness :
  exists w',
    attempt_seating_allocation sample_clock 2 two_fives_and_a_pair = Some w'
    /\ ~ In small_party (users (db w'))
    /\ In early_five (users (db w'))
    /\ In late_five (users (db w')).
Proof.
  destruct (attempt_seating_allocation sample_clock 2 two_fives_and_a_pair)
    as [w'|] eqn:E.
  - exists w'. split; [reflexivity|].
    assert (U : users (db w') = [early_five; late_five]).
    { vm_compute in E. injection E as <-. reflexivity. }
    assert (I : In early_five (users (db w'))) by (rewrite U; now left).
    split; [|split; [exact I|]].
    + rewrite U. intros [H|[H|[]]]; discriminate H.
    + apply (same_size_parties_in_order sample_clock 2 two_fives_and_a_pair w'
               early_five late_five two_fives_and_a_pair_wf E).
      * vm_compute. in_list.
      * vm_compute. in_list.
      * reflexivity.
      * vm_compute. reflexivity.
      * exact I.
  - vm_compute in E. discriminate E.
Defined.

Lemma every_message_is_answered_witness :
  exists w' pre m evs,
    handle_message sample_clock 4 release_t3_message waiter_releasing = Some w'
    /\ trace w' =
       (trace waiter_releasing ++ pre ++ Sent "15550001" m :: evs)%list
    /\ is_table_ready (Sent "15550001" m) = false.
Proof.
  destruct (every_message_is_answered sample_clock 4 release_t3_message
              waiter_releasing) as (w' & pre & m & evs & E & T & R & _).
  - vm_compute. lia.
  - exists w', pre, m, evs. repeat split; assumption.
Defined.
